(** * Verification of the eBook generation pipeline (generate_ebook.py, llm_client.py)

    A shallow embedding of the pipeline's functions:
    - Python [str] values are lists of Unicode code points ([list N]);
    - exceptions are an explicit [result] type with a bind notation;
    - configurations (Python dicts with string keys) and the output directory
      are stdpp finite maps;
    - the two regular expressions of [extract_chapter_titles] are terms of a
      small backtracking matcher that follows Python's [re] semantics
      (greedy repetition, ordered alternation, capture groups). *)

From Stdlib Require Import NArith ZArith List String Ascii Bool Lia DecimalString
  DecimalZ DecimalPos.
From stdpp Require Import base option list gmap.

Import ListNotations.

(** ** Python strings as lists of code points *)

Abbreviation str := (list N).

(** An ASCII literal as a Python string. *)
Definition u (s : string) : str :=
  map N_of_ascii (list_ascii_of_string s).
Arguments u s%_string : simpl never.

Module Char.
Local Open Scope N_scope.

Definition LF : N := 10.
Definition CR : N := 13.
Definition SPACE : N := 32.
Definition DQUOTE : N := 34.
Definition HASH : N := 35.
Definition STAR : N := 42.
Definition HYPHEN : N := 45.
Definition DOT : N := 46.
Definition EN_DASH : N := 8211.
Definition EM_DASH : N := 8212.
Definition BULLET : N := 8226.
Definition BLACK_CIRCLE : N := 9679.
Definition DIRECT_HIT : N := 127919.

(** [str.isspace] for one code point, which is also the class [\s] of
    [re] on [str] patterns (Py_UNICODE_ISSPACE). *)
Definition is_space (c : N) : bool :=
  ((9 <=? c) && (c <=? 13)) || ((28 <=? c) && (c <=? 32))
  || (c =? 133) || (c =? 160) || (c =? 5760)
  || ((8192 <=? c) && (c <=? 8202))
  || (c =? 8232) || (c =? 8233) || (c =? 8239) || (c =? 8287)
  || (c =? 12288).

(** The line boundaries of [str.splitlines]. *)
Definition is_linebreak (c : N) : bool :=
  ((10 <=? c) && (c <=? 13)) || ((28 <=? c) && (c <=? 30))
  || (c =? 133) || (c =? 8232) || (c =? 8233).

(** The class [\d] of [re] on [str] patterns: general category Nd.
    Every entry starts a run of ten consecutive digits 0..9
    (Unicode 14.0, the database of CPython 3.11). *)
Definition decimal_zeros : list N :=
  [48; 1632; 1776; 1984; 2406; 2534; 2662; 2790; 2918; 3046; 3174; 3302;
   3430; 3558; 3664; 3792; 3872; 4160; 4240; 6112; 6160; 6470; 6608; 6784;
   6800; 6992; 7088; 7232; 7248; 42528; 43216; 43264; 43472; 43504; 43600;
   44016; 65296; 66720; 68912; 69734; 69872; 69942; 70096; 70384; 70736;
   70864; 71248; 71360; 71472; 71904; 72016; 72784; 73040; 73120; 92768;
   92864; 93008; 120782; 120792; 120802; 120812; 120822; 123200; 123632;
   125264; 130032].

Definition is_decimal (c : N) : bool :=
  existsb (fun z => (z <=? c) && (c <? z + 10)) decimal_zeros.

(** All decimal digits, listed. *)
Definition decimal_points : list N :=
  flat_map (fun z => map (N.add z) [0; 1; 2; 3; 4; 5; 6; 7; 8; 9])
    decimal_zeros.

Definition is_upper (c : N) : bool := (65 <=? c) && (c <=? 90).

(** The lower-case form [re] compares under IGNORECASE, for the ASCII
    letters; the pattern's only literal word is made of such letters. *)
Definition lower (c : N) : N := if is_upper c then c + 32 else c.

(** *** Case mapping

    The tables of [str.lower] and [str.title] (Unicode 14.0, the database
    of CPython 3.11). A run [(lo, hi, step, lo')] maps the code points
    [lo], [lo + step], ..., [hi] to [lo'], [lo' + step], ...; the special
    tables hold the mappings to more than one code point. *)

Definition lower_runs : list (N * N * N * N) :=
  [(65, 90, 1, 97); (192, 214, 1, 224); (216, 222, 1, 248);
   (256, 302, 2, 257); (306, 310, 2, 307); (313, 327, 2, 314);
   (330, 374, 2, 331); (376, 376, 1, 255); (377, 381, 2, 378);
   (385, 385, 1, 595); (386, 388, 2, 387); (390, 390, 1, 596);
   (391, 391, 1, 392); (393, 394, 1, 598); (395, 395, 1, 396);
   (398, 398, 1, 477); (399, 399, 1, 601); (400, 400, 1, 603);
   (401, 401, 1, 402); (403, 403, 1, 608); (404, 404, 1, 611);
   (406, 406, 1, 617); (407, 407, 1, 616); (408, 408, 1, 409);
   (412, 412, 1, 623); (413, 413, 1, 626); (415, 415, 1, 629);
   (416, 420, 2, 417); (422, 422, 1, 640); (423, 423, 1, 424);
   (425, 425, 1, 643); (428, 428, 1, 429); (430, 430, 1, 648);
   (431, 431, 1, 432); (433, 434, 1, 650); (435, 437, 2, 436);
   (439, 439, 1, 658); (440, 440, 1, 441); (444, 444, 1, 445);
   (452, 452, 1, 454); (453, 453, 1, 454); (455, 455, 1, 457);
   (456, 456, 1, 457); (458, 458, 1, 460); (459, 475, 2, 460);
   (478, 494, 2, 479); (497, 497, 1, 499); (498, 500, 2, 499);
   (502, 502, 1, 405); (503, 503, 1, 447); (504, 542, 2, 505);
   (544, 544, 1, 414); (546, 562, 2, 547); (570, 570, 1, 11365);
   (571, 571, 1, 572); (573, 573, 1, 410); (574, 574, 1, 11366);
   (577, 577, 1, 578); (579, 579, 1, 384); (580, 580, 1, 649);
   (581, 581, 1, 652); (582, 590, 2, 583); (880, 882, 2, 881);
   (886, 886, 1, 887); (895, 895, 1, 1011); (902, 902, 1, 940);
   (904, 906, 1, 941); (908, 908, 1, 972); (910, 911, 1, 973);
   (913, 929, 1, 945); (931, 939, 1, 963); (975, 975, 1, 983);
   (984, 1006, 2, 985); (1012, 1012, 1, 952); (1015, 1015, 1, 1016);
   (1017, 1017, 1, 1010); (1018, 1018, 1, 1019); (1021, 1023, 1, 891);
   (1024, 1039, 1, 1104); (1040, 1071, 1, 1072); (1120, 1152, 2, 1121);
   (1162, 1214, 2, 1163); (1216, 1216, 1, 1231); (1217, 1229, 2, 1218);
   (1232, 1326, 2, 1233); (1329, 1366, 1, 1377); (4256, 4293, 1, 11520);
   (4295, 4295, 1, 11559); (4301, 4301, 1, 11565); (5024, 5103, 1, 43888);
   (5104, 5109, 1, 5112); (7312, 7354, 1, 4304); (7357, 7359, 1, 4349);
   (7680, 7828, 2, 7681); (7838, 7838, 1, 223); (7840, 7934, 2, 7841);
   (7944, 7951, 1, 7936); (7960, 7965, 1, 7952); (7976, 7983, 1, 7968);
   (7992, 7999, 1, 7984); (8008, 8013, 1, 8000); (8025, 8031, 2, 8017);
   (8040, 8047, 1, 8032); (8072, 8079, 1, 8064); (8088, 8095, 1, 8080);
   (8104, 8111, 1, 8096); (8120, 8121, 1, 8112); (8122, 8123, 1, 8048);
   (8124, 8124, 1, 8115); (8136, 8139, 1, 8050); (8140, 8140, 1, 8131);
   (8152, 8153, 1, 8144); (8154, 8155, 1, 8054); (8168, 8169, 1, 8160);
   (8170, 8171, 1, 8058); (8172, 8172, 1, 8165); (8184, 8185, 1, 8056);
   (8186, 8187, 1, 8060); (8188, 8188, 1, 8179); (8486, 8486, 1, 969);
   (8490, 8490, 1, 107); (8491, 8491, 1, 229); (8498, 8498, 1, 8526);
   (8544, 8559, 1, 8560); (8579, 8579, 1, 8580); (9398, 9423, 1, 9424);
   (11264, 11311, 1, 11312); (11360, 11360, 1, 11361); (11362, 11362, 1, 619);
   (11363, 11363, 1, 7549); (11364, 11364, 1, 637); (11367, 11371, 2, 11368);
   (11373, 11373, 1, 593); (11374, 11374, 1, 625); (11375, 11375, 1, 592);
   (11376, 11376, 1, 594); (11378, 11378, 1, 11379); (11381, 11381, 1, 11382);
   (11390, 11391, 1, 575); (11392, 11490, 2, 11393); (11499, 11501, 2, 11500);
   (11506, 11506, 1, 11507); (42560, 42604, 2, 42561);
   (42624, 42650, 2, 42625); (42786, 42798, 2, 42787);
   (42802, 42862, 2, 42803); (42873, 42875, 2, 42874);
   (42877, 42877, 1, 7545); (42878, 42886, 2, 42879);
   (42891, 42891, 1, 42892); (42893, 42893, 1, 613); (42896, 42898, 2, 42897);
   (42902, 42920, 2, 42903); (42922, 42922, 1, 614); (42923, 42923, 1, 604);
   (42924, 42924, 1, 609); (42925, 42925, 1, 620); (42926, 42926, 1, 618);
   (42928, 42928, 1, 670); (42929, 42929, 1, 647); (42930, 42930, 1, 669);
   (42931, 42931, 1, 43859); (42932, 42946, 2, 42933);
   (42948, 42948, 1, 42900); (42949, 42949, 1, 642); (42950, 42950, 1, 7566);
   (42951, 42953, 2, 42952); (42960, 42960, 1, 42961);
   (42966, 42968, 2, 42967); (42997, 42997, 1, 42998);
   (65313, 65338, 1, 65345); (66560, 66599, 1, 66600);
   (66736, 66771, 1, 66776); (66928, 66938, 1, 66967);
   (66940, 66954, 1, 66979); (66956, 66962, 1, 66995);
   (66964, 66965, 1, 67003); (68736, 68786, 1, 68800);
   (71840, 71871, 1, 71872); (93760, 93791, 1, 93792);
   (125184, 125217, 1, 125218)].

Definition lower_special : list (N * list N) :=
  [(304, [105; 775])].

Definition title_runs : list (N * N * N * N) :=
  [(97, 122, 1, 65); (181, 181, 1, 924); (224, 246, 1, 192);
   (248, 254, 1, 216); (255, 255, 1, 376); (257, 303, 2, 256);
   (305, 305, 1, 73); (307, 311, 2, 306); (314, 328, 2, 313);
   (331, 375, 2, 330); (378, 382, 2, 377); (383, 383, 1, 83);
   (384, 384, 1, 579); (387, 389, 2, 386); (392, 392, 1, 391);
   (396, 396, 1, 395); (402, 402, 1, 401); (405, 405, 1, 502);
   (409, 409, 1, 408); (410, 410, 1, 573); (414, 414, 1, 544);
   (417, 421, 2, 416); (424, 424, 1, 423); (429, 429, 1, 428);
   (432, 432, 1, 431); (436, 438, 2, 435); (441, 441, 1, 440);
   (445, 445, 1, 444); (447, 447, 1, 503); (452, 452, 1, 453);
   (454, 454, 1, 453); (455, 455, 1, 456); (457, 457, 1, 456);
   (458, 458, 1, 459); (460, 476, 2, 459); (477, 477, 1, 398);
   (479, 495, 2, 478); (497, 497, 1, 498); (499, 501, 2, 498);
   (505, 543, 2, 504); (547, 563, 2, 546); (572, 572, 1, 571);
   (575, 576, 1, 11390); (578, 578, 1, 577); (583, 591, 2, 582);
   (592, 592, 1, 11375); (593, 593, 1, 11373); (594, 594, 1, 11376);
   (595, 595, 1, 385); (596, 596, 1, 390); (598, 599, 1, 393);
   (601, 601, 1, 399); (603, 603, 1, 400); (604, 604, 1, 42923);
   (608, 608, 1, 403); (609, 609, 1, 42924); (611, 611, 1, 404);
   (613, 613, 1, 42893); (614, 614, 1, 42922); (616, 616, 1, 407);
   (617, 617, 1, 406); (618, 618, 1, 42926); (619, 619, 1, 11362);
   (620, 620, 1, 42925); (623, 623, 1, 412); (625, 625, 1, 11374);
   (626, 626, 1, 413); (629, 629, 1, 415); (637, 637, 1, 11364);
   (640, 640, 1, 422); (642, 642, 1, 42949); (643, 643, 1, 425);
   (647, 647, 1, 42929); (648, 648, 1, 430); (649, 649, 1, 580);
   (650, 651, 1, 433); (652, 652, 1, 581); (658, 658, 1, 439);
   (669, 669, 1, 42930); (670, 670, 1, 42928); (837, 837, 1, 921);
   (881, 883, 2, 880); (887, 887, 1, 886); (891, 893, 1, 1021);
   (940, 940, 1, 902); (941, 943, 1, 904); (945, 961, 1, 913);
   (962, 962, 1, 931); (963, 971, 1, 931); (972, 972, 1, 908);
   (973, 974, 1, 910); (976, 976, 1, 914); (977, 977, 1, 920);
   (981, 981, 1, 934); (982, 982, 1, 928); (983, 983, 1, 975);
   (985, 1007, 2, 984); (1008, 1008, 1, 922); (1009, 1009, 1, 929);
   (1010, 1010, 1, 1017); (1011, 1011, 1, 895); (1013, 1013, 1, 917);
   (1016, 1016, 1, 1015); (1019, 1019, 1, 1018); (1072, 1103, 1, 1040);
   (1104, 1119, 1, 1024); (1121, 1153, 2, 1120); (1163, 1215, 2, 1162);
   (1218, 1230, 2, 1217); (1231, 1231, 1, 1216); (1233, 1327, 2, 1232);
   (1377, 1414, 1, 1329); (5112, 5117, 1, 5104); (7296, 7296, 1, 1042);
   (7297, 7297, 1, 1044); (7298, 7298, 1, 1054); (7299, 7300, 1, 1057);
   (7301, 7301, 1, 1058); (7302, 7302, 1, 1066); (7303, 7303, 1, 1122);
   (7304, 7304, 1, 42570); (7545, 7545, 1, 42877); (7549, 7549, 1, 11363);
   (7566, 7566, 1, 42950); (7681, 7829, 2, 7680); (7835, 7835, 1, 7776);
   (7841, 7935, 2, 7840); (7936, 7943, 1, 7944); (7952, 7957, 1, 7960);
   (7968, 7975, 1, 7976); (7984, 7991, 1, 7992); (8000, 8005, 1, 8008);
   (8017, 8023, 2, 8025); (8032, 8039, 1, 8040); (8048, 8049, 1, 8122);
   (8050, 8053, 1, 8136); (8054, 8055, 1, 8154); (8056, 8057, 1, 8184);
   (8058, 8059, 1, 8170); (8060, 8061, 1, 8186); (8064, 8071, 1, 8072);
   (8080, 8087, 1, 8088); (8096, 8103, 1, 8104); (8112, 8113, 1, 8120);
   (8115, 8115, 1, 8124); (8126, 8126, 1, 921); (8131, 8131, 1, 8140);
   (8144, 8145, 1, 8152); (8160, 8161, 1, 8168); (8165, 8165, 1, 8172);
   (8179, 8179, 1, 8188); (8526, 8526, 1, 8498); (8560, 8575, 1, 8544);
   (8580, 8580, 1, 8579); (9424, 9449, 1, 9398); (11312, 11359, 1, 11264);
   (11361, 11361, 1, 11360); (11365, 11365, 1, 570); (11366, 11366, 1, 574);
   (11368, 11372, 2, 11367); (11379, 11379, 1, 11378);
   (11382, 11382, 1, 11381); (11393, 11491, 2, 11392);
   (11500, 11502, 2, 11499); (11507, 11507, 1, 11506);
   (11520, 11557, 1, 4256); (11559, 11559, 1, 4295); (11565, 11565, 1, 4301);
   (42561, 42605, 2, 42560); (42625, 42651, 2, 42624);
   (42787, 42799, 2, 42786); (42803, 42863, 2, 42802);
   (42874, 42876, 2, 42873); (42879, 42887, 2, 42878);
   (42892, 42892, 1, 42891); (42897, 42899, 2, 42896);
   (42900, 42900, 1, 42948); (42903, 42921, 2, 42902);
   (42933, 42947, 2, 42932); (42952, 42954, 2, 42951);
   (42961, 42961, 1, 42960); (42967, 42969, 2, 42966);
   (42998, 42998, 1, 42997); (43859, 43859, 1, 42931);
   (43888, 43967, 1, 5024); (65345, 65370, 1, 65313);
   (66600, 66639, 1, 66560); (66776, 66811, 1, 66736);
   (66967, 66977, 1, 66928); (66979, 66993, 1, 66940);
   (66995, 67001, 1, 66956); (67003, 67004, 1, 66964);
   (68800, 68850, 1, 68736); (71872, 71903, 1, 71840);
   (93792, 93823, 1, 93760); (125218, 125251, 1, 125184)].

Definition title_special : list (N * list N) :=
  [(223, [83; 115]); (329, [700; 78]); (496, [74; 780]);
   (912, [921; 776; 769]); (944, [933; 776; 769]); (1415, [1333; 1410]);
   (7830, [72; 817]); (7831, [84; 776]); (7832, [87; 778]); (7833, [89; 778]);
   (7834, [65; 702]); (8016, [933; 787]); (8018, [933; 787; 768]);
   (8020, [933; 787; 769]); (8022, [933; 787; 834]); (8114, [8122; 837]);
   (8116, [902; 837]); (8118, [913; 834]); (8119, [913; 834; 837]);
   (8130, [8138; 837]); (8132, [905; 837]); (8134, [919; 834]);
   (8135, [919; 834; 837]); (8146, [921; 776; 768]); (8147, [921; 776; 769]);
   (8150, [921; 834]); (8151, [921; 776; 834]); (8162, [933; 776; 768]);
   (8163, [933; 776; 769]); (8164, [929; 787]); (8166, [933; 834]);
   (8167, [933; 776; 834]); (8178, [8186; 837]); (8180, [911; 837]);
   (8182, [937; 834]); (8183, [937; 834; 837]); (64256, [70; 102]);
   (64257, [70; 105]); (64258, [70; 108]); (64259, [70; 102; 105]);
   (64260, [70; 102; 108]); (64261, [83; 116]); (64262, [83; 116]);
   (64275, [1348; 1398]); (64276, [1348; 1381]); (64277, [1348; 1387]);
   (64278, [1358; 1398]); (64279, [1348; 1389])].

Definition cased_ranges : list (N * N) :=
  [(65, 90); (97, 122); (170, 170); (181, 181); (186, 186); (192, 214);
   (216, 246); (248, 442); (444, 447); (452, 659); (661, 696); (704, 705);
   (736, 740); (837, 837); (880, 883); (886, 887); (890, 893); (895, 895);
   (902, 902); (904, 906); (908, 908); (910, 929); (931, 1013); (1015, 1153);
   (1162, 1327); (1329, 1366); (1376, 1416); (4256, 4293); (4295, 4295);
   (4301, 4301); (4304, 4346); (4349, 4351); (5024, 5109); (5112, 5117);
   (7296, 7304); (7312, 7354); (7357, 7359); (7424, 7615); (7680, 7957);
   (7960, 7965); (7968, 8005); (8008, 8013); (8016, 8023); (8025, 8025);
   (8027, 8027); (8029, 8029); (8031, 8061); (8064, 8116); (8118, 8124);
   (8126, 8126); (8130, 8132); (8134, 8140); (8144, 8147); (8150, 8155);
   (8160, 8172); (8178, 8180); (8182, 8188); (8305, 8305); (8319, 8319);
   (8336, 8348); (8450, 8450); (8455, 8455); (8458, 8467); (8469, 8469);
   (8473, 8477); (8484, 8484); (8486, 8486); (8488, 8488); (8490, 8493);
   (8495, 8500); (8505, 8505); (8508, 8511); (8517, 8521); (8526, 8526);
   (8544, 8575); (8579, 8580); (9398, 9449); (11264, 11492); (11499, 11502);
   (11506, 11507); (11520, 11557); (11559, 11559); (11565, 11565);
   (42560, 42605); (42624, 42653); (42786, 42887); (42891, 42894);
   (42896, 42954); (42960, 42961); (42963, 42963); (42965, 42969);
   (42997, 42998); (43000, 43002); (43824, 43866); (43868, 43880);
   (43888, 43967); (64256, 64262); (64275, 64279); (65313, 65338);
   (65345, 65370); (66560, 66639); (66736, 66771); (66776, 66811);
   (66928, 66938); (66940, 66954); (66956, 66962); (66964, 66965);
   (66967, 66977); (66979, 66993); (66995, 67001); (67003, 67004);
   (67456, 67456); (67459, 67461); (67463, 67504); (67506, 67514);
   (68736, 68786); (68800, 68850); (71840, 71903); (93760, 93823);
   (119808, 119892); (119894, 119964); (119966, 119967); (119970, 119970);
   (119973, 119974); (119977, 119980); (119982, 119993); (119995, 119995);
   (119997, 120003); (120005, 120069); (120071, 120074); (120077, 120084);
   (120086, 120092); (120094, 120121); (120123, 120126); (120128, 120132);
   (120134, 120134); (120138, 120144); (120146, 120485); (120488, 120512);
   (120514, 120538); (120540, 120570); (120572, 120596); (120598, 120628);
   (120630, 120654); (120656, 120686); (120688, 120712); (120714, 120744);
   (120746, 120770); (120772, 120779); (122624, 122633); (122635, 122654);
   (125184, 125251); (127280, 127305); (127312, 127337); (127344, 127369)].

Definition case_ignorable_ranges : list (N * N) :=
  [(39, 39); (46, 46); (58, 58); (94, 94); (96, 96); (168, 168); (173, 173);
   (175, 175); (180, 180); (183, 184); (688, 879); (884, 885); (890, 890);
   (900, 901); (903, 903); (1155, 1161); (1369, 1369); (1375, 1375);
   (1425, 1469); (1471, 1471); (1473, 1474); (1476, 1477); (1479, 1479);
   (1524, 1524); (1536, 1541); (1552, 1562); (1564, 1564); (1600, 1600);
   (1611, 1631); (1648, 1648); (1750, 1757); (1759, 1768); (1770, 1773);
   (1807, 1807); (1809, 1809); (1840, 1866); (1958, 1968); (2027, 2037);
   (2042, 2042); (2045, 2045); (2070, 2093); (2137, 2139); (2184, 2184);
   (2192, 2193); (2200, 2207); (2249, 2306); (2362, 2362); (2364, 2364);
   (2369, 2376); (2381, 2381); (2385, 2391); (2402, 2403); (2417, 2417);
   (2433, 2433); (2492, 2492); (2497, 2500); (2509, 2509); (2530, 2531);
   (2558, 2558); (2561, 2562); (2620, 2620); (2625, 2626); (2631, 2632);
   (2635, 2637); (2641, 2641); (2672, 2673); (2677, 2677); (2689, 2690);
   (2748, 2748); (2753, 2757); (2759, 2760); (2765, 2765); (2786, 2787);
   (2810, 2815); (2817, 2817); (2876, 2876); (2879, 2879); (2881, 2884);
   (2893, 2893); (2901, 2902); (2914, 2915); (2946, 2946); (3008, 3008);
   (3021, 3021); (3072, 3072); (3076, 3076); (3132, 3132); (3134, 3136);
   (3142, 3144); (3146, 3149); (3157, 3158); (3170, 3171); (3201, 3201);
   (3260, 3260); (3263, 3263); (3270, 3270); (3276, 3277); (3298, 3299);
   (3328, 3329); (3387, 3388); (3393, 3396); (3405, 3405); (3426, 3427);
   (3457, 3457); (3530, 3530); (3538, 3540); (3542, 3542); (3633, 3633);
   (3636, 3642); (3654, 3662); (3761, 3761); (3764, 3772); (3782, 3782);
   (3784, 3789); (3864, 3865); (3893, 3893); (3895, 3895); (3897, 3897);
   (3953, 3966); (3968, 3972); (3974, 3975); (3981, 3991); (3993, 4028);
   (4038, 4038); (4141, 4144); (4146, 4151); (4153, 4154); (4157, 4158);
   (4184, 4185); (4190, 4192); (4209, 4212); (4226, 4226); (4229, 4230);
   (4237, 4237); (4253, 4253); (4348, 4348); (4957, 4959); (5906, 5908);
   (5938, 5939); (5970, 5971); (6002, 6003); (6068, 6069); (6071, 6077);
   (6086, 6086); (6089, 6099); (6103, 6103); (6109, 6109); (6155, 6159);
   (6211, 6211); (6277, 6278); (6313, 6313); (6432, 6434); (6439, 6440);
   (6450, 6450); (6457, 6459); (6679, 6680); (6683, 6683); (6742, 6742);
   (6744, 6750); (6752, 6752); (6754, 6754); (6757, 6764); (6771, 6780);
   (6783, 6783); (6823, 6823); (6832, 6862); (6912, 6915); (6964, 6964);
   (6966, 6970); (6972, 6972); (6978, 6978); (7019, 7027); (7040, 7041);
   (7074, 7077); (7080, 7081); (7083, 7085); (7142, 7142); (7144, 7145);
   (7149, 7149); (7151, 7153); (7212, 7219); (7222, 7223); (7288, 7293);
   (7376, 7378); (7380, 7392); (7394, 7400); (7405, 7405); (7412, 7412);
   (7416, 7417); (7468, 7530); (7544, 7544); (7579, 7679); (8125, 8125);
   (8127, 8129); (8141, 8143); (8157, 8159); (8173, 8175); (8189, 8190);
   (8203, 8207); (8216, 8217); (8228, 8228); (8231, 8231); (8234, 8238);
   (8288, 8292); (8294, 8303); (8305, 8305); (8319, 8319); (8336, 8348);
   (8400, 8432); (11388, 11389); (11503, 11505); (11631, 11631);
   (11647, 11647); (11744, 11775); (11823, 11823); (12293, 12293);
   (12330, 12333); (12337, 12341); (12347, 12347); (12441, 12446);
   (12540, 12542); (40981, 40981); (42232, 42237); (42508, 42508);
   (42607, 42610); (42612, 42621); (42623, 42623); (42652, 42655);
   (42736, 42737); (42752, 42785); (42864, 42864); (42888, 42890);
   (42994, 42996); (43000, 43001); (43010, 43010); (43014, 43014);
   (43019, 43019); (43045, 43046); (43052, 43052); (43204, 43205);
   (43232, 43249); (43263, 43263); (43302, 43309); (43335, 43345);
   (43392, 43394); (43443, 43443); (43446, 43449); (43452, 43453);
   (43471, 43471); (43493, 43494); (43561, 43566); (43569, 43570);
   (43573, 43574); (43587, 43587); (43596, 43596); (43632, 43632);
   (43644, 43644); (43696, 43696); (43698, 43700); (43703, 43704);
   (43710, 43711); (43713, 43713); (43741, 43741); (43756, 43757);
   (43763, 43764); (43766, 43766); (43867, 43871); (43881, 43883);
   (44005, 44005); (44008, 44008); (44013, 44013); (64286, 64286);
   (64434, 64450); (65024, 65039); (65043, 65043); (65056, 65071);
   (65106, 65106); (65109, 65109); (65279, 65279); (65287, 65287);
   (65294, 65294); (65306, 65306); (65342, 65342); (65344, 65344);
   (65392, 65392); (65438, 65439); (65507, 65507); (65529, 65531);
   (66045, 66045); (66272, 66272); (66422, 66426); (67456, 67461);
   (67463, 67504); (67506, 67514); (68097, 68099); (68101, 68102);
   (68108, 68111); (68152, 68154); (68159, 68159); (68325, 68326);
   (68900, 68903); (69291, 69292); (69446, 69456); (69506, 69509);
   (69633, 69633); (69688, 69702); (69744, 69744); (69747, 69748);
   (69759, 69761); (69811, 69814); (69817, 69818); (69821, 69821);
   (69826, 69826); (69837, 69837); (69888, 69890); (69927, 69931);
   (69933, 69940); (70003, 70003); (70016, 70017); (70070, 70078);
   (70089, 70092); (70095, 70095); (70191, 70193); (70196, 70196);
   (70198, 70199); (70206, 70206); (70367, 70367); (70371, 70378);
   (70400, 70401); (70459, 70460); (70464, 70464); (70502, 70508);
   (70512, 70516); (70712, 70719); (70722, 70724); (70726, 70726);
   (70750, 70750); (70835, 70840); (70842, 70842); (70847, 70848);
   (70850, 70851); (71090, 71093); (71100, 71101); (71103, 71104);
   (71132, 71133); (71219, 71226); (71229, 71229); (71231, 71232);
   (71339, 71339); (71341, 71341); (71344, 71349); (71351, 71351);
   (71453, 71455); (71458, 71461); (71463, 71467); (71727, 71735);
   (71737, 71738); (71995, 71996); (71998, 71998); (72003, 72003);
   (72148, 72151); (72154, 72155); (72160, 72160); (72193, 72202);
   (72243, 72248); (72251, 72254); (72263, 72263); (72273, 72278);
   (72281, 72283); (72330, 72342); (72344, 72345); (72752, 72758);
   (72760, 72765); (72767, 72767); (72850, 72871); (72874, 72880);
   (72882, 72883); (72885, 72886); (73009, 73014); (73018, 73018);
   (73020, 73021); (73023, 73029); (73031, 73031); (73104, 73105);
   (73109, 73109); (73111, 73111); (73459, 73460); (78896, 78904);
   (92912, 92916); (92976, 92982); (92992, 92995); (94031, 94031);
   (94095, 94111); (94176, 94177); (94179, 94180); (110576, 110579);
   (110581, 110587); (110589, 110590); (113821, 113822); (113824, 113827);
   (118528, 118573); (118576, 118598); (119143, 119145); (119155, 119170);
   (119173, 119179); (119210, 119213); (119362, 119364); (121344, 121398);
   (121403, 121452); (121461, 121461); (121476, 121476); (121499, 121503);
   (121505, 121519); (122880, 122886); (122888, 122904); (122907, 122913);
   (122915, 122916); (122918, 122922); (123184, 123197); (123566, 123566);
   (123628, 123631); (125136, 125142); (125252, 125259); (127995, 127999);
   (917505, 917505); (917536, 917631); (917760, 917999)].

Definition in_ranges (ranges : list (N * N)) (c : N) : bool :=
  existsb (fun '(lo, hi) => (lo <=? c) && (c <=? hi)) ranges.

Definition in_run (c : N) (run : N * N * N * N) : bool :=
  let '(lo, hi, step, _) := run in
  (lo <=? c) && (c <=? hi) && ((c - lo) mod step =? 0).

Definition map_by (special : list (N * list N)) (runs : list (N * N * N * N))
    (c : N) : list N :=
  match find (fun entry => fst entry =? c) special with
  | Some (_, image) => image
  | None =>
      match find (in_run c) runs with
      | Some (lo, _, _, lo') => [lo' + (c - lo)]
      | None => [c]
      end
  end.

(** The full lower-case and title-case mappings of one code point, and
    the properties Cased and Case_Ignorable. *)
Definition to_lower (c : N) : list N := map_by lower_special lower_runs c.
Definition to_title (c : N) : list N := map_by title_special title_runs c.
Definition cased (c : N) : bool := in_ranges cased_ranges c.
Definition case_ignorable (c : N) : bool := in_ranges case_ignorable_ranges c.

Definition CAPITAL_SIGMA : N := 931.
Definition FINAL_SIGMA : N := 962.
Definition SMALL_SIGMA : N := 963.
End Char.

(** ** Exceptions *)

Inductive exn : Type :=
| KeyError (key : str)
| IndexError
| AttributeError
| ValueError (msg : str)
| YAMLError
| TypeError
| UnicodeEncodeError
| BackendError (msg : str).

Inductive result (A : Type) : Type :=
| Ok (a : A)
| Raise (e : exn).
Arguments Ok {A} a.
Arguments Raise {A} e.

Definition bind {A B : Type} (m : result A) (k : A -> result B) : result B :=
  match m with
  | Ok a => k a
  | Raise e => Raise e
  end.

Notation "'do' x <- m ; k" := (bind m (fun x => k))
  (at level 10, x name, m at level 100, k at level 200).

(** [try: body except Exception: handler] *)
Definition try_except {A : Type} (body : result A) (handler : exn -> result A)
  : result A :=
  match body with
  | Ok a => Ok a
  | Raise e => handler e
  end.

(** ** The string methods the pipeline uses *)

Module Str.

Definition eqb (a b : str) : bool := bool_decide (a = b).

Fixpoint lstrip_by (p : N -> bool) (s : str) : str :=
  match s with
  | c :: s' => if p c then lstrip_by p s' else s
  | [] => []
  end.

Definition rstrip_by (p : N -> bool) (s : str) : str :=
  rev (lstrip_by p (rev s)).

(** [s.strip()] *)
Definition strip (s : str) : str :=
  rstrip_by Char.is_space (lstrip_by Char.is_space s).

(** [s.rstrip(chars)] *)
Definition rstrip_chars (chars : str) (s : str) : str :=
  rstrip_by (fun c => existsb (N.eqb c) chars) s.

(** [s.replace(old, new)] for one-character [old] and [new]. *)
Definition replace_char (old new : N) (s : str) : str :=
  map (fun c => if N.eqb c old then new else c) s.

(** A capital sigma is lower-cased to the final form when a cased
    character stands before it and none after it, characters that case
    ignores being passed over; [before] holds the characters before the
    sigma, the nearest first. *)
Definition final_sigma (before after : str) : bool :=
  match lstrip_by Char.case_ignorable before with
  | c :: _ =>
      Char.cased c
      && match lstrip_by Char.case_ignorable after with
         | [] => true
         | c' :: _ => negb (Char.cased c')
         end
  | [] => false
  end.

(** The lower-case form of the character [c] between [before] and
    [after]. *)
Definition lower_at (before : str) (c : N) (after : str) : str :=
  if N.eqb c Char.CAPITAL_SIGMA
  then [if final_sigma before after then Char.FINAL_SIGMA
        else Char.SMALL_SIGMA]
  else Char.to_lower c.

(** [s.lower()] *)
Fixpoint lower_from (before : str) (s : str) : str :=
  match s with
  | [] => []
  | c :: s' => lower_at before c s' ++ lower_from (c :: before) s'
  end.
Definition lower (s : str) : str := lower_from [] s.

(** [s.title()]: a character is title-cased when the previous character
    is not cased and lower-cased otherwise. *)
Fixpoint title_from (prev_cased : bool) (before : str) (s : str) : str :=
  match s with
  | [] => []
  | c :: s' =>
      (if prev_cased then lower_at before c s' else Char.to_title c)
        ++ title_from (Char.cased c) (c :: before) s'
  end.
Definition title (s : str) : str := title_from false [] s.

Fixpoint starts_with (p s : str) : bool :=
  match p, s with
  | [], _ => true
  | _ :: _, [] => false
  | a :: p', b :: s' => N.eqb a b && starts_with p' s'
  end.

(** [sub in s] *)
Fixpoint contains (sub s : str) : bool :=
  starts_with sub s ||
  match s with
  | [] => false
  | _ :: s' => contains sub s'
  end.

(** [s.splitlines()]: [cur] is the line read so far. A line boundary
    closes the line; CR LF counts as one boundary; no empty last line. *)
Fixpoint splitlines_from (cur : str) (s : str) : list str :=
  match s with
  | [] => match cur with [] => [] | _ => [cur] end
  | c :: s' =>
      if N.eqb c Char.CR then
        match s' with
        | c' :: s'' =>
            if N.eqb c' Char.LF then cur :: splitlines_from [] s''
            else cur :: splitlines_from [] s'
        | [] => [cur]
        end
      else if Char.is_linebreak c then cur :: splitlines_from [] s'
      else splitlines_from (cur ++ [c]) s'
  end.
Definition splitlines (s : str) : list str := splitlines_from [] s.

(** [s.split(sep)] for a non-empty separator: [skip] counts the
    characters of a separator occurrence still to be passed over. *)
Fixpoint split_from (sep : str) (skip : nat) (cur : str) (s : str)
  : list str :=
  match s with
  | [] => [cur]
  | c :: s' =>
      match skip with
      | S n => split_from sep n cur s'
      | O =>
          if starts_with sep s
          then cur :: split_from sep (length sep - 1) [] s'
          else split_from sep 0 (cur ++ [c]) s'
      end
  end.
Definition split (sep : str) (s : str) : list str := split_from sep 0 [] s.

(** [s.split()]: the maximal runs of non-whitespace characters. *)
Fixpoint words_from (cur : str) (s : str) : list str :=
  match s with
  | [] => match cur with [] => [] | _ => [cur] end
  | c :: s' =>
      if Char.is_space c
      then match cur with [] => words_from [] s' | _ => cur :: words_from [] s' end
      else words_from (cur ++ [c]) s'
  end.
Definition words (s : str) : list str := words_from [] s.

(** [sep.join(parts)] *)
Fixpoint join (sep : str) (parts : list str) : str :=
  match parts with
  | [] => []
  | [p] => p
  | p :: rest => p ++ sep ++ join sep rest
  end.

(** [str(n)] for an [int]. *)
Definition of_Z (z : Z) : str := u (NilZero.string_of_int (Z.to_int z)).

Definition of_nat (n : nat) : str := of_Z (Z.of_nat n).

Definition nl : str := [Char.LF].
End Str.

(** ** Regular expressions

    The fragment of Python's [re] that the pipeline's two patterns use.
    Repetition is greedy and applies to one-character classes, alternation
    is ordered, and the matcher backtracks: a continuation receives the
    rest of the input and the groups captured so far, and a failing
    continuation makes the matcher try its next choice. *)

Module Re.

Inductive regex : Type :=
| Eps
| Chr (p : N -> bool)                            (* one character of a class *)
| Rep (p : N -> bool) (lo : nat) (hi : option nat) (* p{lo,hi}, greedy *)
| Cat (r1 r2 : regex)
| Alt (r1 r2 : regex)                            (* r1|r2 *)
| Opt (r : regex)                                (* (?:r)? *)
| Grp (i : nat) (r : regex)                      (* capturing group i *)
| Dollar.                                        (* $ *)

(** The captured groups of a match object. *)
Abbreviation groups := (gmap nat str).

Definition may_take (hi : option nat) : bool :=
  match hi with
  | Some O => false
  | _ => true
  end.

Definition or_else {R : Type} (a b : option R) : option R :=
  match a with
  | Some x => Some x
  | None => b
  end.

Fixpoint rep_greedy {R : Type} (p : N -> bool) (lo : nat) (hi : option nat)
    (s : str) (k : str -> option R) : option R :=
  let stop := match lo with O => k s | S _ => None end in
  match s with
  | c :: s' =>
      if p c && may_take hi
      then or_else (rep_greedy p (Nat.pred lo) (Nat.pred <$> hi) s' k) stop
      else stop
  | [] => stop
  end.

(** The text consumed between input [s] and its suffix [s']. *)
Definition consumed (s s' : str) : str := take (length s - length s') s.

Fixpoint run {R : Type} (r : regex) (s : str) (g : groups)
    (k : str -> groups -> option R) : option R :=
  match r with
  | Eps => k s g
  | Chr p =>
      match s with
      | c :: s' => if p c then k s' g else None
      | [] => None
      end
  | Rep p lo hi => rep_greedy p lo hi s (fun s' => k s' g)
  | Cat r1 r2 => run r1 s g (fun s1 g1 => run r2 s1 g1 k)
  | Alt r1 r2 => or_else (run r1 s g k) (run r2 s g k)
  | Opt r1 => or_else (run r1 s g k) (k s g)
  | Grp i r1 => run r1 s g (fun s' g' => k s' (<[i := consumed s s']> g'))
  | Dollar =>
      (* end of the string, or just before a newline that ends it *)
      match s with
      | [] => k s g
      | [c] => if N.eqb c Char.LF then k s g else None
      | _ => None
      end
  end.

(** [re.match(r, s)]: anchored at the start; the match object, if any. *)
Definition re_match (r : regex) (s : str) : option groups :=
  run r s ∅ (fun _ g => Some g).

(** [m.group(i)]; [None] for a group that took no part in the match. *)
Definition group (m : groups) (i : nat) : option str := m !! i.

Definition seq (rs : list regex) : regex := foldr Cat Eps rs.

Definition one_of (cs : str) (c : N) : bool := existsb (N.eqb c) cs.

(** [.] without DOTALL *)
Definition dot (c : N) : bool := negb (N.eqb c Char.LF).

(** A literal under IGNORECASE. For the letters of the word used below,
    Unicode case folding adds nothing to the two ASCII forms. *)
Definition lit_ci (word : str) : regex :=
  seq (map (fun a => Chr (fun c => N.eqb (Char.lower c) (Char.lower a))) word).

Definition plus (p : N -> bool) : regex := Rep p 1 None.
Definition star (p : N -> bool) : regex := Rep p 0 None.
End Re.

(** ** Stage 3/4 helper: [extract_chapter_titles] *)

(** [^(?:#{2,6}\s+|[-*]\s+)?Chapter\s+(\d+)\s*[EN_DASH-]\s*(.+)$] with
    IGNORECASE; [re.match] anchors at the start, which is all [^] asks. *)
Definition chapter_re : Re.regex :=
  Re.seq
    [ Re.Opt (Re.Alt
        (Re.seq [Re.Rep (N.eqb Char.HASH) 2 (Some 6); Re.plus Char.is_space])
        (Re.seq [Re.Chr (Re.one_of [Char.HYPHEN; Char.STAR]);
                 Re.plus Char.is_space]));
      Re.lit_ci (u "Chapter");
      Re.plus Char.is_space;
      Re.Grp 1 (Re.plus Char.is_decimal);
      Re.star Char.is_space;
      Re.Chr (Re.one_of [Char.EN_DASH; Char.HYPHEN]);
      Re.star Char.is_space;
      Re.Grp 2 (Re.plus Re.dot);
      Re.Dollar ].

(** [^\d+\.\d+] *)
Definition subnum_re : Re.regex :=
  Re.seq [Re.plus Char.is_decimal; Re.Chr (N.eqb Char.DOT);
          Re.plus Char.is_decimal].

(** [m.group(2).strip()...]: a method call on [None] raises. *)
Definition group_str (m : Re.groups) (i : nat) : result str :=
  match Re.group m i with
  | Some s => Ok s
  | None => Raise AttributeError
  end.

(** The body of the [for raw in outline.splitlines()] loop; [titles] is the
    list built so far. *)
Definition extract_step (titles : list str) (raw : str) : result (list str) :=
  let line := Str.strip raw in
  match line with
  | [] => Ok titles
  | _ =>
      let norm := Str.replace_char Char.EM_DASH Char.EN_DASH line in
      match Re.re_match chapter_re norm with
      | Some m =>
          do g2 <- group_str m 2;
          let title := Str.strip (Str.rstrip_chars (u ".") (Str.strip g2)) in
          match Re.re_match subnum_re title with
          | None =>
              if negb (Str.eqb title []) && negb (bool_decide (elem_of title titles))
              then Ok (titles ++ [title])
              else Ok titles
          | Some _ => Ok titles
          end
      | None => Ok titles
      end
  end.

Fixpoint extract_loop (titles : list str) (lines : list str)
  : result (list str) :=
  match lines with
  | [] => Ok titles
  | raw :: rest => do titles' <- extract_step titles raw; extract_loop titles' rest
  end.

Definition extract_chapter_titles (outline : str) : result (list str) :=
  extract_loop [] (Str.splitlines outline).

(** *** Reading the extractor line by line *)

(** The match object that the loop obtains for one raw line. *)
Definition chapter_line (raw : str) : option Re.groups :=
  Re.re_match chapter_re
    (Str.replace_char Char.EM_DASH Char.EN_DASH (Str.strip raw)).

(** [m.group(2).strip().rstrip('.').strip()] *)
Definition trim_title (g2 : str) : str :=
  Str.strip (Str.rstrip_chars (u ".") (Str.strip g2)).

(** The title that a raw line offers to the list, before de-duplication. *)
Definition line_title (raw : str) : option str :=
  match chapter_line raw with
  | Some m =>
      match Re.group m 2 with
      | Some g2 =>
          match Re.re_match subnum_re (trim_title g2), trim_title g2 with
          | Some _, _ => None
          | None, [] => None
          | None, title => Some title
          end
      | None => None
      end
  | None => None
  end.

(** Keep the first occurrence of every entry. *)
Fixpoint dedup_first (l : list str) : list str :=
  match l with
  | [] => []
  | x :: l' => x :: filter (fun y => y <> x) (dedup_first l')
  end.

(** A text that begins with [<digits>.<digits>]. *)
Definition sub_numbered (t : str) : Prop :=
  exists d1 d2 rest,
    d1 <> [] /\ d2 <> []
    /\ Forall (fun c => Char.is_decimal c = true) d1
    /\ Forall (fun c => Char.is_decimal c = true) d2
    /\ t = d1 ++ Char.DOT :: d2 ++ rest.

Definition line_alpha : str := u "## Chapter 1 " ++ [Char.EN_DASH] ++ u " Alpha".
Definition line_beta : str := u "### Chapter 2 - Beta".
Definition line_gamma : str := u "- Chapter 3 " ++ [Char.EN_DASH] ++ u " Gamma".

(** Group [i] takes part in every match of [r]. *)
Fixpoint binds (i : nat) (r : Re.regex) : bool :=
  match r with
  | Re.Grp j r1 => Nat.eqb i j || binds i r1
  | Re.Cat r1 r2 => binds i r1 || binds i r2
  | Re.Alt r1 r2 => binds i r1 && binds i r2
  | _ => false
  end.

(** ** Configuration values and dictionaries *)

(** The values a configuration holds. [VObj] stands for any other object
    (a float, a list, a nested mapping, a date, ...) through the two
    observations the pipeline makes of a configuration value: its [str()]
    text and its truth value. *)
Inductive pyval : Type :=
| VNone
| VBool (b : bool)
| VInt (z : Z)
| VStr (s : str)
| VObj (text : str) (truth : bool).

(** A [dict] with string keys. *)
Abbreviation dict := (gmap str pyval).

(** Truth value of [v] in a condition. *)
Definition truthy (v : pyval) : bool :=
  match v with
  | VNone => false
  | VBool b => b
  | VInt z => negb (Z.eqb z 0)
  | VStr s => match s with [] => false | _ => true end
  | VObj _ t => t
  end.

(** [str(v)], which is how an f-string renders [{v}]. *)
Definition py_str (v : pyval) : str :=
  match v with
  | VNone => u "None"
  | VBool true => u "True"
  | VBool false => u "False"
  | VInt z => Str.of_Z z
  | VStr s => s
  | VObj text _ => text
  end.

(** [d[k]] *)
Definition getitem (d : dict) (k : str) : result pyval :=
  match d !! k with
  | Some v => Ok v
  | None => Raise (KeyError k)
  end.

(** [d.get(k, dflt)] *)
Definition get_or (d : dict) (k : str) (dflt : pyval) : pyval :=
  default dflt (d !! k).

(** [d.get(k)] *)
Definition get (d : dict) (k : str) : pyval := get_or d k VNone.

(** [l[i]] for [i >= 0] *)
Definition index {A : Type} (l : list A) (i : nat) : result A :=
  match l !! i with
  | Some x => Ok x
  | None => Raise IndexError
  end.

(** A string method called on a configuration value. *)
Definition as_str (v : pyval) : result str :=
  match v with
  | VStr s => Ok s
  | _ => Raise AttributeError
  end.

(** [sep.join(items)]: every item has to be a [str]. *)
Fixpoint as_strs (items : list pyval) : result (list str) :=
  match items with
  | [] => Ok []
  | VStr s :: rest => do texts <- as_strs rest; Ok (s :: texts)
  | _ :: _ => Raise TypeError
  end.

Definition join_items (sep : str) (items : list pyval) : result str :=
  do texts <- as_strs items; Ok (Str.join sep texts).

(** ** The generation backend (llm_client.py) *)

(** A client is modelled by its replies: the text returned for a prompt, or
    the exception raised. Within one run every prompt of the pipeline is
    sent once. The [on_delta] sink only echoes fragments to the terminal. *)
Record llm_client : Type := {
  generate : str -> result str;
  stream_generate : str -> result str
}.

(** What [yaml.safe_load] returns: a mapping, or anything else. *)
Inductive yaml_value : Type :=
| YMapping (d : dict)
| YOther.

(** ** Stage 0: the Configuration Builder *)

Definition config_prompt (topic : str) : str :=
  concat
    [ u "You are an expert eBook strategist and market analyst. Your task is to analyze a topic and generate optimal configuration parameters for an automated eBook generation system."; Str.nl;
      Str.nl;
      u "Given Topic: "; topic; Str.nl;
      Str.nl;
      u "Analyze this topic and generate the following parameters in valid YAML format. Be strategic, market-aware, and ensure all parameters work cohesively together."; Str.nl;
      Str.nl;
      u "Required Output Format (YAML only, no explanations):"; Str.nl;
      Str.nl;
      u "```yaml"; Str.nl;
      u "topic: "; [Char.DQUOTE]; u "[refined topic optimized for market demand]"; [Char.DQUOTE]; Str.nl;
      u "main_keyword: "; [Char.DQUOTE]; u "[primary SEO keyword with 12M+ search volume]"; [Char.DQUOTE]; Str.nl;
      u "theme: "; [Char.DQUOTE]; u "[overarching theme/approach]"; [Char.DQUOTE]; Str.nl;
      u "target_audience: "; [Char.DQUOTE]; u "[specific demographic and psychographic profile]"; [Char.DQUOTE]; Str.nl;
      u "tone: "; [Char.DQUOTE]; u "[empowering/conversational/authoritative/inspiring/supportive/motivational]"; [Char.DQUOTE]; Str.nl;
      u "mood: "; [Char.DQUOTE]; u "[motivational/calming/energetic/supportive/uplifting/confident]"; [Char.DQUOTE]; Str.nl;
      u "distribution_platform: "; [Char.DQUOTE]; u "[Amazon KDP/Gumroad/Etsy/Self-hosted]"; [Char.DQUOTE]; Str.nl;
      u "primary_format: "; [Char.DQUOTE]; u "[PDF/EPUB/Kindle/Interactive PDF]"; [Char.DQUOTE]; Str.nl;
      u "chapter_length: [1500-2500 word count as integer]"; Str.nl;
      u "interactive_elements_included: "; [Char.DQUOTE]; u "[comma-separated list of: Printable Tracker, Guided Journal Page, Progress Checklist, Habit Worksheet, Milestone Calendar]"; [Char.DQUOTE]; Str.nl;
      u "```"; Str.nl;
      Str.nl;
      u "Instructions:"; Str.nl;
      u "1. Refine the topic to be more market-focused and specific"; Str.nl;
      u "2. Choose a main_keyword with proven search demand (12M+ results)"; Str.nl;
      u "3. Select a theme that resonates with target audience pain points"; Str.nl;
      u "4. Define target_audience with specific age range, lifestyle, and challenges"; Str.nl;
      u "5. Choose tone and mood that match the audience's emotional needs"; Str.nl;
      u "6. Recommend the best distribution_platform based on topic and audience"; Str.nl;
      u "7. Select primary_format compatible with chosen platform"; Str.nl;
      u "8. Set chapter_length appropriate for topic depth (recommend 2000 for balance)"; Str.nl;
      u "9. Choose 2-3 interactive_elements that enhance engagement"; Str.nl;
      Str.nl;
      u "Output only the YAML block. No additional commentary." ].

Definition fitness_words : list str :=
  [u "fitness"; u "weight"; u "workout"; u "exercise"; u "muscle"; u "diet";
   u "nutrition"].

Definition wellness_words : list str :=
  [u "wellness"; u "health"; u "mental"; u "stress"; u "sleep";
   u "mindfulness"].

Definition generate_default_config (topic : str) : result dict :=
  let is_fitness :=
    existsb (fun word => Str.contains word (Str.lower topic)) fitness_words in
  let is_wellness :=
    existsb (fun word => Str.contains word (Str.lower topic)) wellness_words in
  let is_beginner :=
    Str.contains (u "beginner") (Str.lower topic)
    || Str.contains (u "start") (Str.lower topic) in
  do main_keyword <-
    match topic with
    | [] => Ok (u "wellness")
    | _ => index (Str.words topic) 0
    end;
  Ok (list_to_map
        [ (u "topic", VStr topic);
          (u "main_keyword", VStr main_keyword);
          (u "theme",
            VStr (if is_beginner then u "beginner-friendly transformation"
                  else u "science-backed sustainable change"));
          (u "target_audience",
            VStr (u "busy professionals aged 30-50 seeking practical solutions"));
          (u "tone", VStr (u "empowering"));
          (u "mood", VStr (u "motivational"));
          (u "distribution_platform", VStr (u "Amazon KDP"));
          (u "primary_format", VStr (u "Kindle"));
          (u "chapter_length", VInt 2000);
          (u "interactive_elements_included",
            VStr (u "Printable Tracker, Progress Checklist, Habit Worksheet")) ]).

Definition with_system_defaults (config : dict) : dict :=
  <[u "num_chapters" := VInt 5]>
    (<[u "min_search_results" := VInt 12000000]> config).

Section ConfigurationBuilder.

(** [yaml.safe_load], of the PyYAML library. *)
Variable safe_load : str -> result yaml_value.

(** The body of the [try] block: take the fenced block out of the reply,
    parse it, and insist on a mapping. *)
Definition parse_config_reply (config_yaml : str) : result yaml_value :=
  do config_yaml <-
    (if Str.contains (u "```yaml") config_yaml then
       do after <- index (Str.split (u "```yaml") config_yaml) 1;
       do block <- index (Str.split (u "```") after) 0;
       Ok (Str.strip block)
     else if Str.contains (u "```") config_yaml then
       do after <- index (Str.split (u "```") config_yaml) 1;
       do block <- index (Str.split (u "```") after) 0;
       Ok (Str.strip block)
     else Ok config_yaml);
  do config <- safe_load config_yaml;
  match config with
  | YMapping _ => Ok config
  | YOther => Raise (ValueError (u "Config is not a dictionary"))
  end.

Definition generate_config_from_topic (topic : str)
    (client : option llm_client) : result dict :=
  let prompt := config_prompt topic in
  do config <-
    match client with
    | Some c =>
        do config_yaml <- generate c prompt;
        try_except (parse_config_reply config_yaml)
          (fun e => do d <- generate_default_config topic; Ok (YMapping d))
    | None => do d <- generate_default_config topic; Ok (YMapping d)
    end;
  match config with
  | YMapping d => Ok (with_system_defaults d)
  | YOther =>
      do d <- generate_default_config topic; Ok (with_system_defaults d)
  end.

End ConfigurationBuilder.

(** ** The Template Applier *)

Definition set_template (config : dict)
    (intro_min intro_max num_chapters chapter_length final_min final_max
       review_min review_max : Z) : dict :=
  let config := <[u "intro_min_words" := VInt intro_min]> config in
  let config := <[u "intro_max_words" := VInt intro_max]> config in
  let config := <[u "num_chapters" := VInt num_chapters]> config in
  let config := <[u "chapter_length" := VInt chapter_length]> config in
  let config := <[u "final_min_words" := VInt final_min]> config in
  let config := <[u "final_max_words" := VInt final_max]> config in
  let config := <[u "review_min_words" := VInt review_min]> config in
  <[u "review_max_words" := VInt review_max]> config.

Definition apply_template_defaults (config : dict) (template : str) : dict :=
  if Str.eqb template (u "standard") then
    set_template config 600 900 5 1200 600 900 300 500
  else if Str.eqb template (u "quickstart") then
    set_template config 300 500 3 800 300 500 150 250
  else if Str.eqb template (u "deepdive") then
    set_template config 800 1200 8 2000 800 1200 400 700
  else config.

(** ** The mock client (llm_client.py) *)

Definition mock_generate (prompt : str) : result str :=
  if Str.contains (u "configuration") (Str.lower prompt)
     || Str.contains (u "strategist") (Str.lower prompt)
     || Str.contains (u "Given Topic:") prompt
  then
    do topic <-
      (if Str.contains (u "Given Topic:") prompt then
         try_except
           (do after <- index (Str.split (u "Given Topic:") prompt) 1;
            do line <- index (Str.split Str.nl after) 0;
            Ok (Str.strip line))
           (fun _ => Ok (u "wellness"))
       else Ok (u "wellness"));
    do keyword <-
      match topic with
      | [] => Ok (u "wellness")
      | _ => index (Str.words topic) 0
      end;
    Ok (concat
    [ u "```yaml"; Str.nl;
      u "topic: "; [Char.DQUOTE]; topic; [Char.DQUOTE]; Str.nl;
      u "main_keyword: "; [Char.DQUOTE]; keyword; [Char.DQUOTE]; Str.nl;
      u "theme: "; [Char.DQUOTE]; u "science-backed transformation"; [Char.DQUOTE]; Str.nl;
      u "target_audience: "; [Char.DQUOTE]; u "busy professionals aged 30-50"; [Char.DQUOTE]; Str.nl;
      u "tone: "; [Char.DQUOTE]; u "empowering"; [Char.DQUOTE]; Str.nl;
      u "mood: "; [Char.DQUOTE]; u "motivational"; [Char.DQUOTE]; Str.nl;
      u "distribution_platform: "; [Char.DQUOTE]; u "Amazon KDP"; [Char.DQUOTE]; Str.nl;
      u "primary_format: "; [Char.DQUOTE]; u "Kindle"; [Char.DQUOTE]; Str.nl;
      u "chapter_length: 2000"; Str.nl;
      u "interactive_elements_included: "; [Char.DQUOTE]; u "Printable Tracker, Progress Checklist, Habit Worksheet"; [Char.DQUOTE]; Str.nl;
      u "```" ])
  else if Str.contains (u "SEO") prompt
          || Str.contains (u "queries") (Str.lower prompt)
  then
    Ok (concat
    [ u "weight loss"; Str.nl;
      u "weight loss tips"; Str.nl;
      u "how to lose weight"; Str.nl;
      u "weight loss diet"; Str.nl;
      u "weight loss for beginners" ])
  else if Str.contains (u "outline") (Str.lower prompt)
          || Str.contains (u "eBook") prompt
  then
    Ok (concat
    [ u "# Transform Your Body: The Science of Sustainable Weight Loss"; Str.nl;
      Str.nl;
      u "## Core Transformation Summary"; Str.nl;
      u "This book guides busy professionals through evidence-based weight loss strategies that fit into hectic schedules. You'll discover sustainable approaches that prioritize health over quick fixes, combining nutrition science with behavioral psychology."; Str.nl;
      Str.nl;
      u "## Chapters & Goals"; Str.nl;
      Str.nl;
      u "Chapter 1: Understanding Your Metabolism"; Str.nl;
      u "Goal: Learn how your body processes food and burns calories."; Str.nl;
      Str.nl;
      u "Chapter 2: Nutrition Fundamentals"; Str.nl;
      u "Goal: Master the basics of macronutrients and meal planning."; Str.nl;
      Str.nl;
      u "Chapter 3: Exercise Essentials"; Str.nl;
      u "Goal: Design a workout routine that fits your lifestyle."; Str.nl;
      Str.nl;
      u "Chapter 4: Building Lasting Habits"; Str.nl;
      u "Goal: Create sustainable behaviors for long-term success."; Str.nl;
      Str.nl;
      u "Chapter 5: Overcoming Plateaus"; Str.nl;
      u "Goal: Navigate challenges and maintain momentum."; Str.nl;
      Str.nl;
      u "Final Thoughts"; Str.nl;
      u "Goal: Embrace your transformation journey with confidence and knowledge." ])
  else if Str.contains (u "Table of Contents") prompt
  then
    Ok (concat
    [ u "# Table of Contents"; Str.nl;
      Str.nl;
      u "Chapter 1: Metabolic Mastery"; Str.nl;
      u "Unlock the science of how your body burns energy"; Str.nl;
      Str.nl;
      u "Chapter 2: Nutrition Blueprint"; Str.nl;
      u "Build a sustainable eating plan for life"; Str.nl;
      Str.nl;
      u "Chapter 3: Movement Matters"; Str.nl;
      u "Find exercises you'll actually enjoy"; Str.nl;
      Str.nl;
      u "Chapter 4: Habit Formation"; Str.nl;
      u "Turn intentions into automatic behaviors"; Str.nl;
      Str.nl;
      u "Chapter 5: Plateau Breakthrough"; Str.nl;
      u "Push through barriers and stay consistent"; Str.nl;
      Str.nl;
      u "Final Thoughts"; Str.nl;
      u "Your journey starts now" ])
  else
    Ok (u "Mock response for: " ++ take 100 prompt ++ u "...").

(** [LLMClient.stream_generate], which [MockClient] inherits: one call of
    [generate], the whole text handed to the sink as a single fragment. *)
Definition MockClient : llm_client :=
  {| generate := mock_generate; stream_generate := mock_generate |}.

(** [create_llm_client(provider='mock')] *)
Definition create_llm_client_mock : llm_client := MockClient.

(** ** The output directory

    A file is named by its directory and its file name; the directory is
    the text of the output path. Writing encodes as UTF-8, which fails on a
    surrogate code point, and keeps LF as it is (POSIX); reading back
    translates CR and CR LF to LF. *)

Abbreviation files := (gmap (str * str) str).

Definition io (A : Type) : Type := files -> result A * files.

Definition io_ret {A : Type} (a : A) : io A := fun fs => (Ok a, fs).

Definition io_raise {A : Type} (e : exn) : io A := fun fs => (Raise e, fs).

Definition io_bind {A B : Type} (m : io A) (k : A -> io B) : io B :=
  fun fs =>
    match m fs with
    | (Ok a, fs') => k a fs'
    | (Raise e, fs') => (Raise e, fs')
    end.

Definition lift {A : Type} (r : result A) : io A := fun fs => (r, fs).

Notation "'exec' x <- m ; k" := (io_bind m (fun x => k))
  (at level 10, x name, m at level 100, k at level 200).
Notation "'exec_' m ; k" := (io_bind m (fun _ => k))
  (at level 10, m at level 100, k at level 200).

Definition is_surrogate (c : N) : bool := (55296 <=? c)%N && (c <=? 57343)%N.

(** [with open(path, 'w', encoding='utf-8') as f: f.write(content)]:
    the file is created empty, then receives the content if it encodes. *)
Definition write_file (path : str * str) (content : str) : io unit :=
  fun fs =>
    if existsb is_surrogate content
    then (Raise UnicodeEncodeError, <[path := []]> fs)
    else (Ok tt, <[path := content]> fs).

Fixpoint universal_newlines (s : str) : str :=
  match s with
  | [] => []
  | c :: s' =>
      if N.eqb c Char.CR then
        match s' with
        | c' :: s'' =>
            if N.eqb c' Char.LF then Char.LF :: universal_newlines s''
            else Char.LF :: universal_newlines s'
        | [] => [Char.LF]
        end
      else c :: universal_newlines s'
  end.

(** [path.read_text(encoding='utf-8')] when [path.exists()] *)
Definition read_text_if_exists (path : str * str) : io (option str) :=
  fun fs => (Ok (universal_newlines <$> fs !! path), fs).

Definition save_stage_output (output_dir : str) (filename : str)
    (content : str) : io unit :=
  let filepath := (output_dir, filename) in
  write_file filepath content.

(** ** The stages *)

Definition stage_1_prompt (config : dict) : result str :=
  do topic <- getitem config (u "topic");
  do tone <- getitem config (u "tone");
  do mood <- getitem config (u "mood");
  do theme <- getitem config (u "theme");
  do main_keyword <- getitem config (u "main_keyword");
  do target_audience <- getitem config (u "target_audience");
  Ok (concat
    [ u "You are an elite SEO strategist and trend analyst specializing in high-demand, commercially viable topics within the health, wellness, and fitness niche. Your primary function is to generate short, realistic, and high-volume search queries that reflect exactly what users are actively searching for on platforms like Google, YouTube, and Reddit in 2025."; Str.nl;
      Str.nl;
      [Char.DIRECT_HIT]; u " Rules for Query Generation:"; Str.nl;
      [Char.BULLET]; u " Output exactly one natural-language query per line."; Str.nl;
      [Char.BULLET]; u " Queries must be concise, containing 1 to 4 keywords only."; Str.nl;
      [Char.BULLET]; u " Avoid niche, long-tail, or overly specific terms."; Str.nl;
      [Char.BULLET]; u " Do not include special characters, dates, or brand names."; Str.nl;
      [Char.BULLET]; u " Ensure each query will reliably yield a minimum of 12 million Google search results (total_results > 12M)."; Str.nl;
      [Char.BULLET]; u " Prioritize topics with broad appeal and clear informational or commercial intent ideal for eBooks, courses, or video content creation."; Str.nl;
      [Char.BULLET]; u " Output queries exactly as users would type them into search bars (no explanations or additional formatting)."; Str.nl;
      Str.nl;
      u "Respond only with finalized search queries, clearly separated by new lines."; Str.nl;
      Str.nl;
      u "Your task is to provide exactly 5 high-demand, natural-language search queries suitable for scraping and content ideation within the following scope. Each query must be phrased exactly as users would naturally type it and must adhere to all rules defined above."; Str.nl;
      Str.nl;
      u "Input Parameters:"; Str.nl;
      [Char.BLACK_CIRCLE]; u " Topic: "; py_str topic; Str.nl;
      [Char.BLACK_CIRCLE]; u " Tone: "; py_str tone; Str.nl;
      [Char.BLACK_CIRCLE]; u " Mood: "; py_str mood; Str.nl;
      [Char.BLACK_CIRCLE]; u " Theme: "; py_str theme; Str.nl;
      [Char.BLACK_CIRCLE]; u " Main Keyword: "; py_str main_keyword; Str.nl;
      [Char.BLACK_CIRCLE]; u " Target Audience: "; py_str target_audience; Str.nl;
      Str.nl;
      u "List only the 5 queries clearly, each separated by a new line, without explanations or extra text." ]).

Definition stage_1_seo_queries (config : dict) (client : option llm_client)
  : result (list pyval) :=
  do prompt <- stage_1_prompt config;
  match client with
  | Some c =>
      do response <- stream_generate c prompt;
      let queries :=
        map Str.strip
          (filter (fun q => Str.strip q <> [])
             (Str.split Str.nl (Str.strip response))) in
      Ok (map VStr (take 5 queries))
  | None =>
      do main_keyword <- getitem config (u "main_keyword");
      Ok [ main_keyword;
           VStr (py_str main_keyword ++ u " guide");
           VStr (py_str main_keyword ++ u " tips");
           VStr (u "how to " ++ py_str main_keyword);
           VStr (py_str main_keyword ++ u " for beginners") ]
  end.

Definition stage_2_outline (config : dict) (queries : list pyval)
    (client : option llm_client) : result str :=
  match client with
  | Some c =>
      do topic <- getitem config (u "topic");
      stream_generate c (u "Generate eBook outline for: " ++ py_str topic)
  | None =>
      do topic <- getitem config (u "topic");
      do topic <- as_str topic;
      Ok (concat
    [ u "# "; Str.title topic; Str.nl;
      Str.nl;
      u "## Outline"; Str.nl;
      Str.nl;
      u "- Chapter 1"; Str.nl;
      u "- Chapter 2"; Str.nl;
      u "- Chapter 3"; Str.nl;
      u "- Chapter 4"; Str.nl;
      u "- Chapter 5" ])
  end.

Definition toc_placeholder : str :=
  concat
    [ u "# Table of Contents"; Str.nl;
      Str.nl;
      u "(Outline parsing found no chapters)"; Str.nl ].

Definition toc_entry (i : nat) (title : str) : str :=
  Str.of_nat i ++ u ". " ++ title.

Definition stage_3_toc (outline : str) (client : option llm_client)
  : result str :=
  do titles <- extract_chapter_titles outline;
  match titles with
  | [] => Ok toc_placeholder
  | _ =>
      let toc_lines :=
        [u "# Table of Contents"; []]
          ++ imap (fun i title => toc_entry (i + 1) title) titles in
      Ok (Str.join Str.nl toc_lines ++ Str.nl)
  end.

(** [Path(v)] *)
Definition path_of (v : pyval) : io str :=
  match v with
  | VStr s => io_ret s
  | _ => io_raise TypeError
  end.

(** [range(v)] *)
Definition py_range (v : pyval) : io (list nat) :=
  match v with
  | VInt z => io_ret (seq 0 (Z.to_nat z))
  | VBool b => io_ret (seq 0 (if b then 1 else 0))
  | _ => io_raise TypeError
  end.

Definition chapter_heading (i : nat) (title : str) : str :=
  u "# Chapter " ++ Str.of_nat i ++ u ": " ++ title.

Definition chapter_prompt (config : dict) (i : nat) (title : str)
  : result str :=
  do topic <- getitem config (u "topic");
  Ok (u "Write Chapter " ++ Str.of_nat i ++ u " titled '" ++ title
      ++ u "' for the eBook on '" ++ py_str topic ++ u "'. "
      ++ u "Target length ~"
      ++ py_str (get_or config (u "chapter_length") (VInt 2000))
      ++ u " words. "
      ++ u "Use clear subheadings and actionable takeaways.").

(** The loop [for i, title in enumerate(titles, 1)]. *)
Fixpoint write_chapters (config : dict) (client : option llm_client)
    (i : nat) (titles : list str) : result (list str) :=
  match titles with
  | [] => Ok []
  | title :: rest =>
      do chapter <-
        match client with
        | Some c =>
            do prompt <- chapter_prompt config i title;
            do text <- stream_generate c prompt;
            match text with
            | [] => Ok (chapter_heading i title ++ Str.nl ++ Str.nl
                        ++ u "(Empty)")
            | _ => Ok (chapter_heading i title ++ Str.nl ++ Str.nl
                       ++ Str.strip text)
            end
        | None =>
            Ok (chapter_heading i title ++ Str.nl ++ Str.nl
                ++ u "Content for " ++ title ++ u "...")
        end;
      do chapters <- write_chapters config client (S i) rest;
      Ok (chapter :: chapters)
  end.

Definition stage_4_chapters (config : dict) (queries : list pyval)
    (client : option llm_client) : io (list str) :=
  exec dir <- path_of (get_or config (u "output_dir") (VStr (u "./output")));
  let outline_path := (dir, u "stage_2_outline.md") in
  exec found <- read_text_if_exists outline_path;
  let outline_text := default [] found in
  exec titles <-
    match outline_text with
    | [] => io_ret []
    | _ => lift (extract_chapter_titles outline_text)
    end;
  exec titles <-
    match titles with
    | [] =>
        exec r <- py_range (get_or config (u "num_chapters") (VInt 5));
        io_ret (map (fun i => u "Chapter " ++ Str.of_nat (i + 1)) r)
    | _ => io_ret titles
    end;
  lift (write_chapters config client 1 titles).

Definition stage_5_optimize (chapters : list str)
    (client : option llm_client) : list str := chapters.

Definition stage_6_cover (config : dict) (first_chapter : str)
    (client : option llm_client) : result str :=
  do topic <- getitem config (u "topic");
  Ok (u "Ultra-realistic, cinematic eBook cover for '" ++ py_str topic
      ++ u "', emotional and transformative visual metaphor, high-resolution, A4 format.").

Definition stage_7_interactive (chapters : list str)
    (client : option llm_client) : list dict :=
  imap (fun i _ =>
          list_to_map
            [ (u "chapter", VInt (Z.of_nat (i + 1)));
              (u "title",
                VStr (u "Progress Tracker - Chapter " ++ Str.of_nat (i + 1)));
              (u "type", VStr (u "Printable Tracker"));
              (u "description", VStr (u "Track your progress")) ])
       chapters.

Definition stage_8_diagrams (chapters : list str)
    (client : option llm_client) : list dict :=
  map (fun i =>
         list_to_map
           [ (u "chapter", VInt (Z.of_nat (i + 1)));
             (u "prompt",
               VStr (u "3D isometric diagram showing key concepts, calming pastel tones, high-resolution")) ])
      (seq 0 (length chapters)).

Definition stage_9_backgrounds (chapters : list str)
    (client : option llm_client) : list dict :=
  map (fun i =>
         list_to_map
           [ (u "chapter", VInt (Z.of_nat (i + 1)));
             (u "prompt",
               VStr (u "Fitness transformation themed background, dynamic gradients, ultra-realistic")) ])
      (seq 0 (length chapters)).

(** ** The Compiler *)

(** [results['stages']]: every stage that ran has stored its output under
    its name; [None] is a stage without entry. *)
Record stage_outputs : Type := {
  stage_1 : option (list pyval); (* queries *)
  stage_2 : option str;          (* outline *)
  stage_3 : option str;          (* toc *)
  stage_4 : option (list str);   (* chapters *)
  stage_5 : option (list str);   (* optimized_chapters *)
  stage_6 : option str;          (* cover_prompt *)
  stage_7 : option (list dict);  (* interactive_elements *)
  stage_8 : option (list dict);  (* diagram_prompts *)
  stage_9 : option (list dict)   (* background_prompts *)
}.

Record results : Type := {
  config : dict;
  stages : stage_outputs;
  output_dir : str
}.

Definition write_section_with_stream (title : str) (body_prompt : str)
    (client : option llm_client) : result str :=
  match client with
  | None => Ok (u "# " ++ title ++ Str.nl ++ Str.nl ++ body_prompt ++ Str.nl)
  | Some c =>
      do text <- stream_generate c body_prompt;
      Ok (u "# " ++ title ++ Str.nl ++ Str.nl ++ Str.strip text ++ Str.nl)
  end.

(** [llm_client or create_llm_client(provider='mock')] *)
Definition client_or_mock (client : option llm_client) : option llm_client :=
  match client with
  | Some c => Some c
  | None => Some create_llm_client_mock
  end.

Definition rule : str := u "---" ++ Str.nl ++ Str.nl.

Definition intro_prompt (topic intro_min intro_max : pyval) : str :=
  u "Write an introductory section for the eBook on '" ++ py_str topic
  ++ u "'. Target length " ++ py_str intro_min ++ u "-" ++ py_str intro_max
  ++ u " words.".

Definition final_prompt (topic final_min final_max : pyval) : str :=
  u "Write final thoughts for the eBook on '" ++ py_str topic
  ++ u "'. Target length " ++ py_str final_min ++ u "-" ++ py_str final_max
  ++ u " words.".

Definition review_prompt (review_min review_max : pyval) : str :=
  u "Write a short call-to-action asking readers to leave a review for the eBook. Target length "
  ++ py_str review_min ++ u "-" ++ py_str review_max ++ u " words.".

(** *** Writing the document

    The body of [with open(ebook_path, 'w') as f] is a sequence of
    [f.write] calls: a computation that returns a value or raises, next to
    the text it has written so far. *)

Definition wr (A : Type) : Type := result A * str.

Definition wr_ret {A : Type} (a : A) : wr A := (Ok a, []).

Definition wr_bind {A B : Type} (m : wr A) (k : A -> wr B) : wr B :=
  match m with
  | (Ok a, text) => let '(b, text') := k a in (b, text ++ text')
  | (Raise e, text) => (Raise e, text)
  end.

Definition wr_lift {A : Type} (r : result A) : wr A := (r, []).

(** [f.write(text)] *)
Definition f_write (text : str) : wr unit :=
  if existsb is_surrogate text then (Raise UnicodeEncodeError, [])
  else (Ok tt, text).

Notation "'doc' x <- m ; k" := (wr_bind m (fun x => k))
  (at level 10, x name, m at level 100, k at level 200).
Notation "'doc_' m ; k" := (wr_bind m (fun _ => k))
  (at level 10, m at level 100, k at level 200).

(** The loop over the optimized chapters: a rule after every chapter but
    the last. *)
Fixpoint write_chapter_blocks (i total : nat) (chapters : list str) : wr unit :=
  match chapters with
  | [] => wr_ret tt
  | chapter :: rest =>
      doc_ f_write (chapter ++ Str.nl ++ Str.nl);
      doc_ (if Nat.ltb i total then f_write rule else wr_ret tt);
      write_chapter_blocks (S i) total rest
  end.

Fixpoint write_elements (elements : list dict) : wr unit :=
  match elements with
  | [] => wr_ret tt
  | elem :: rest =>
      doc_ f_write
        (u "## "
         ++ py_str (get_or elem (u "title") (VStr (u "Interactive Element")))
         ++ Str.nl);
      doc_ f_write
        (u "Type: " ++ py_str (get_or elem (u "type") (VStr (u "N/A")))
         ++ Str.nl);
      doc_ f_write
        (py_str (get_or elem (u "description") (VStr [])) ++ Str.nl ++ Str.nl);
      write_elements rest
  end.

Definition appendix_header : str :=
  Str.nl ++ Str.nl ++ rule ++ u "# Appendix: Interactive Tools"
  ++ Str.nl ++ Str.nl.

Definition compile_body (results : results) (client : option llm_client)
  : wr unit :=
  let cfg := config results in
  (* Title page *)
  doc topic <- wr_lift (getitem cfg (u "topic"));
  doc topic_text <- wr_lift (as_str topic);
  doc_ f_write (u "# " ++ Str.title topic_text ++ Str.nl ++ Str.nl);
  doc target_audience <- wr_lift (getitem cfg (u "target_audience"));
  doc_ f_write
    (u "*An eBook for " ++ py_str target_audience ++ u "*" ++ Str.nl ++ Str.nl);
  doc_ f_write rule;
  (* Intro section *)
  let intro_min := get cfg (u "intro_min_words") in
  let intro_max := get cfg (u "intro_max_words") in
  doc_
    (if truthy intro_min && truthy intro_max then
       doc topic <- wr_lift (getitem cfg (u "topic"));
       doc intro <-
         wr_lift (write_section_with_stream (u "Introduction")
                    (intro_prompt topic intro_min intro_max)
                    (client_or_mock client));
       doc_ f_write intro;
       f_write (Str.nl ++ rule)
     else wr_ret tt);
  (* Table of Contents *)
  doc_
    match stage_3 (stages results) with
    | Some toc =>
        doc_ f_write toc;
        f_write (Str.nl ++ Str.nl ++ rule)
    | None => wr_ret tt
    end;
  (* Optimized chapters *)
  doc_
    match stage_5 (stages results) with
    | Some optimized_chapters =>
        write_chapter_blocks 1 (length optimized_chapters) optimized_chapters
    | None => wr_ret tt
    end;
  (* Final Thoughts *)
  let final_min := get cfg (u "final_min_words") in
  let final_max := get cfg (u "final_max_words") in
  doc_
    (if truthy final_min && truthy final_max then
       doc topic <- wr_lift (getitem cfg (u "topic"));
       doc final <-
         wr_lift (write_section_with_stream (u "Final Thoughts")
                    (final_prompt topic final_min final_max)
                    (client_or_mock client));
       doc_ f_write final;
       f_write (Str.nl ++ rule)
     else wr_ret tt);
  (* Leave a Review *)
  let review_min := get cfg (u "review_min_words") in
  let review_max := get cfg (u "review_max_words") in
  doc_
    (if truthy review_min && truthy review_max then
       doc review <-
         wr_lift (write_section_with_stream (u "We'd Love Your Review")
                    (review_prompt review_min review_max)
                    (client_or_mock client));
       doc_ f_write review;
       f_write (Str.nl ++ rule)
     else wr_ret tt);
  (* Appendix: Interactive Elements *)
  doc_ f_write appendix_header;
  match stage_7 (stages results) with
  | Some elements => write_elements elements
  | None => wr_ret tt
  end.

(** [compile_ebook]: the file holds what the body wrote, also when the
    body raised. *)
Definition compile_ebook (results : results) (output_dir : str)
    (client : option llm_client) : io (str * str) :=
  fun fs =>
    let ebook_path := (output_dir, u "FINAL_EBOOK.md") in
    match compile_body results client with
    | (Ok _, text) => (Ok ebook_path, <[ebook_path := text]> fs)
    | (Raise e, text) => (Raise e, <[ebook_path := text]> fs)
    end.

(** ** The pipeline *)

(** The loop [for i, chapter in enumerate(chapters, 1)] that saves one file
    per chapter. *)
Fixpoint save_chapters (output_dir : str) (prefix : str) (i : nat)
    (chapters : list str) : io unit :=
  match chapters with
  | [] => io_ret tt
  | chapter :: rest =>
      exec_ save_stage_output output_dir
              (prefix ++ Str.of_nat i ++ u ".md") chapter;
      save_chapters output_dir prefix (S i) rest
  end.

(** [execute_pipeline]. The store holds the text artifacts; the JSON files
    of stages 7 to 9 and the metadata file, which the script writes and
    never reads back, are left out, and with the metadata file the
    [TypeError] of [json.dump] on a configuration value it cannot write:
    what is proved of a run that returns holds of the script's runs that
    return. The dictionary [config] is shared with [results['config']], so
    the compiler sees the [output_dir] entry. *)
Definition execute_pipeline (config : dict) (output_dir : str)
    (client : option llm_client) : io results :=
  (* Stage 1 *)
  exec queries <- lift (stage_1_seo_queries config client);
  exec lines <- lift (join_items Str.nl queries);
  exec_ save_stage_output output_dir (u "stage_1_queries.txt") lines;
  (* Stage 2 *)
  exec outline <- lift (stage_2_outline config queries client);
  exec_ save_stage_output output_dir (u "stage_2_outline.md") outline;
  let config := <[u "output_dir" := VStr output_dir]> config in
  (* Stage 3 *)
  exec toc <- lift (stage_3_toc outline client);
  exec_ save_stage_output output_dir (u "stage_3_toc.md") toc;
  (* Stage 4 *)
  exec chapters <- stage_4_chapters config queries client;
  exec_ save_chapters output_dir (u "stage_4_chapter_") 1 chapters;
  (* Stage 5 *)
  let optimized_chapters := stage_5_optimize chapters client in
  exec_ save_chapters output_dir (u "stage_5_optimized_chapter_") 1
          optimized_chapters;
  (* Stage 6 *)
  exec first_chapter <- lift (index optimized_chapters 0);
  exec cover_prompt <- lift (stage_6_cover config first_chapter client);
  exec_ save_stage_output output_dir (u "stage_6_cover_prompt.txt")
          cover_prompt;
  (* Stages 7 to 9 *)
  let interactive_elements := stage_7_interactive optimized_chapters client in
  let diagram_prompts := stage_8_diagrams optimized_chapters client in
  let background_prompts := stage_9_backgrounds optimized_chapters client in
  let results :=
    {| config := config;
       stages :=
         {| stage_1 := Some queries;
            stage_2 := Some outline;
            stage_3 := Some toc;
            stage_4 := Some chapters;
            stage_5 := Some optimized_chapters;
            stage_6 := Some cover_prompt;
            stage_7 := Some interactive_elements;
            stage_8 := Some diagram_prompts;
            stage_9 := Some background_prompts |};
       output_dir := output_dir |} in
  (* Compile final eBook: no client is passed on *)
  exec ebook_path <- compile_ebook results output_dir None;
  io_ret results.

(** ** Scenarios and vocabulary of the specification *)

(** A YAML parser that rejects every document. *)
Definition no_yaml : str -> result yaml_value := fun _ => Raise YAMLError.

(** A YAML parser that reads every document as the mapping [d]. *)
Definition yaml_always (d : dict) : str -> result yaml_value :=
  fun _ => Ok (YMapping d).

(** A client whose calls fail. *)
Definition failing_client : llm_client :=
  {| generate := fun _ => Raise (BackendError (u "quota exceeded"));
     stream_generate := fun _ => Raise (BackendError (u "quota exceeded")) |}.

(** A client that answers every prompt with the same text. *)
Definition constant_client (reply : str) : llm_client :=
  {| generate := fun _ => Ok reply; stream_generate := fun _ => Ok reply |}.

(** The path of [main] from a topic to the final document, taken without a
    client: build the configuration, apply the template, run the pipeline. *)
Definition fallback_scenario (topic template output_dir : str) : io results :=
  exec cfg <- lift (generate_config_from_topic no_yaml topic None);
  let cfg := apply_template_defaults cfg template in
  execute_pipeline cfg output_dir None.

(** A numbered entry of a table of contents: [<digits>. <title>]. *)
Definition numbered_entry_re : Re.regex :=
  Re.seq [Re.plus Char.is_decimal; Re.Chr (N.eqb Char.DOT);
          Re.Chr (N.eqb Char.SPACE)].

Definition is_numbered_entry (line : str) : bool :=
  match Re.re_match numbered_entry_re line with
  | Some _ => true
  | None => false
  end.

Definition numbered_entries (text : str) : nat :=
  length (List.filter is_numbered_entry (Str.splitlines text)).

(** The blocks of the final document. *)
Definition title_page (topic : str) (target_audience : pyval) : str :=
  u "# " ++ Str.title topic ++ Str.nl ++ Str.nl
  ++ u "*An eBook for " ++ py_str target_audience ++ u "*" ++ Str.nl ++ Str.nl
  ++ rule.

Definition toc_block (toc : str) : str := toc ++ Str.nl ++ Str.nl ++ rule.

Fixpoint chapter_blocks (chapters : list str) : str :=
  match chapters with
  | [] => []
  | [chapter] => chapter ++ Str.nl ++ Str.nl
  | chapter :: rest => chapter ++ Str.nl ++ Str.nl ++ rule ++ chapter_blocks rest
  end.

Definition element_block (elem : dict) : str :=
  u "## " ++ py_str (get_or elem (u "title") (VStr (u "Interactive Element")))
  ++ Str.nl
  ++ u "Type: " ++ py_str (get_or elem (u "type") (VStr (u "N/A"))) ++ Str.nl
  ++ py_str (get_or elem (u "description") (VStr [])) ++ Str.nl ++ Str.nl.

Definition appendix (elements : list dict) : str :=
  appendix_header ++ concat (map element_block elements).

(** A section made from the mock client's reply to [prompt]. *)
Definition mock_section (title prompt : str) (block : str) : Prop :=
  exists reply,
    mock_generate prompt = Ok reply
    /\ block = u "# " ++ title ++ Str.nl ++ Str.nl ++ Str.strip reply ++ Str.nl
               ++ Str.nl ++ rule.

(** An optional section: made by the mock client when both bounds are
    true values, and left out otherwise. *)
Definition optional_block (lo hi : pyval) (title prompt : str) (block : str)
  : Prop :=
  if truthy lo && truthy hi then mock_section title prompt block
  else block = [].

(** The keys of the configuration that the Stage 1 prompt reads. *)
Definition stage_1_keys : list str :=
  [u "topic"; u "tone"; u "mood"; u "theme"; u "main_keyword";
   u "target_audience"].


(** A pair of word bounds that is present and ordered. *)
Definition bounds_ordered (config : dict) (kmin kmax : str) : Prop :=
  exists lo hi,
    config !! kmin = Some (VInt lo) /\ config !! kmax = Some (VInt hi)
    /\ (lo <= hi)%Z.

Definition template_names : list str :=
  [u "standard"; u "quickstart"; u "deepdive"].

Definition outline_with_repeats : str :=
  Str.join Str.nl
    [u "# Title"; []; line_alpha; u "Chapter 9: intro"; line_beta; line_alpha;
     line_gamma; line_beta; u "- Chapter 4"].

Definition sub_point_line : str := u "## Chapter 1 - 1.1 Sub point".

Definition blank_outline : str :=
  Str.join Str.nl
    [u "# Weight Loss For Beginners"; []; u "## Outline"; [];
     u "- Chapter 1"; u "- Chapter 2"; u "Chapter 3: no separator"].

Definition suggested_config : dict :=
  list_to_map
    [ (u "topic", VStr (u "keto"));
      (u "num_chapters", VInt 9);
      (u "min_search_results", VInt 1) ].

Definition stage_1_config : dict :=
  list_to_map
    [ (u "topic", VStr (u "weight loss for beginners"));
      (u "tone", VStr (u "empowering"));
      (u "mood", VStr (u "motivational"));
      (u "theme", VStr (u "beginner-friendly transformation"));
      (u "main_keyword", VStr (u "weight"));
      (u "target_audience", VStr (u "busy professionals")) ].

Definition seven_line_reply : str :=
  Str.join Str.nl
    [u "  keto diet "; []; u "meal prep"; u "home workout"; u "   ";
     u "lose belly fat"; u "healthy recipes"; u "yoga for beginners";
     u "intermittent fasting"].



(** The end-to-end scenario of the specification. *)
Definition e2e_topic : str := u "weight loss for beginners".
Definition e2e_output : str := u "output".
Definition e2e_final : str * str := (e2e_output, u "FINAL_EBOOK.md").

Definition e2e_run : result results * files :=
  fallback_scenario e2e_topic (u "standard") e2e_output ∅.

(** The end-to-end claim as the specification words it: the run returns,
    the document starts with a title line made from the topic, its table
    of contents has exactly five numbered entries, and the appendix has one
    interactive-element block per chapter. *)
Definition end_to_end_claim : Prop :=
  exists r fs ebook toc chapters elements,
    e2e_run = (Ok r, fs)
    /\ fs !! e2e_final = Some ebook
    /\ Str.splitlines ebook !! 0 = Some (u "# " ++ Str.title e2e_topic)
    /\ stage_3 (stages r) = Some toc
    /\ Str.contains toc ebook = true
    /\ numbered_entries toc = 5
    /\ stage_5 (stages r) = Some chapters
    /\ stage_7 (stages r) = Some elements
    /\ length elements = length chapters
    /\ Str.contains (appendix elements) ebook = true.

(** A chapter written without client under a fallback title. *)
Definition fallback_chapter (i : nat) : str :=
  chapter_heading i (u "Chapter " ++ Str.of_nat i) ++ Str.nl ++ Str.nl
  ++ u "Content for Chapter " ++ Str.of_nat i ++ u "...".

(** A configuration whose intro bound is present and zero, and a client
    that answers every prompt. *)
Definition zero_intro_config : dict :=
  <[u "intro_min_words" := VInt 0]>
    (apply_template_defaults stage_1_config (u "standard")).

Definition water_client : llm_client := constant_client (u "Drink water.").

(** What a run returned, if it did not raise. *)
Definition returned {A : Type} (run : result A * files) : option A :=
  match run with
  | (Ok a, _) => Some a
  | (Raise _, _) => None
  end.

(** The mock client's section for a title and a prompt. *)
Definition rendered_section (title prompt : str) : str :=
  match mock_generate prompt with
  | Ok reply =>
      u "# " ++ title ++ Str.nl ++ Str.nl ++ Str.strip reply ++ Str.nl
      ++ Str.nl ++ rule
  | Raise _ => []
  end.

Definition e2e_audience : pyval :=
  VStr (u "busy professionals aged 30-50 seeking practical solutions").

Definition e2e_chapters : list str := map fallback_chapter [1; 2; 3; 4; 5].

Definition tracker_block (i : nat) : str :=
  concat
    [ u "## Progress Tracker - Chapter "; Str.of_nat i; Str.nl;
      u "Type: Printable Tracker"; Str.nl;
      u "Track your progress"; Str.nl; Str.nl ].

(** The final document of the end-to-end scenario, block by block. *)
Definition e2e_document : str :=
  title_page e2e_topic e2e_audience
  ++ rendered_section (u "Introduction")
       (intro_prompt (VStr e2e_topic) (VInt 600) (VInt 900))
  ++ toc_block toc_placeholder
  ++ chapter_blocks e2e_chapters
  ++ rendered_section (u "Final Thoughts")
       (final_prompt (VStr e2e_topic) (VInt 600) (VInt 900))
  ++ rendered_section (u "We'd Love Your Review")
       (review_prompt (VInt 300) (VInt 500))
  ++ appendix_header
  ++ concat (map tracker_block [1; 2; 3; 4; 5]).

(** ** Vocabulary of the further properties *)

(** A text without leading or trailing whitespace: [s == s.strip()]. *)
Definition trimmed (s : str) : Prop := Str.strip s = s.

(** A text that [splitlines] keeps in one piece. *)
Definition single_line (s : str) : Prop :=
  Forall (fun c => Char.is_linebreak c = false) s.

(** The character map of [line.replace(EM_DASH, EN_DASH)]. *)
Definition dash_norm (c : N) : N :=
  if N.eqb c Char.EM_DASH then Char.EN_DASH else c.

(** The titles Stage 4 makes up when the outline offers none:
    [[f"Chapter {i+1}" for i in range(n)]]. *)
Definition fallback_titles (r : list nat) : list str :=
  map (fun i => u "Chapter " ++ Str.of_nat (i + 1)) r.

(** The body of a chapter, after its heading and a blank line. *)
Definition chapter_body (config : dict) (client : option llm_client)
    (i : nat) (title : str) (body : str) : Prop :=
  match client with
  | None => body = u "Content for " ++ title ++ u "..."
  | Some c =>
      exists prompt text,
        chapter_prompt config i title = Ok prompt
        /\ stream_generate c prompt = Ok text
        /\ body = match text with
                  | [] => u "(Empty)"
                  | _ => Str.strip text
                  end
  end.

(** The table of contents for a non-empty list of titles. *)
Definition numbered_toc (titles : list str) : str :=
  Str.join Str.nl
    ([u "# Table of Contents"; []]
       ++ imap (fun i title => toc_entry (i + 1) title) titles)
  ++ Str.nl.

(** The eight keys a template writes. *)
Definition template_keys : list str :=
  [u "intro_min_words"; u "intro_max_words"; u "num_chapters";
   u "chapter_length"; u "final_min_words"; u "final_max_words";
   u "review_min_words"; u "review_max_words"].

(** A positive integer stored under a key. *)
Definition positive_at (config : dict) (k : str) : Prop :=
  exists n, config !! k = Some (VInt n) /\ (0 < n)%Z.

(** The ten keys of the heuristic defaults, and the two system keys. *)
Definition default_keys : list str :=
  [u "topic"; u "main_keyword"; u "theme"; u "target_audience"; u "tone";
   u "mood"; u "distribution_platform"; u "primary_format";
   u "chapter_length"; u "interactive_elements_included"].

Definition system_keys : list str := [u "min_search_results"; u "num_chapters"].

(** A text made of whitespace only (the empty text included). *)
Definition blank (s : str) : Prop := Forall (fun c => Char.is_space c = true) s.

(** An action whose result, and whose effect on the file [key], depend on
    the store through the content of [key] only. *)
Definition io_stable {A : Type} (key : str * str) (m : io A) : Prop :=
  forall fs1 fs2,
    fs1 !! key = fs2 !! key ->
    fst (m fs1) = fst (m fs2) /\ snd (m fs1) !! key = snd (m fs2) !! key.

(** An action whose result does not depend on the store it starts from. *)
Definition io_blind {A : Type} (m : io A) : Prop :=
  forall fs1 fs2, fst (m fs1) = fst (m fs2).

(** The store after the loop that saves one file per chapter. *)
Fixpoint store_chapters (out prefix : str) (i : nat) (chapters : list str)
    (fs : files) : files :=
  match chapters with
  | [] => fs
  | chapter :: rest =>
      store_chapters out prefix (S i) rest
        (<[(out, prefix ++ Str.of_nat i ++ u ".md") := chapter]> fs)
  end.

(** The number of chapters Stage 4 makes up when the outline offers no
    title: the length of [range(config.get('num_chapters', 5))]. *)
Definition chapter_count (config : dict) : option nat :=
  match get_or config (u "num_chapters") (VInt 5) with
  | VInt z => Some (Z.to_nat z)
  | VBool b => Some (if b then 1 else 0)
  | _ => None
  end.

(** The name of the file of chapter [i] of a stage. *)
Definition chapter_file (prefix : str) (i : nat) : str :=
  prefix ++ Str.of_nat i ++ u ".md".

(** The three files written before Stage 4 runs. *)
Definition store_first_stages (out : str) (queries outline toc : str)
    (fs : files) : files :=
  <[(out, u "stage_3_toc.md") := toc]>
    (<[(out, u "stage_2_outline.md") := outline]>
       (<[(out, u "stage_1_queries.txt") := queries]> fs)).



Section Fences.
Variable safe_load : str -> result yaml_value.

End Fences.

(** Results without configuration and without any stage output. *)
Definition empty_results : results :=
  {| config := ∅;
     stages :=
       {| stage_1 := None; stage_2 := None; stage_3 := None;
          stage_4 := None; stage_5 := None; stage_6 := None;
          stage_7 := None; stage_8 := None; stage_9 := None |};
     output_dir := e2e_output |}.

(** ** The extractor as a Python function: what it leaves behind

    A Python function can change files, print, and change the mutable
    objects it reaches; it returns a reference when its result is a list.
    The extractor builds its result in a list object that it creates and
    extends in place. *)

Module Py.

(** The world a function runs in: the files, the text printed so far,
    and the list objects, each under its identity. *)
Record world : Type := {
  w_files : files;
  w_stdout : str;
  w_lists : gmap nat (list str)
}.

Definition with_lists (lists : gmap nat (list str)) (w : world) : world :=
  {| w_files := w_files w; w_stdout := w_stdout w; w_lists := lists |}.

Definition py (A : Type) : Type := world -> result A * world.

Definition ret {A : Type} (a : A) : py A := fun w => (Ok a, w).

Definition bind {A B : Type} (m : py A) (k : A -> py B) : py B :=
  fun w =>
    match m w with
    | (Ok a, w') => k a w'
    | (Raise e, w') => (Raise e, w')
    end.

Definition lift {A : Type} (r : result A) : py A := fun w => (r, w).

(** [[]]: a list object that did not exist before. *)
Definition new_list : py nat :=
  fun w =>
    let l := fresh (dom (w_lists w)) in
    (Ok l, with_lists (<[l := []]> (w_lists w)) w).

(** The items of the list object [l]; a reference always names an object,
    so the default is never used. *)
Definition items (l : nat) (w : world) : list str :=
  default [] (w_lists w !! l).

(** [x in l] *)
Definition contains (l : nat) (x : str) : py bool :=
  fun w => (Ok (bool_decide (x ∈ items l w)), w).

(** [l.append(x)] *)
Definition append (l : nat) (x : str) : py unit :=
  fun w => (Ok tt, with_lists (<[l := items l w ++ [x]]> (w_lists w)) w).

(** The body of the [for raw in outline.splitlines()] loop, on the list
    object [titles]. *)
Definition extract_step (titles : nat) (raw : str) : py unit :=
  let line := Str.strip raw in
  match line with
  | [] => ret tt
  | _ =>
      let norm := Str.replace_char Char.EM_DASH Char.EN_DASH line in
      match Re.re_match chapter_re norm with
      | Some m =>
          bind (lift (group_str m 2)) (fun g2 =>
          let title := Str.strip (Str.rstrip_chars (u ".") (Str.strip g2)) in
          match Re.re_match subnum_re title with
          | None =>
              if negb (Str.eqb title []) then
                bind (contains titles title) (fun seen =>
                if negb seen then append titles title else ret tt)
              else ret tt
          | Some _ => ret tt
          end)
      | None => ret tt
      end
  end.

Fixpoint extract_loop (titles : nat) (lines : list str) : py unit :=
  match lines with
  | [] => ret tt
  | raw :: rest => bind (extract_step titles raw) (fun _ => extract_loop titles rest)
  end.

(** [extract_chapter_titles]: the reference it returns names the list it
    has built. *)
Definition extract_chapter_titles (outline : str) : py nat :=
  bind new_list (fun titles =>
  bind (extract_loop titles (Str.splitlines outline)) (fun _ =>
  ret titles)).

(** A call that returned the new object [l] and left everything else as
    it was: the files, the printed text and every object that existed. *)
Definition only_created (l : nat) (w w' : world) : Prop :=
  w_files w' = w_files w
  /\ w_stdout w' = w_stdout w
  /\ w_lists w !! l = None
  /\ forall l', l' <> l -> w_lists w' !! l' = w_lists w !! l'.

(** A world without files, printed text or objects. *)
Definition empty_world : world :=
  {| w_files := ∅; w_stdout := []; w_lists := ∅ |}.

End Py.

(** * Theory *)

(** ** Checks of the string methods against Python *)

Example u_ascii : u "Ab-1" = [65; 98; 45; 49]%N.
Proof. reflexivity. Qed.

Example splitlines_examples :
  Str.splitlines (u "a" ++ [13; 10]%N ++ u "b" ++ [10; 10]%N ++ u "c" ++ [10]%N)
    = [u "a"; u "b"; []; u "c"]
  /\ Str.splitlines [] = []
  /\ Str.splitlines [10%N] = [[]]
  /\ Str.splitlines (u "a" ++ [13%N] ++ u "b") = [u "a"; u "b"].
Proof. repeat split; reflexivity. Qed.

Example split_examples :
  Str.words (u " a  b ") = [u "a"; u "b"]
  /\ Str.split (u "```") (u "a```b```c") = [u "a"; u "b"; u "c"]
  /\ Str.split (u "aa") (u "aaaa") = [[]; []; []]
  /\ Str.split (u "x") [] = [[]]
  /\ Str.rstrip_chars (u ".") (u "x..  . ") = u "x..  . "
  /\ Str.title (u "it's a 3rd-way x1y") = u "It'S A 3Rd-Way X1Y"
  /\ Str.of_Z 12000000 = u "12000000" /\ Str.of_Z (-5) = u "-5"
  /\ Str.of_Z 0 = u "0".
Proof. repeat split; reflexivity. Qed.

(** Case mapping beyond ASCII: an accented first letter, an accented
    letter inside a word, a final sigma, a Kelvin sign. *)
Example case_examples :
  Str.title (233 :: u "lan vital")%N = (201 :: u "lan Vital")%N
  /\ Str.title (u "pok" ++ 233 :: u "mon")%N = (u "Pok" ++ 233 :: u "mon")%N
  /\ Str.lower [927; 916; 927; 931]%N = [959; 948; 959; 962]%N
  /\ Str.title [927; 916; 927; 931]%N = [927; 948; 959; 962]%N
  /\ Str.lower (u "wor" ++ 8490 :: u "out")%N = u "workout".
Proof. repeat split; vm_compute; reflexivity. Qed.

(** ** Properties of the matcher *)

Module ReFacts.
Import Re.

Lemma or_else_Some {R : Type} (a b : option R) (x : R) :
  or_else a b = Some x -> a = Some x \/ b = Some x.
Proof. destruct a; simpl; auto. Qed.

(** A successful repetition ends in a successful continuation. *)
Lemma rep_greedy_inv {R : Type} p (k : str -> option R) s :
  forall lo hi x,
    rep_greedy p lo hi s k = Some x -> exists s', k s' = Some x.
Proof.
  induction s as [|c s IH]; intros lo hi x H; simpl in H.
  - destruct lo; [eauto | discriminate].
  - destruct (p c && may_take hi).
    + apply or_else_Some in H as [H|H]; [eauto|].
      destruct lo; [eauto | discriminate].
    + destruct lo; [eauto | discriminate].
Qed.

Lemma run_binds {R : Type} (r : regex) :
  forall s g (k : str -> groups -> option R) x,
    run r s g k = Some x ->
    exists s' g',
      k s' g' = Some x
      /\ forall i, is_Some (g !! i) \/ binds i r = true -> is_Some (g' !! i).
Proof.
  induction r as [|p|p lo hi|r1 IH1 r2 IH2|r1 IH1 r2 IH2|r1 IH1|j r1 IH1|];
    intros s g k x H; simpl in H.
  - exists s, g. split; [done|]. intros i [Hi|Hi]; [done | discriminate].
  - destruct s as [|c s]; [discriminate|].
    destruct (p c); [|discriminate].
    exists s, g. split; [done|]. intros i [Hi|Hi]; [done | discriminate].
  - apply rep_greedy_inv in H as [s' H].
    exists s', g. split; [done|]. intros i [Hi|Hi]; [done | discriminate].
  - apply IH1 in H as (s1 & g1 & H & Hg1).
    apply IH2 in H as (s2 & g2 & H & Hg2).
    exists s2, g2. split; [done|]. intros i Hi. apply Hg2.
    simpl in Hi. destruct Hi as [Hi|Hi].
    + left. apply Hg1. by left.
    + apply orb_true_iff in Hi as [Hi|Hi]; [left; apply Hg1; by right | by right].
  - apply or_else_Some in H as [H|H].
    + apply IH1 in H as (s1 & g1 & H & Hg1).
      exists s1, g1. split; [done|]. intros i [Hi|Hi]; apply Hg1; [by left|].
      simpl in Hi. apply andb_true_iff in Hi as [Hi _]. by right.
    + apply IH2 in H as (s1 & g1 & H & Hg1).
      exists s1, g1. split; [done|]. intros i [Hi|Hi]; apply Hg1; [by left|].
      simpl in Hi. apply andb_true_iff in Hi as [_ Hi]. by right.
  - apply or_else_Some in H as [H|H].
    + apply IH1 in H as (s1 & g1 & H & Hg1).
      exists s1, g1. split; [done|]. intros i [Hi|Hi]; [|discriminate].
      apply Hg1. by left.
    + exists s, g. split; [done|]. intros i [Hi|Hi]; [done | discriminate].
  - apply IH1 in H as (s1 & g1 & H & Hg1).
    eexists s1, _. split; [exact H|]. intros i Hi.
    destruct (decide (j = i)) as [->|Hne].
    + rewrite lookup_insert_eq. eauto.
    + rewrite lookup_insert_ne by done. apply Hg1.
      destruct Hi as [Hi|Hi]; [by left|]. right. simpl in Hi.
      apply orb_true_iff in Hi as [Hi|Hi]; [|done].
      apply Nat.eqb_eq in Hi. congruence.
  - exists s, g. split; [|intros i [Hi|Hi]; [done | discriminate]].
    destruct s as [|c [|c' s]]; [done | | discriminate].
    by destruct (N.eqb c Char.LF).
Qed.

Lemma re_match_binds (r : regex) (s : str) (m : groups) (i : nat) :
  re_match r s = Some m -> binds i r = true -> is_Some (group m i).
Proof.
  intros H Hb. apply run_binds in H as (s' & g' & H & Hg).
  injection H as <-. apply Hg. by right.
Qed.

(** A greedy repetition whose continuation accepts takes the longest run. *)
Lemma rep_greedy_longest {R : Type} p (k : str -> option R) d rest x :
  forall lo,
    Forall (fun c => p c = true) d ->
    lo <= length d ->
    k rest = Some x ->
    match rest with [] => True | c :: _ => p c = false end ->
    rep_greedy p lo None (d ++ rest) k = Some x.
Proof.
  induction d as [|a d IH]; intros lo Hd Hlo Hk Hrest; simpl in *.
  - assert (lo = 0) as -> by lia.
    destruct rest as [|c rest]; simpl; [done|]. by rewrite Hrest.
  - inversion Hd as [|? ? Ha Hd']; subst. rewrite Ha. simpl.
    rewrite (IH (Nat.pred lo)); [done | done | lia | done | done].
Qed.

(** A repetition before an always-accepting continuation matches as soon
    as the input starts with enough characters of the class. *)
Lemma rep_greedy_accepts {R : Type} p (k : str -> option R) d rest :
  forall lo,
    (forall s', is_Some (k s')) ->
    Forall (fun c => p c = true) d ->
    lo <= length d ->
    is_Some (rep_greedy p lo None (d ++ rest) k).
Proof.
  induction d as [|a d IH]; intros lo Hk Hd Hlo; simpl in *.
  - assert (lo = 0) as -> by lia.
    destruct rest as [|c rest]; simpl; [apply Hk|].
    destruct (p c && true); [|apply Hk].
    destruct (Hk (c :: rest)) as [y Hy]. rewrite Hy.
    destruct (rep_greedy p 0 None rest k); simpl; eauto.
  - inversion Hd as [|? ? Ha Hd']; subst. rewrite Ha. simpl.
    destruct (IH (Nat.pred lo) Hk Hd' ltac:(lia)) as [y Hy]. rewrite Hy.
    simpl. eauto.
Qed.
End ReFacts.

(** ** Properties of the string methods *)

Module StrFacts.
Import Str.

Lemma lstrip_by_app_stop p a c b :
  p c = false -> lstrip_by p (a ++ c :: b) = lstrip_by p a ++ c :: b.
Proof.
  intros Hc. induction a as [|x a IH]; simpl.
  - by rewrite Hc.
  - destruct (p x); [exact IH | done].
Qed.

(** Stripping on the right never reaches into a prefix whose last
    character is kept. *)
Lemma rstrip_by_keep p pre c rest :
  p c = false ->
  rstrip_by p ((pre ++ [c]) ++ rest) = (pre ++ [c]) ++ rstrip_by p rest.
Proof.
  intros Hc. unfold rstrip_by.
  rewrite !rev_app_distr. simpl.
  rewrite lstrip_by_app_stop by done.
  rewrite rev_app_distr. simpl. by rewrite rev_involutive.
Qed.

Lemma lstrip_by_keep p c s :
  p c = false -> lstrip_by p (c :: s) = c :: s.
Proof. intros Hc. simpl. by rewrite Hc. Qed.
End StrFacts.

(** ** Properties of the character classes *)

Module CharFacts.
Import Char.
Local Open Scope N_scope.

Lemma is_decimal_point c : is_decimal c = true -> In c decimal_points.
Proof.
  unfold is_decimal. rewrite existsb_exists. intros (z & Hin & Hz).
  apply andb_true_iff in Hz as [H1 H2].
  apply N.leb_le in H1. apply N.ltb_lt in H2.
  apply in_flat_map. exists z. split; [done|].
  apply in_map_iff. exists (c - z). split; [lia|].
  assert (c - z = 0 \/ c - z = 1 \/ c - z = 2 \/ c - z = 3 \/ c - z = 4
          \/ c - z = 5 \/ c - z = 6 \/ c - z = 7 \/ c - z = 8 \/ c - z = 9)
    as Hk by lia.
  simpl. intuition.
Qed.

(** A decimal digit is neither whitespace nor a full stop. *)
Lemma is_decimal_kept c :
  is_decimal c = true -> is_space c = false /\ N.eqb c DOT = false.
Proof.
  intros H%is_decimal_point.
  assert (forallb (fun c => negb (is_space c) && negb (N.eqb c DOT))
            decimal_points = true) as Hall by (vm_compute; reflexivity).
  rewrite forallb_forall in Hall. specialize (Hall _ H).
  apply andb_true_iff in Hall as [H1 H2].
  apply negb_true_iff in H1, H2. done.
Qed.
End CharFacts.

(** ** Properties of [extract_chapter_titles] *)

Section Extractor.

Lemma chapter_re_binds_title : binds 2 chapter_re = true.
Proof. reflexivity. Qed.

(** [m.group(2)] is a string for every match of the chapter pattern. *)
Lemma chapter_line_group raw m :
  chapter_line raw = Some m -> exists g2, Re.group m 2 = Some g2.
Proof.
  intros H. eapply ReFacts.re_match_binds in H as [g2 H]; eauto.
Qed.

Lemma chapter_re_empty : Re.re_match chapter_re [] = None.
Proof. reflexivity. Qed.

Lemma strip_nil_no_match raw : Str.strip raw = [] -> chapter_line raw = None.
Proof. unfold chapter_line. by intros ->. Qed.

(** One iteration of the loop appends the line's title unless the line
    offers none or the title is already listed. *)
Lemma extract_step_spec titles raw :
  extract_step titles raw =
    Ok (match line_title raw with
        | Some t => if bool_decide (t ∈ titles) then titles else titles ++ [t]
        | None => titles
        end).
Proof.
  unfold extract_step, line_title.
  destruct (Str.strip raw) as [|c line'] eqn:Hline.
  { by rewrite (strip_nil_no_match _ Hline). }
  unfold chapter_line at 1. rewrite Hline.
  destruct (Re.re_match chapter_re _) as [m|] eqn:Hm; [|done].
  assert (chapter_line raw = Some m) as Hcl.
  { unfold chapter_line. by rewrite Hline. }
  destruct (chapter_line_group _ _ Hcl) as [g2 Hg2].
  unfold group_str. rewrite Hg2. simpl. fold (trim_title g2).
  destruct (Re.re_match subnum_re (trim_title g2)); [done|].
  destruct (trim_title g2) as [|a t]; [done|].
  unfold Str.eqb. rewrite bool_decide_eq_false_2 by done. simpl.
  by destruct (bool_decide _).
Qed.

Lemma line_title_no_match raw : chapter_line raw = None -> line_title raw = None.
Proof. unfold line_title. by intros ->. Qed.

(** Lines that offer nothing new leave the list as it is. *)
Lemma extract_loop_skip titles lines rest :
  Forall (fun raw => match line_title raw with
                     | Some t => t ∈ titles
                     | None => True
                     end) lines ->
  extract_loop titles (lines ++ rest) = extract_loop titles rest.
Proof.
  induction 1 as [|raw lines Hraw _ IH]; [done|].
  simpl. rewrite extract_step_spec. simpl.
  destruct (line_title raw) as [t|]; [|exact IH].
  by rewrite bool_decide_eq_true_2.
Qed.

Lemma extract_loop_cons titles raw rest t :
  line_title raw = Some t -> t ∉ titles ->
  extract_loop titles (raw :: rest) = extract_loop (titles ++ [t]) rest.
Proof.
  intros Ht Hnew. simpl. rewrite extract_step_spec, Ht. simpl.
  by rewrite bool_decide_eq_false_2.
Qed.

Lemma dedup_first_filter (P : str -> Prop) `{!forall x, Decision (P x)} l :
  dedup_first (filter P l) = filter P (dedup_first l).
Proof.
  induction l as [|x l IH]; [done|].
  simpl. destruct (decide (P x)) as [Hx|Hx].
  - rewrite filter_cons_True by done. simpl.
    rewrite filter_cons_True by done. f_equal.
    rewrite IH, !list_filter_filter. apply list_filter_iff. tauto.
  - rewrite filter_cons_False by done.
    rewrite filter_cons_False by done.
    rewrite IH, list_filter_filter. apply list_filter_iff.
    intros y. split; [|tauto]. intros Hy. split; [done|]. congruence.
Qed.

Lemma elem_of_dedup_first l t : t ∈ dedup_first l <-> t ∈ l.
Proof.
  induction l as [|x l IH]; [done|]. simpl.
  rewrite !elem_of_cons, list_elem_of_filter, IH.
  destruct (decide (t = x)); tauto.
Qed.

Lemma NoDup_dedup_first l : NoDup (dedup_first l).
Proof.
  induction l as [|x l IH]; simpl; constructor.
  - rewrite list_elem_of_filter. tauto.
  - by apply NoDup_filter.
Qed.

(** The loop, started from [titles], keeps the first occurrence of every
    offered title that is not listed yet. *)
Lemma extract_loop_spec lines :
  forall titles,
    extract_loop titles lines =
      Ok (titles ++ dedup_first
                      (filter (fun t => t ∉ titles) (omap line_title lines))).
Proof.
  induction lines as [|raw lines IH]; intros titles; simpl.
  { by rewrite app_nil_r. }
  rewrite extract_step_spec. simpl.
  destruct (line_title raw) as [t|]; [|apply IH].
  case_bool_decide as Ht.
  - rewrite filter_cons_False by tauto. apply IH.
  - rewrite filter_cons_True by done. rewrite IH. f_equal. simpl.
    rewrite <- app_assoc. simpl. do 2 f_equal.
    rewrite <- dedup_first_filter, list_filter_filter. f_equal.
    apply list_filter_iff. intros y.
    rewrite not_elem_of_app, list_elem_of_singleton. tauto.
Qed.

Lemma extract_chapter_titles_spec outline :
  extract_chapter_titles outline =
    Ok (dedup_first (omap line_title (Str.splitlines outline))).
Proof.
  unfold extract_chapter_titles. rewrite extract_loop_spec. simpl.
  f_equal. f_equal. induction (omap line_title _) as [|t l IH]; [done|].
  rewrite filter_cons_True by apply not_elem_of_nil. by rewrite IH.
Qed.

End Extractor.

(** ** The Heading Extractor claims *)

(** C2: an outline whose lines contain "## Chapter 1 (en dash) Alpha",
    "### Chapter 2 - Beta" and "- Chapter 3 (en dash) Gamma", first met in
    that order, and otherwise only lines that do not match the chapter
    pattern (or repeat one of the three lines already met), yields exactly
    [Alpha; Beta; Gamma]. *)
Theorem extractor_recognises_variants (outline : str) (l0 l1 l2 l3 : list str) :
  Str.splitlines outline
    = l0 ++ line_alpha :: l1 ++ line_beta :: l2 ++ line_gamma :: l3 ->
  Forall (fun raw => chapter_line raw = None) l0 ->
  Forall (fun raw => chapter_line raw = None \/ raw = line_alpha) l1 ->
  Forall (fun raw => chapter_line raw = None
                     \/ raw = line_alpha \/ raw = line_beta) l2 ->
  Forall (fun raw => chapter_line raw = None
                     \/ raw = line_alpha \/ raw = line_beta
                     \/ raw = line_gamma) l3 ->
  extract_chapter_titles outline = Ok [u "Alpha"; u "Beta"; u "Gamma"].
Proof.
  intros Hlines H0 H1 H2 H3.
  assert (line_title line_alpha = Some (u "Alpha")) as Ha
    by (vm_compute; reflexivity).
  assert (line_title line_beta = Some (u "Beta")) as Hb
    by (vm_compute; reflexivity).
  assert (line_title line_gamma = Some (u "Gamma")) as Hc
    by (vm_compute; reflexivity).
  unfold extract_chapter_titles. rewrite Hlines.
  rewrite extract_loop_skip.
  2:{ eapply Forall_impl; [exact H0|]. intros raw Hraw. simpl in Hraw.
      by rewrite (line_title_no_match _ Hraw). }
  rewrite (extract_loop_cons _ _ _ _ Ha) by apply not_elem_of_nil.
  rewrite extract_loop_skip.
  2:{ eapply Forall_impl; [exact H1|]. intros raw [Hraw| ->]; simpl.
      - by rewrite (line_title_no_match _ Hraw).
      - rewrite Ha. set_solver. }
  rewrite (extract_loop_cons _ _ _ _ Hb).
  2:{ intros Hin. apply list_elem_of_singleton in Hin. discriminate Hin. }
  rewrite extract_loop_skip.
  2:{ eapply Forall_impl; [exact H2|]. intros raw [Hraw|[->| ->]]; simpl.
      - by rewrite (line_title_no_match _ Hraw).
      - rewrite Ha. set_solver.
      - rewrite Hb. set_solver. }
  rewrite (extract_loop_cons _ _ _ _ Hc).
  2:{ intros Hin. simpl in Hin. apply elem_of_cons in Hin as [Hin|Hin];
        [discriminate Hin|].
      apply list_elem_of_singleton in Hin. discriminate Hin. }
  rewrite <- (app_nil_r l3). rewrite extract_loop_skip; [done|].
  eapply Forall_impl; [exact H3|]. intros raw [Hraw|[->|[->| ->]]]; simpl.
  - by rewrite (line_title_no_match _ Hraw).
  - rewrite Ha. set_solver.
  - rewrite Hb. set_solver.
  - rewrite Hc. set_solver.
Qed.

Lemma extractor_recognises_variants_witness :
  extract_chapter_titles outline_with_repeats
    = Ok [u "Alpha"; u "Beta"; u "Gamma"].
Proof.
  apply (extractor_recognises_variants outline_with_repeats
           [u "# Title"; []] [u "Chapter 9: intro"] [line_alpha]
           [line_beta; u "- Chapter 4"]).
  - vm_compute. reflexivity.
  - repeat constructor.
  - repeat constructor.
  - constructor; [right; left; reflexivity | constructor].
  - constructor; [right; right; left; reflexivity|].
    constructor; [left; vm_compute; reflexivity | constructor].
Defined.

(** C3: the extractor's list has no duplicates; it is the list of titles
    offered by the lines, in line order, with only the first occurrence of
    each kept, under exact (case-sensitive) comparison. "Chapter 1 - X"
    twice yields [X]; "X" and "x" are different titles. *)
Theorem extractor_keeps_first_occurrence :
  (forall outline : str,
     exists titles,
       extract_chapter_titles outline = Ok titles
       /\ NoDup titles
       /\ titles = dedup_first (omap line_title (Str.splitlines outline))
       /\ (forall t, t ∈ titles <->
                     exists raw, raw ∈ Str.splitlines outline
                                 /\ line_title raw = Some t))
  /\ extract_chapter_titles
       (Str.join Str.nl [u "Chapter 1 - X"; u "Chapter 1 - X"]) = Ok [u "X"]
  /\ extract_chapter_titles
       (Str.join Str.nl [u "Chapter 1 - X"; u "Chapter 2 - x"; u "Chapter 3 - X"])
     = Ok [u "X"; u "x"].
Proof.
  split; [|split; vm_compute; reflexivity].
  intros outline. eexists. split; [apply extract_chapter_titles_spec|].
  split; [apply NoDup_dedup_first|]. split; [done|].
  intros t. rewrite elem_of_dedup_first, list_elem_of_omap. done.
Qed.

Lemma subnum_re_complete t : sub_numbered t -> is_Some (Re.re_match subnum_re t).
Proof.
  intros (d1 & d2 & rest & Hd1 & Hd2 & Hdec1 & Hdec2 & ->).
  unfold Re.re_match, subnum_re. simpl.
  destruct (ReFacts.rep_greedy_accepts Char.is_decimal
              (fun s' : str => Some (∅ : Re.groups)) d2 rest 1) as [x Hx].
  - intros s'. eauto.
  - done.
  - destruct d2; [done | simpl; lia].
  - erewrite ReFacts.rep_greedy_longest; [eauto | done | | | done].
    + destruct d1; [done | simpl; lia].
    + simpl. exact Hx.
Qed.

(** Trimming a captured title keeps its sub-numbering prefix. *)
Lemma trim_title_keep a mid c rest :
  Char.is_space a = false -> Char.is_space c = false ->
  N.eqb c Char.DOT = false ->
  exists tail,
    trim_title (((a :: mid) ++ [c]) ++ rest) = ((a :: mid) ++ [c]) ++ tail.
Proof.
  intros Ha Hc Hdot.
  assert (forall tail, Str.strip (((a :: mid) ++ [c]) ++ tail)
            = ((a :: mid) ++ [c]) ++ Str.rstrip_by Char.is_space tail) as Hstrip.
  { intros tail. unfold Str.strip.
    assert (Str.lstrip_by Char.is_space (((a :: mid) ++ [c]) ++ tail)
            = ((a :: mid) ++ [c]) ++ tail) as -> by (simpl; by rewrite Ha).
    by apply StrFacts.rstrip_by_keep. }
  unfold trim_title. rewrite Hstrip.
  unfold Str.rstrip_chars. rewrite StrFacts.rstrip_by_keep.
  2:{ change (existsb (N.eqb c) (u ".")) with (N.eqb c Char.DOT || false).
      by rewrite Hdot. }
  rewrite Hstrip. eauto.
Qed.

Lemma trim_title_sub_numbered g2 : sub_numbered g2 -> sub_numbered (trim_title g2).
Proof.
  intros (d1 & d2 & rest & Hd1 & Hd2 & Hdec1 & Hdec2 & ->).
  destruct d1 as [|a d1]; [done|].
  destruct (exists_last Hd2) as (d2' & c & ->).
  apply Forall_app in Hdec2 as [Hdec2 Hc].
  apply Forall_inv in Hc. apply Forall_inv in Hdec1 as Ha.
  destruct (CharFacts.is_decimal_kept _ Hc) as [Hcs Hcd].
  destruct (CharFacts.is_decimal_kept _ Ha) as [Has _].
  assert (forall tail, (a :: d1) ++ Char.DOT :: (d2' ++ [c]) ++ tail
                       = ((a :: d1 ++ Char.DOT :: d2') ++ [c]) ++ tail) as Hshape.
  { intros tail. simpl. by rewrite <- !app_assoc. }
  rewrite Hshape.
  destruct (trim_title_keep a (d1 ++ Char.DOT :: d2') c rest Has Hcs Hcd)
    as [tail ->].
  rewrite <- Hshape. exists (a :: d1), (d2' ++ [c]), tail.
  split; [done|]. split; [by destruct d2'|]. split; [done|].
  split; [|done]. apply Forall_app. split; [done | by constructor].
Qed.

(** C4: a line that matches the chapter pattern but whose captured title
    begins with [<digits>.<digits>] adds nothing to the list, so no listed
    title begins that way; "## Chapter 1 - 1.1 Sub point" matches the
    pattern, captures "1.1 Sub point" and contributes nothing. *)
Theorem extractor_rejects_sub_numbering :
  (forall (raw : str) (m : Re.groups) (g2 : str) (titles : list str),
     chapter_line raw = Some m ->
     Re.group m 2 = Some g2 ->
     sub_numbered g2 ->
     line_title raw = None /\ extract_step titles raw = Ok titles)
  /\ (forall (outline : str) (titles : list str) (t : str),
        extract_chapter_titles outline = Ok titles ->
        t ∈ titles -> ~ sub_numbered t)
  /\ (exists m, chapter_line sub_point_line = Some m
                /\ Re.group m 2 = Some (u "1.1 Sub point"))
  /\ extract_chapter_titles sub_point_line = Ok []
  /\ extract_chapter_titles
       (Str.join Str.nl [u "## Chapter 1 - Intro"; sub_point_line;
                         u "## Chapter 2 - Next"])
     = Ok [u "Intro"; u "Next"].
Proof.
  assert (forall raw m g2, chapter_line raw = Some m ->
            Re.group m 2 = Some g2 -> sub_numbered g2 ->
            line_title raw = None) as Hline.
  { intros raw m g2 Hm Hg2 Hsub. unfold line_title. rewrite Hm, Hg2.
    destruct (subnum_re_complete _ (trim_title_sub_numbered _ Hsub)) as [x Hx].
    by rewrite Hx. }
  split; [|split; [|split; [|split]]].
  - intros raw m g2 titles Hm Hg2 Hsub. split; [eauto|].
    rewrite extract_step_spec. by rewrite (Hline _ _ _ Hm Hg2 Hsub).
  - intros outline titles t Hex Hin Hsub.
    rewrite extract_chapter_titles_spec in Hex. injection Hex as <-.
    apply elem_of_dedup_first, list_elem_of_omap in Hin as (raw & _ & Hraw).
    unfold line_title in Hraw.
    destruct (chapter_line raw) as [m|]; [|done].
    destruct (Re.group m 2) as [g2|]; [|done].
    destruct (Re.re_match subnum_re (trim_title g2)) eqn:Hre; [done|].
    destruct (trim_title g2) as [|a t'] eqn:Htrim; [done|].
    injection Hraw as <-.
    destruct (subnum_re_complete _ Hsub) as [x Hx]. congruence.
  - eexists. split; vm_compute; reflexivity.
  - vm_compute. reflexivity.
  - vm_compute. reflexivity.
Qed.

Lemma sub_point_capture_sub_numbered : sub_numbered (u "1.1 Sub point").
Proof.
  exists (u "1"), (u "1"), (u " Sub point").
  repeat split; try done; repeat constructor.
Defined.

Lemma extractor_rejects_sub_numbering_witness :
  line_title sub_point_line = None
  /\ extract_step [u "Intro"] sub_point_line = Ok [u "Intro"].
Proof.
  destruct extractor_rejects_sub_numbering as [H _].
  destruct (chapter_line sub_point_line) as [m|] eqn:Hm;
    [|vm_compute in Hm; discriminate Hm].
  apply (H sub_point_line m (u "1.1 Sub point") [u "Intro"]).
  - exact Hm.
  - vm_compute in Hm. injection Hm as <-. vm_compute. reflexivity.
  - exact sub_point_capture_sub_numbered.
Defined.

(** ** The extractor's effects *)

Lemma py_step_spec (l : nat) (raw : str) (w : Py.world) :
  Py.extract_step l raw w
  = (Ok tt,
     match line_title raw with
     | Some t =>
         if bool_decide (t ∈ Py.items l w) then w
         else Py.with_lists (<[l := Py.items l w ++ [t]]> (Py.w_lists w)) w
     | None => w
     end).
Proof.
unfold Py.extract_step, line_title.
destruct (Str.strip raw) as [|c line'] eqn:Hline.
{ by rewrite (strip_nil_no_match _ Hline). }
unfold chapter_line at 1. rewrite Hline.
destruct (Re.re_match chapter_re _) as [m|] eqn:Hm; [|done].
assert (chapter_line raw = Some m) as Hcl.
{ unfold chapter_line. by rewrite Hline. }
destruct (chapter_line_group _ _ Hcl) as [g2 Hg2].
unfold group_str. rewrite Hg2. cbn [Py.lift Py.bind]. fold (trim_title g2).
destruct (Re.re_match subnum_re (trim_title g2)); [done|].
destruct (trim_title g2) as [|a t]; [done|].
unfold Str.eqb. rewrite bool_decide_eq_false_2 by done.
cbn [negb Py.bind Py.contains]. by destruct (bool_decide _).
Qed.

Lemma with_lists_id (w : Py.world) l acc :
  Py.w_lists w !! l = Some acc ->
  Py.with_lists (<[l := acc]> (Py.w_lists w)) w = w.
Proof.
intros H. destruct w as [fs out lists]. unfold Py.with_lists. cbn in *.
by rewrite insert_id.
Qed.

(** The loop carries the list object through the lines as the pure loop
    carries the list, and touches nothing else. *)
Lemma py_loop_spec (l : nat) (lines : list str) :
  forall (w : Py.world) acc,
    Py.w_lists w !! l = Some acc ->
    exists acc',
      extract_loop acc lines = Ok acc'
      /\ Py.extract_loop l lines w
         = (Ok tt, Py.with_lists (<[l := acc']> (Py.w_lists w)) w).
Proof.
induction lines as [|raw rest IH]; intros w acc Hl.
- exists acc. split; [done|]. cbn [Py.extract_loop Py.ret].
  by rewrite (with_lists_id _ _ _ Hl).
- cbn [extract_loop Py.extract_loop]. unfold Py.bind at 1.
  rewrite extract_step_spec, py_step_spec.
  assert (Py.items l w = acc) as Hitems.
  { unfold Py.items. by rewrite Hl. }
  rewrite Hitems. cbn [bind].
  destruct (line_title raw) as [t|]; [|by apply IH].
  destruct (bool_decide (t ∈ acc)); [by apply IH|].
  destruct (IH (Py.with_lists (<[l := acc ++ [t]]> (Py.w_lists w)) w)
              (acc ++ [t])) as (acc' & Hpure & Hrun).
  { apply lookup_insert_eq. }
  exists acc'. split; [done|]. rewrite Hrun.
  unfold Py.with_lists. cbn. by rewrite insert_insert_eq.
Qed.

Lemma py_extract_spec (outline : str) (w : Py.world) :
  exists titles l w',
    extract_chapter_titles outline = Ok titles
    /\ Py.extract_chapter_titles outline w = (Ok l, w')
    /\ Py.w_lists w' !! l = Some titles
    /\ Py.only_created l w w'.
Proof.
unfold Py.extract_chapter_titles, extract_chapter_titles.
unfold Py.bind at 1. cbn [Py.new_list].
set (l := fresh (dom (Py.w_lists w))).
set (w0 := Py.with_lists (<[l := []]> (Py.w_lists w)) w).
destruct (py_loop_spec l (Str.splitlines outline) w0 [])
  as (titles & Hpure & Hrun).
{ apply lookup_insert_eq. }
exists titles, l. eexists. split; [exact Hpure|].
unfold Py.bind. rewrite Hrun. split; [reflexivity|].
split; [apply lookup_insert_eq|].
split; [done|]. split; [done|]. split.
- apply not_elem_of_dom, is_fresh.
- intros l' Hl'. cbn. by rewrite !lookup_insert_ne.
Qed.

(** C5: the extractor is deterministic and free of side effects. Run in
    any two worlds (in particular twice in a row, whatever was done to the
    first result in between), it returns without raising, each time a list
    object that did not exist before, and the two lists hold the same
    titles, those of the text alone; the files, the printed text and all
    the objects that existed are left as they were. A text without any
    line matching the chapter pattern gives the empty list. *)
Theorem extractor_deterministic_total (outline : str) (w1 w2 : Py.world) :
  exists titles l1 l2 w1' w2',
    Py.extract_chapter_titles outline w1 = (Ok l1, w1')
    /\ Py.extract_chapter_titles outline w2 = (Ok l2, w2')
    /\ Py.w_lists w1' !! l1 = Some titles
    /\ Py.w_lists w2' !! l2 = Some titles
    /\ Py.only_created l1 w1 w1'
    /\ Py.only_created l2 w2 w2'
    /\ extract_chapter_titles outline = Ok titles
    /\ (Forall (fun raw => chapter_line raw = None) (Str.splitlines outline) ->
        titles = []).
Proof.
destruct (py_extract_spec outline w1) as (t1 & l1 & w1' & Hp1 & Hr1 & Hl1 & Hc1).
destruct (py_extract_spec outline w2) as (t2 & l2 & w2' & Hp2 & Hr2 & Hl2 & Hc2).
assert (t2 = t1) as -> by congruence.
exists t1, l1, l2, w1', w2'.
split; [done|]. split; [done|]. split; [done|]. split; [done|].
split; [done|]. split; [done|]. split; [done|].
intros Hnone.
assert (extract_chapter_titles outline = Ok []) as Hempty.
{ unfold extract_chapter_titles.
  rewrite <- (app_nil_r (Str.splitlines outline)).
  rewrite extract_loop_skip; [done|].
  eapply Forall_impl; [exact Hnone|]. intros raw Hraw. simpl in Hraw.
  by rewrite (line_title_no_match _ Hraw). }
congruence.
Qed.

Lemma extractor_deterministic_total_witness :
  Forall (fun raw => chapter_line raw = None) (Str.splitlines blank_outline)
  /\ extract_chapter_titles blank_outline = Ok [].
Proof.
  assert (Str.splitlines blank_outline
          = [u "# Weight Loss For Beginners"; []; u "## Outline"; [];
             u "- Chapter 1"; u "- Chapter 2"; u "Chapter 3: no separator"])
    as Hlines by (vm_compute; reflexivity).
  assert (Forall (fun raw => chapter_line raw = None)
            (Str.splitlines blank_outline)) as H.
  { rewrite Hlines. repeat (constructor; [vm_compute; reflexivity|]).
    constructor. }
  split; [exact H|].
  destruct (extractor_deterministic_total blank_outline
              Py.empty_world Py.empty_world)
    as (titles & l1 & l2 & w1' & w2' & _ & _ & _ & _ & _ & _ & Hpure & Hnone).
  rewrite Hpure. f_equal. exact (Hnone H).
Defined.

(** ** The Configuration Builder and Template Applier claims *)

Ltac key_neq :=
  let H := fresh in
  intros H; vm_compute in H; discriminate H.

Lemma default_config_total topic :
  topic = [] \/ Str.words topic <> [] ->
  exists d, generate_default_config topic = Ok d.
Proof.
  intros Htopic. unfold generate_default_config.
  destruct topic as [|c topic]; [simpl; eauto|].
  destruct Htopic as [Htopic|Htopic]; [done|].
  destruct (Str.words (c :: topic)) as [|w ws] eqn:Hw; [done|].
  unfold index. simpl. eauto.
Qed.

Lemma system_defaults_keys d :
  with_system_defaults d !! u "min_search_results" = Some (VInt 12000000)
  /\ with_system_defaults d !! u "num_chapters" = Some (VInt 5).
Proof.
  unfold with_system_defaults. split.
  - rewrite lookup_insert_ne by key_neq. apply lookup_insert_eq.
  - apply lookup_insert_eq.
Qed.

(** Every configuration that the builder returns went through the
    post-processing. *)
Lemma builder_returns_system_defaults safe_load topic client cfg :
  generate_config_from_topic safe_load topic client = Ok cfg ->
  exists d, cfg = with_system_defaults d.
Proof.
  unfold generate_config_from_topic. intros H.
  destruct (match client with Some _ => _ | None => _ end) as [[d|]|e];
    simpl in H; [| |discriminate H].
  - injection H as <-. eauto.
  - destruct (generate_default_config topic) as [d|e]; [|discriminate H].
    simpl in H. injection H as <-. eauto.
Qed.

(** A topic made of whitespace only has no first word: the heuristic
    defaults raise [IndexError] on [topic.split()[0]]. *)
Lemma default_config_whitespace_topic :
  generate_default_config (u "   ") = Raise IndexError
  /\ generate_config_from_topic no_yaml (u "   ") None = Raise IndexError.
Proof. split; reflexivity. Qed.

(** C6 (counterexample): when the client's [generate] call fails, the
    builder does not return a configuration: the failure reaches the caller. *)
Lemma builder_propagates_backend_failure :
  generate_config_from_topic no_yaml (u "weight loss for beginners")
    (Some failing_client)
  = Raise (BackendError (u "quota exceeded")).
Proof. reflexivity. Qed.

(** C6 (amended): for a topic that is empty or has a word, and a client
    (if any) whose [generate] call returns a reply, the builder returns a
    configuration with the two system keys: the mapping parsed from the
    reply, or the heuristic defaults when there is no client or the reply
    does not parse to a mapping. A failure of the [generate] call itself is
    passed on to the caller. *)
Theorem builder_degrades_on_bad_reply
    (safe_load : str -> result yaml_value) (topic : str)
    (client : option llm_client) :
  (topic = [] \/ Str.words topic <> [] ->
   (forall c, client = Some c ->
              exists reply, generate c (config_prompt topic) = Ok reply) ->
   exists cfg defaults,
     generate_default_config topic = Ok defaults
     /\ generate_config_from_topic safe_load topic client = Ok cfg
     /\ cfg !! u "min_search_results" = Some (VInt 12000000)
     /\ cfg !! u "num_chapters" = Some (VInt 5)
     /\ match client with
        | None => cfg = with_system_defaults defaults
        | Some c =>
            forall reply, generate c (config_prompt topic) = Ok reply ->
              match parse_config_reply safe_load reply with
              | Ok (YMapping d) => cfg = with_system_defaults d
              | _ => cfg = with_system_defaults defaults
              end
        end)
  /\ (forall c e, client = Some c ->
                  generate c (config_prompt topic) = Raise e ->
                  generate_config_from_topic safe_load topic client = Raise e).
Proof.
  split.
  - intros Htopic Hreply.
    destruct (default_config_total _ Htopic) as [defaults Hdef].
    unfold generate_config_from_topic.
    destruct client as [c|].
    + destruct (Hreply c eq_refl) as [reply Hr]. rewrite Hr. simpl.
      destruct (parse_config_reply safe_load reply) as [[d|]|e] eqn:Hparse;
        simpl; rewrite ?Hdef; simpl;
        eexists _, defaults;
        (split; [done|]); (split; [reflexivity|]);
        (split; [apply system_defaults_keys|]);
        (split; [apply system_defaults_keys|]);
        intros reply' Hr'; injection Hr' as <-;
        by rewrite Hparse.
    + rewrite Hdef. simpl.
      exists (with_system_defaults defaults), defaults.
      destruct (system_defaults_keys defaults) as [H1 H2]. done.
  - intros c e -> He. unfold generate_config_from_topic. by rewrite He.
Qed.

Lemma builder_degrades_on_bad_reply_witness :
  exists cfg,
    generate_config_from_topic no_yaml (u "weight loss for beginners")
      (Some (constant_client (u "not yaml at all"))) = Ok cfg
    /\ cfg !! u "min_search_results" = Some (VInt 12000000)
    /\ cfg !! u "num_chapters" = Some (VInt 5).
Proof.
  destruct (builder_degrades_on_bad_reply no_yaml
              (u "weight loss for beginners")
              (Some (constant_client (u "not yaml at all")))) as [H _].
  destruct H as (cfg & defaults & _ & Hcfg & Hm & Hn & _).
  - right. vm_compute. discriminate.
  - intros c Hc. injection Hc as <-. eexists. reflexivity.
  - exists cfg. done.
Defined.

(** C7: whatever the topic, the client and the parsed reply, a configuration
    returned by the builder has [min_search_results = 12000000] and
    [num_chapters = 5]; values that the reply suggests for the two keys are
    overwritten, and without a client the builder does return. *)
Theorem builder_forces_system_keys
    (safe_load : str -> result yaml_value) (topic : str)
    (client : option llm_client) :
  (forall cfg,
     generate_config_from_topic safe_load topic client = Ok cfg ->
     cfg !! u "min_search_results" = Some (VInt 12000000)
     /\ cfg !! u "num_chapters" = Some (VInt 5))
  /\ (forall c reply d,
        client = Some c ->
        generate c (config_prompt topic) = Ok reply ->
        parse_config_reply safe_load reply = Ok (YMapping d) ->
        generate_config_from_topic safe_load topic client
          = Ok (with_system_defaults d))
  /\ (client = None ->
      topic = [] \/ Str.words topic <> [] ->
      exists d,
        generate_default_config topic = Ok d
        /\ generate_config_from_topic safe_load topic client
             = Ok (with_system_defaults d)).
Proof.
  split; [|split].
  - intros cfg H.
    apply builder_returns_system_defaults in H as [d ->].
    apply system_defaults_keys.
  - intros c reply d -> Hr Hparse. unfold generate_config_from_topic.
    rewrite Hr. simpl. by rewrite Hparse.
  - intros -> Htopic. destruct (default_config_total _ Htopic) as [d Hd].
    exists d. split; [done|]. unfold generate_config_from_topic.
    by rewrite Hd.
Qed.

Lemma builder_forces_system_keys_witness :
  exists cfg,
    generate_config_from_topic (yaml_always suggested_config) (u "keto")
      (Some (constant_client (u "num_chapters: 9"))) = Ok cfg
    /\ cfg !! u "min_search_results" = Some (VInt 12000000)
    /\ cfg !! u "num_chapters" = Some (VInt 5)
    /\ cfg !! u "topic" = Some (VStr (u "keto")).
Proof.
  destruct (builder_forces_system_keys (yaml_always suggested_config)
              (u "keto") (Some (constant_client (u "num_chapters: 9"))))
    as (Hkeys & Hparsed & _).
  specialize (Hparsed (constant_client (u "num_chapters: 9"))
                (u "num_chapters: 9") suggested_config
                eq_refl eq_refl eq_refl).
  exists (with_system_defaults suggested_config).
  split; [exact Hparsed|].
  destruct (Hkeys _ Hparsed) as [Hm Hn].
  split; [exact Hm|]. split; [exact Hn|].
  vm_compute. reflexivity.
Defined.

Lemma set_template_lookups config a b c d e f g h :
  let config' := set_template config a b c d e f g h in
  config' !! u "intro_min_words" = Some (VInt a)
  /\ config' !! u "intro_max_words" = Some (VInt b)
  /\ config' !! u "num_chapters" = Some (VInt c)
  /\ config' !! u "chapter_length" = Some (VInt d)
  /\ config' !! u "final_min_words" = Some (VInt e)
  /\ config' !! u "final_max_words" = Some (VInt f)
  /\ config' !! u "review_min_words" = Some (VInt g)
  /\ config' !! u "review_max_words" = Some (VInt h).
Proof.
  unfold set_template. cbv zeta.
  repeat split;
    repeat (first [ apply lookup_insert_eq
                  | rewrite lookup_insert_ne by key_neq ]).
Qed.

(** C8: on any configuration the quickstart template sets
    [num_chapters = 3], [chapter_length = 800] and the bounds 300-500 (intro),
    300-500 (final), 150-250 (review), each minimum below its maximum; a
    template name outside the three known ones returns the configuration
    as it was. *)
Theorem quickstart_template_values (config : dict) :
  (let config' := apply_template_defaults config (u "quickstart") in
   config' !! u "num_chapters" = Some (VInt 3)
   /\ config' !! u "chapter_length" = Some (VInt 800)
   /\ config' !! u "intro_min_words" = Some (VInt 300)
   /\ config' !! u "intro_max_words" = Some (VInt 500)
   /\ config' !! u "final_min_words" = Some (VInt 300)
   /\ config' !! u "final_max_words" = Some (VInt 500)
   /\ config' !! u "review_min_words" = Some (VInt 150)
   /\ config' !! u "review_max_words" = Some (VInt 250)
   /\ bounds_ordered config' (u "intro_min_words") (u "intro_max_words")
   /\ bounds_ordered config' (u "final_min_words") (u "final_max_words")
   /\ bounds_ordered config' (u "review_min_words") (u "review_max_words"))
  /\ (forall template : str,
        template ∉ template_names ->
        apply_template_defaults config template = config).
Proof.
  split.
  - assert (apply_template_defaults config (u "quickstart")
            = set_template config 300 500 3 800 300 500 150 250) as ->
      by reflexivity.
    destruct (set_template_lookups config 300 500 3 800 300 500 150 250)
      as (H1 & H2 & H3 & H4 & H5 & H6 & H7 & H8).
    cbv zeta. repeat split; try done.
    + exists 300%Z, 500%Z. done.
    + exists 300%Z, 500%Z. done.
    + exists 150%Z, 250%Z. done.
  - intros template Hnot. unfold apply_template_defaults, Str.eqb.
    unfold template_names in Hnot.
    rewrite !not_elem_of_cons in Hnot. destruct Hnot as (H1 & H2 & H3 & _).
    by rewrite !bool_decide_eq_false_2.
Qed.

Lemma quickstart_template_values_witness :
  apply_template_defaults suggested_config (u "epic") = suggested_config.
Proof.
  apply (proj2 (quickstart_template_values suggested_config) (u "epic")).
  unfold template_names. rewrite !not_elem_of_cons.
  repeat split; try key_neq. apply not_elem_of_nil.
Defined.

(** ** The Stage 1 claim *)

Lemma getitem_Some (d : dict) k v : d !! k = Some v -> getitem d k = Ok v.
Proof. unfold getitem. by intros ->. Qed.






(** ** Properties of the Compiler *)

Lemma Ok_inj {A : Type} (a b : A) : Ok a = Ok b -> a = b.
Proof. by intros [= ->]. Qed.

Ltac case_cond H :=
  match type of H with
  | (if ?c then _ else _) = _ =>
      revert H; unfold optional_block; destruct c; intros H
  end.

Section Writer.

Lemma wr_bind_ok {A B : Type} (m : wr A) (k : A -> wr B) b text :
  wr_bind m k = (Ok b, text) ->
  exists a t1 t2, m = (Ok a, t1) /\ k a = (Ok b, t2) /\ text = t1 ++ t2.
Proof.
  unfold wr_bind. destruct m as [[a|e] t1]; [|discriminate].
  destruct (k a) as [b' t2] eqn:Hk. intros [= -> <-].
  exists a, t1, t2. done.
Qed.

Lemma wr_lift_ok {A : Type} (r : result A) a text :
  wr_lift r = (Ok a, text) -> r = Ok a /\ text = [].
Proof. destruct r; simpl; [|discriminate]. by intros [= -> <-]. Qed.

Lemma f_write_ok text x text' : f_write text = (Ok x, text') -> text' = text.
Proof.
  unfold f_write. destruct (existsb is_surrogate text); [discriminate|].
  by intros [= <-].
Qed.

Lemma wr_ret_ok {A : Type} (a b : A) text :
  wr_ret a = (Ok b, text) -> text = [].
Proof. by intros [= _ <-]. Qed.

Lemma write_chapter_blocks_text chapters :
  forall i total x text,
    total + 1 = i + length chapters ->
    write_chapter_blocks i total chapters = (Ok x, text) ->
    text = chapter_blocks chapters.
Proof.
  induction chapters as [|chapter rest IH]; intros i total x text Hlen H.
  - cbn [write_chapter_blocks] in H. by injection H as _ <-.
  - cbn [write_chapter_blocks] in H.
    apply wr_bind_ok in H as (? & t1 & t' & H1 & H & ->).
    apply f_write_ok in H1 as ->.
    apply wr_bind_ok in H as (? & t2 & t3 & H2 & H3 & ->).
    simpl in Hlen. destruct rest as [|next rest'].
    + cbn [write_chapter_blocks] in H3. injection H3 as _ <-.
      assert ((i <? total) = false) as Hi by (apply Nat.ltb_ge; simpl in *; lia).
      rewrite Hi in H2. apply wr_ret_ok in H2 as ->.
      cbn [chapter_blocks]. by rewrite ?app_nil_r, <- ?app_assoc.
    + assert ((i <? total) = true) as Hi by (apply Nat.ltb_lt; simpl in *; lia).
      rewrite Hi in H2. apply f_write_ok in H2 as ->.
      apply IH in H3 as ->; [|simpl in *; lia].
      change (chapter_blocks (chapter :: next :: rest'))
        with (chapter ++ Str.nl ++ Str.nl ++ rule
              ++ chapter_blocks (next :: rest')).
      by rewrite <- ?app_assoc.
Qed.

Lemma write_elements_text elements :
  forall x text,
    write_elements elements = (Ok x, text) ->
    text = concat (map element_block elements).
Proof.
  induction elements as [|elem rest IH]; intros x text H.
  - cbn [write_elements] in H. by injection H as _ <-.
  - cbn [write_elements] in H.
    apply wr_bind_ok in H as (? & t1 & r1 & H1 & H & ->).
    apply f_write_ok in H1 as ->.
    apply wr_bind_ok in H as (? & t2 & r2 & H2 & H & ->).
    apply f_write_ok in H2 as ->.
    apply wr_bind_ok in H as (? & t3 & r3 & H3 & H & ->).
    apply f_write_ok in H3 as ->.
    apply IH in H as ->. cbn [concat map]. unfold element_block.
    by rewrite <- ?app_assoc.
Qed.

(** A section of a document compiled without client comes from the
    mock client. *)
Lemma mock_section_text title prompt x text :
  (doc section <-
     wr_lift (write_section_with_stream title prompt (client_or_mock None));
   doc_ f_write section;
   f_write (Str.nl ++ rule)) = (Ok x, text) ->
  mock_section title prompt text.
Proof.
  intros H.
  apply wr_bind_ok in H as (section & t1 & t' & H1 & H & ->).
  apply wr_lift_ok in H1 as [H1 ->].
  apply wr_bind_ok in H as (? & t2 & t3 & H2 & H3 & ->).
  apply f_write_ok in H2 as ->. apply f_write_ok in H3 as ->.
  cbn [write_section_with_stream client_or_mock create_llm_client_mock
         MockClient stream_generate] in H1.
  destruct (mock_generate prompt) as [reply|e] eqn:Hreply;
    [|discriminate H1].
  cbn [bind] in H1. apply Ok_inj in H1 as <-.
  exists reply. split; [done|].
  cbn [app]. by rewrite <- ?app_assoc.
Qed.

Lemma optional_block_falsy lo hi title prompt block :
  optional_block lo hi title prompt block ->
  truthy lo = false \/ truthy hi = false -> block = [].
Proof.
  unfold optional_block. intros H [Hf|Hf]; rewrite Hf in H;
    [done | by rewrite andb_false_r in H].
Qed.

(** The text of a document compiled without client. *)
Lemma compile_body_text (r : results) x text :
  compile_body r None = (Ok x, text) ->
  exists topic audience intro final review,
    config r !! u "topic" = Some (VStr topic)
    /\ config r !! u "target_audience" = Some audience
    /\ text = title_page topic audience
              ++ intro
              ++ from_option toc_block [] (stage_3 (stages r))
              ++ from_option chapter_blocks [] (stage_5 (stages r))
              ++ final ++ review
              ++ appendix_header
              ++ from_option (fun es => concat (map element_block es)) []
                   (stage_7 (stages r))
    /\ optional_block (get (config r) (u "intro_min_words"))
         (get (config r) (u "intro_max_words")) (u "Introduction")
         (intro_prompt (VStr topic) (get (config r) (u "intro_min_words"))
            (get (config r) (u "intro_max_words"))) intro
    /\ optional_block (get (config r) (u "final_min_words"))
         (get (config r) (u "final_max_words")) (u "Final Thoughts")
         (final_prompt (VStr topic) (get (config r) (u "final_min_words"))
            (get (config r) (u "final_max_words"))) final
    /\ optional_block (get (config r) (u "review_min_words"))
         (get (config r) (u "review_max_words")) (u "We'd Love Your Review")
         (review_prompt (get (config r) (u "review_min_words"))
            (get (config r) (u "review_max_words"))) review.
Proof.
  unfold compile_body. cbv zeta. intros H.
  apply wr_bind_ok in H as (topic_v & t & rest & Ht & H & ->).
  apply wr_lift_ok in Ht as [Htopic ->].
  apply wr_bind_ok in H as (topic & t & rest' & Ht & H & ->).
  apply wr_lift_ok in Ht as [Hstr ->].
  destruct topic_v as [| | |topic'|]; try discriminate Hstr.
  apply Ok_inj in Hstr as ->.
  apply wr_bind_ok in H as (? & t1 & rest1 & Ht & H & ->).
  apply f_write_ok in Ht as ->.
  apply wr_bind_ok in H as (audience & t & rest2 & Ht & H & ->).
  apply wr_lift_ok in Ht as [Haud ->].
  apply wr_bind_ok in H as (? & t2 & rest3 & Ht & H & ->).
  apply f_write_ok in Ht as ->.
  apply wr_bind_ok in H as (? & t3 & rest4 & Ht & H & ->).
  apply f_write_ok in Ht as ->.
  apply wr_bind_ok in H as (? & intro & rest5 & Hintro & H & ->).
  apply wr_bind_ok in H as (? & toc_text & rest6 & Htoc & H & ->).
  apply wr_bind_ok in H as (? & ch_text & rest7 & Hch & H & ->).
  apply wr_bind_ok in H as (? & final & rest8 & Hfinal & H & ->).
  apply wr_bind_ok in H as (? & review & rest9 & Hreview & H & ->).
  apply wr_bind_ok in H as (? & t4 & el_text & Ht & Hel & ->).
  apply f_write_ok in Ht as ->.
  assert (config r !! u "topic" = Some (VStr topic)) as Htopic'.
  { unfold getitem in Htopic.
    destruct (config r !! u "topic"); [|discriminate Htopic].
    by apply Ok_inj in Htopic as ->. }
  assert (config r !! u "target_audience" = Some audience) as Haud'.
  { unfold getitem in Haud.
    destruct (config r !! u "target_audience"); [|discriminate Haud].
    by apply Ok_inj in Haud as ->. }
  exists topic, audience, intro, final, review.
  split; [done|]. split; [done|]. split; [|split; [|split]].
  - assert (toc_text = from_option toc_block [] (stage_3 (stages r))) as ->.
    { destruct (stage_3 (stages r)) as [toc|]; cbn [from_option].
      - apply wr_bind_ok in Htoc as (? & a & b & Ha & Hb & ->).
        apply f_write_ok in Ha as ->. apply f_write_ok in Hb as ->.
        unfold toc_block. by rewrite <- ?app_assoc.
      - by apply wr_ret_ok in Htoc. }
    assert (ch_text = from_option chapter_blocks [] (stage_5 (stages r)))
      as ->.
    { destruct (stage_5 (stages r)) as [chapters|]; cbn [from_option].
      - eapply write_chapter_blocks_text; [|exact Hch]. lia.
      - by apply wr_ret_ok in Hch. }
    assert (el_text
            = from_option (fun es => concat (map element_block es)) []
                (stage_7 (stages r))) as ->.
    { destruct (stage_7 (stages r)) as [elements|]; cbn [from_option].
      - eapply write_elements_text; exact Hel.
      - by apply wr_ret_ok in Hel. }
    unfold title_page. rewrite ?app_nil_l. by rewrite <- ?app_assoc.
  - case_cond Hintro; [|by apply wr_ret_ok in Hintro].
    apply wr_bind_ok in Hintro as (topic2 & t & body & Ht & Hintro & ->).
    apply wr_lift_ok in Ht as [Ht ->].
    rewrite Htopic in Ht. apply Ok_inj in Ht as <-.
    rewrite app_nil_l. eapply mock_section_text. exact Hintro.
  - case_cond Hfinal; [|by apply wr_ret_ok in Hfinal].
    apply wr_bind_ok in Hfinal as (topic2 & t & body & Ht & Hfinal & ->).
    apply wr_lift_ok in Ht as [Ht ->].
    rewrite Htopic in Ht. apply Ok_inj in Ht as <-.
    rewrite app_nil_l. eapply mock_section_text. exact Hfinal.
  - case_cond Hreview; [|by apply wr_ret_ok in Hreview].
    eapply mock_section_text. exact Hreview.
Qed.

End Writer.

(** ** Properties of the pipeline *)

Section Pipeline.

Lemma io_bind_ok {A B : Type} (m : io A) (k : A -> io B) fs b fs' :
  io_bind m k fs = (Ok b, fs') ->
  exists a fs1, m fs = (Ok a, fs1) /\ k a fs1 = (Ok b, fs').
Proof.
  unfold io_bind. destruct (m fs) as [[a|e] fs1]; [eauto | discriminate].
Qed.

Lemma lift_ok {A : Type} (r : result A) fs a fs' :
  lift r fs = (Ok a, fs') -> r = Ok a /\ fs' = fs.
Proof. destruct r; simpl; [|discriminate]. by intros [= -> <-]. Qed.

Lemma io_ret_ok {A : Type} (a b : A) fs fs' :
  io_ret a fs = (Ok b, fs') -> b = a /\ fs' = fs.
Proof. by intros [= -> <-]. Qed.

Lemma compile_ebook_ok r out client fs path fs' :
  compile_ebook r out client fs = (Ok path, fs') ->
  exists x text,
    compile_body r client = (Ok x, text)
    /\ fs' !! (out, u "FINAL_EBOOK.md") = Some text.
Proof.
  unfold compile_ebook.
  destruct (compile_body r client) as [[x|e] text]; [|discriminate].
  intros [= _ <-]. exists x, text. split; [done|]. apply lookup_insert_eq.
Qed.

Lemma length_stage_7 chapters client :
  length (stage_7_interactive chapters client) = length chapters.
Proof. unfold stage_7_interactive. apply length_imap. Qed.

Lemma get_output_dir_ne (cfg : dict) out k :
  k <> u "output_dir" ->
  get (<[u "output_dir" := VStr out]> cfg) k = get cfg k.
Proof.
  intros Hk. unfold get, get_or. by rewrite lookup_insert_ne.
Qed.

(** The pipeline, when it returns, has compiled the document from its
    own stage outputs and without client. *)
Lemma execute_pipeline_ok cfg out client fs r fs' :
  execute_pipeline cfg out client fs = (Ok r, fs') ->
  exists toc chapters x text,
    config r = <[u "output_dir" := VStr out]> cfg
    /\ stage_3 (stages r) = Some toc
    /\ stage_5 (stages r) = Some chapters
    /\ stage_7 (stages r) = Some (stage_7_interactive chapters client)
    /\ compile_body r None = (Ok x, text)
    /\ fs' !! (out, u "FINAL_EBOOK.md") = Some text.
Proof.
  unfold execute_pipeline. cbv zeta. intros H.
  apply io_bind_ok in H as (queries & fs1 & _ & H).
  apply io_bind_ok in H as (lines & fs1' & _ & H).
  apply io_bind_ok in H as (? & fs2 & _ & H).
  apply io_bind_ok in H as (outline & fs3 & _ & H).
  apply io_bind_ok in H as (? & fs4 & _ & H).
  apply io_bind_ok in H as (toc & fs5 & _ & H).
  apply io_bind_ok in H as (? & fs6 & _ & H).
  apply io_bind_ok in H as (chapters & fs7 & _ & H).
  apply io_bind_ok in H as (? & fs8 & _ & H).
  apply io_bind_ok in H as (? & fs9 & _ & H).
  apply io_bind_ok in H as (first_chapter & fs10 & _ & H).
  apply io_bind_ok in H as (cover & fs11 & _ & H).
  apply io_bind_ok in H as (? & fs12 & _ & H).
  apply io_bind_ok in H as (path & fs13 & Hcompile & H).
  apply io_ret_ok in H as [-> ->].
  apply compile_ebook_ok in Hcompile as (done_ & text & Hbody & Hfile).
  exists toc, chapters, done_, text. done.
Qed.

End Pipeline.

(** ** The Compiler claim *)

(** C10: whatever client ran the stages, the document that the pipeline
    writes is compiled without client: each of the three optional sections
    is either the mock client's reply to the section prompt or left out,
    and it is left out as soon as one of its two word bounds is not a true
    value; a bound stored as 0 omits the section although the key exists. *)
Theorem compiler_sections_from_mock (cfg : dict) (out : str)
    (client : option llm_client) (fs fs' : files) (r : results) :
  execute_pipeline cfg out client fs = (Ok r, fs') ->
  exists topic audience toc chapters elements intro final review,
    cfg !! u "topic" = Some (VStr topic)
    /\ cfg !! u "target_audience" = Some audience
    /\ stage_3 (stages r) = Some toc
    /\ stage_5 (stages r) = Some chapters
    /\ stage_7 (stages r) = Some elements
    /\ length elements = length chapters
    /\ fs' !! (out, u "FINAL_EBOOK.md")
       = Some (title_page topic audience ++ intro ++ toc_block toc
               ++ chapter_blocks chapters ++ final ++ review
               ++ appendix elements)
    /\ optional_block (get cfg (u "intro_min_words"))
         (get cfg (u "intro_max_words")) (u "Introduction")
         (intro_prompt (VStr topic) (get cfg (u "intro_min_words"))
            (get cfg (u "intro_max_words"))) intro
    /\ optional_block (get cfg (u "final_min_words"))
         (get cfg (u "final_max_words")) (u "Final Thoughts")
         (final_prompt (VStr topic) (get cfg (u "final_min_words"))
            (get cfg (u "final_max_words"))) final
    /\ optional_block (get cfg (u "review_min_words"))
         (get cfg (u "review_max_words")) (u "We'd Love Your Review")
         (review_prompt (get cfg (u "review_min_words"))
            (get cfg (u "review_max_words"))) review
    /\ (cfg !! u "intro_min_words" = Some (VInt 0)
        \/ cfg !! u "intro_max_words" = Some (VInt 0) -> intro = [])
    /\ (cfg !! u "final_min_words" = Some (VInt 0)
        \/ cfg !! u "final_max_words" = Some (VInt 0) -> final = [])
    /\ (cfg !! u "review_min_words" = Some (VInt 0)
        \/ cfg !! u "review_max_words" = Some (VInt 0) -> review = []).
Proof.
  intros Hrun.
  apply execute_pipeline_ok in Hrun
    as (toc & chapters & x & text & Hcfg & Htoc & Hch & Hel & Hbody & Hfile).
  apply compile_body_text in Hbody
    as (topic & audience & intro & final & review
        & Htopic & Haud & -> & Hintro & Hfinal & Hreview).
  rewrite Hcfg in Htopic, Haud, Hintro, Hfinal, Hreview.
  rewrite lookup_insert_ne in Htopic by key_neq.
  rewrite lookup_insert_ne in Haud by key_neq.
  rewrite !get_output_dir_ne in Hintro by key_neq.
  rewrite !get_output_dir_ne in Hfinal by key_neq.
  rewrite !get_output_dir_ne in Hreview by key_neq.
  rewrite Htoc, Hch, Hel in Hfile. cbn [from_option] in Hfile.
  exists topic, audience, toc, chapters,
    (stage_7_interactive chapters client), intro, final, review.
  split; [done|]. split; [done|]. split; [done|]. split; [done|].
  split; [done|]. split; [apply length_stage_7|].
  split; [exact Hfile|].
  split; [done|]. split; [done|]. split; [done|].
  assert (forall k, cfg !! k = Some (VInt 0) -> truthy (get cfg k) = false)
    as Hzero.
  { intros k Hk. unfold get, get_or. by rewrite Hk. }
  split; [|split].
  - intros [H0|H0]; eapply optional_block_falsy; eauto.
  - intros [H0|H0]; eapply optional_block_falsy; eauto.
  - intros [H0|H0]; eapply optional_block_falsy; eauto.
Qed.

Lemma compiler_sections_from_mock_witness :
  exists r fs' audience toc chapters elements final review,
    execute_pipeline zero_intro_config e2e_output (Some water_client) ∅
      = (Ok r, fs')
    /\ fs' !! e2e_final
       = Some (title_page (u "weight loss for beginners") audience
               ++ [] ++ toc_block toc ++ chapter_blocks chapters
               ++ final ++ review ++ appendix elements)
    /\ mock_section (u "Final Thoughts")
         (final_prompt (VStr (u "weight loss for beginners")) (VInt 600)
            (VInt 900)) final.
Proof.
  assert (is_Some (returned (execute_pipeline zero_intro_config e2e_output
                               (Some water_client) ∅))) as Hok
    by (vm_compute; eauto).
  destruct (execute_pipeline zero_intro_config e2e_output (Some water_client) ∅)
    as [[r|e] fs'] eqn:Hrun; [|by destruct Hok].
  destruct (compiler_sections_from_mock _ _ _ _ _ _ Hrun)
    as (topic & audience & toc & chapters & elements & intro & final & review
        & Htopic & _ & _ & _ & _ & _ & Hfile & _ & Hfinal & _ & Hintro0 & _).
  assert (intro = []) as -> by (apply Hintro0; left; vm_compute; reflexivity).
  assert (zero_intro_config !! u "topic"
          = Some (VStr (u "weight loss for beginners"))) as Htopic'
    by (vm_compute; reflexivity).
  rewrite Htopic' in Htopic. apply (inj Some) in Htopic.
  assert (topic = u "weight loss for beginners") as -> by congruence.
  assert (get zero_intro_config (u "final_min_words") = VInt 600) as Hmin
    by (vm_compute; reflexivity).
  assert (get zero_intro_config (u "final_max_words") = VInt 900) as Hmax
    by (vm_compute; reflexivity).
  rewrite Hmin, Hmax in Hfinal.
  exists r, fs', audience, toc, chapters, elements, final, review.
  split; [reflexivity|]. split; [exact Hfile | exact Hfinal].
Defined.

(** ** The end-to-end claim *)

Lemma e2e_run_returns : is_Some (returned e2e_run).
Proof. vm_compute. eauto. Qed.

Lemma e2e_run_facts r fs :
  e2e_run = (Ok r, fs) ->
  fs !! e2e_final = Some e2e_document
  /\ stage_2 (stages r)
     = Some (Str.join Str.nl
               [u "# Weight Loss For Beginners"; []; u "## Outline"; [];
                u "- Chapter 1"; u "- Chapter 2"; u "- Chapter 3";
                u "- Chapter 4"; u "- Chapter 5"])
  /\ stage_3 (stages r) = Some toc_placeholder
  /\ stage_5 (stages r) = Some e2e_chapters
  /\ (map element_block <$> stage_7 (stages r))
     = Some (map tracker_block [1; 2; 3; 4; 5]).
Proof.
  intros Hrun.
  assert (snd e2e_run !! e2e_final = Some e2e_document) as H1
    by (vm_compute; reflexivity).
  assert ((fun r => stage_2 (stages r)) <$> returned e2e_run
          = Some (Some (Str.join Str.nl
               [u "# Weight Loss For Beginners"; []; u "## Outline"; [];
                u "- Chapter 1"; u "- Chapter 2"; u "- Chapter 3";
                u "- Chapter 4"; u "- Chapter 5"]))) as H2
    by (vm_compute; reflexivity).
  assert ((fun r => stage_3 (stages r)) <$> returned e2e_run
          = Some (Some toc_placeholder)) as H3
    by (vm_compute; reflexivity).
  assert ((fun r => stage_5 (stages r)) <$> returned e2e_run
          = Some (Some e2e_chapters)) as H4
    by (vm_compute; reflexivity).
  assert ((fun r => map element_block <$> stage_7 (stages r))
            <$> returned e2e_run
          = Some (Some (map tracker_block [1; 2; 3; 4; 5]))) as H5
    by (vm_compute; reflexivity).
  rewrite Hrun in H1, H2, H3, H4, H5.
  cbn [returned fmap option_fmap option_map snd] in H1, H2, H3, H4, H5.
  repeat split; congruence.
Qed.

(** C1 (counterexample): in the end-to-end fallback scenario the table of
    contents has no numbered entry, so the claim as worded fails. *)
Lemma end_to_end_claim_fails : ~ end_to_end_claim.
Proof.
  intros (r & fs & ebook & toc & chapters & elements
          & Hrun & _ & _ & Htoc & _ & Hnum & _).
  destruct (e2e_run_facts r fs Hrun) as (_ & _ & Htoc' & _).
  assert (toc = toc_placeholder) as -> by congruence.
  vm_compute in Hnum. discriminate Hnum.
Qed.

(** C1 (amended): in the end-to-end fallback scenario (topic "weight loss
    for beginners", no client, standard template) the pipeline returns and
    the final document starts with the title line "# Weight Loss For
    Beginners"; the fallback outline has no line matching the chapter
    pattern, so the table of contents is the fixed placeholder, without any
    numbered entry; the five chapters carry the fallback titles
    "Chapter 1" to "Chapter 5"; the appendix has one interactive-element
    block per chapter, five in all. *)
Theorem fallback_scenario_document :
  exists r fs titles elements,
    e2e_run = (Ok r, fs)
    /\ fs !! e2e_final = Some e2e_document
    /\ Str.splitlines e2e_document !! 0 = Some (u "# " ++ Str.title e2e_topic)
    /\ Str.title e2e_topic = u "Weight Loss For Beginners"
    /\ (stage_2 (stages r) ≫= fun outline =>
          Some (extract_chapter_titles outline)) = Some (Ok [])
    /\ stage_3 (stages r) = Some toc_placeholder
    /\ numbered_entries toc_placeholder = 0
    /\ numbered_entries e2e_document = 0
    /\ titles = map (fun i => u "Chapter " ++ Str.of_nat i) [1; 2; 3; 4; 5]
    /\ stage_5 (stages r)
       = Some (imap (fun i title =>
                       chapter_heading (i + 1) title ++ Str.nl ++ Str.nl
                       ++ u "Content for " ++ title ++ u "...") titles)
    /\ stage_7 (stages r) = Some elements
    /\ length elements = 5
    /\ map element_block elements = map tracker_block [1; 2; 3; 4; 5].
Proof.
  destruct e2e_run_returns as [r0 Hr0].
  destruct e2e_run as [[r|e] fs] eqn:Hrun; [|discriminate Hr0].
  destruct (e2e_run_facts r fs Hrun) as (Hdoc & Hout & Htoc & Hch & Hel).
  destruct (stage_7 (stages r)) as [elements|] eqn:H7; [|discriminate Hel].
  cbn [fmap option_fmap option_map] in Hel. apply (inj Some) in Hel.
  exists r, fs, (map (fun i => u "Chapter " ++ Str.of_nat i) [1; 2; 3; 4; 5]),
    elements.
  split; [reflexivity|]. split; [exact Hdoc|].
  split; [vm_compute; reflexivity|]. split; [vm_compute; reflexivity|].
  split; [rewrite Hout; vm_compute; reflexivity|].
  split; [exact Htoc|].
  split; [vm_compute; reflexivity|]. split; [vm_compute; reflexivity|].
  split; [reflexivity|].
  split; [rewrite Hch; vm_compute; reflexivity|].
  split; [exact H7|].
  split; [|exact Hel].
  apply (f_equal length) in Hel. rewrite !length_map in Hel. exact Hel.
Qed.

(** * Further properties *)

(** ** Strings *)

Lemma lstrip_by_idem p s : Str.lstrip_by p (Str.lstrip_by p s) = Str.lstrip_by p s.
Proof.
induction s as [|c s IH]; [done|]. simpl.
destruct (p c) eqn:Hc; [done|]. simpl. by rewrite Hc.
Qed.

Lemma lstrip_by_subseteq p s : Str.lstrip_by p s ⊆ s.
Proof.
induction s as [|c s IH]; [done|]. simpl.
destruct (p c); [|done]. by apply list_subseteq_cons.
Qed.

Lemma rstrip_by_subseteq p s : Str.rstrip_by p s ⊆ s.
Proof.
unfold Str.rstrip_by. intros c Hc.
apply list_elem_of_In, in_rev, list_elem_of_In, lstrip_by_subseteq in Hc.
by apply list_elem_of_In, in_rev, list_elem_of_In in Hc.
Qed.

Lemma strip_subseteq s : Str.strip s ⊆ s.
Proof.
unfold Str.strip. etrans; [apply rstrip_by_subseteq | apply lstrip_by_subseteq].
Qed.

Lemma rstrip_by_idem p s : Str.rstrip_by p (Str.rstrip_by p s) = Str.rstrip_by p s.
Proof. unfold Str.rstrip_by. by rewrite rev_involutive, lstrip_by_idem. Qed.

Lemma rstrip_by_cons_keep p c s :
  p c = false -> Str.rstrip_by p (c :: s) = c :: Str.rstrip_by p s.
Proof. intros Hc. by apply (StrFacts.rstrip_by_keep p [] c s). Qed.

(** [s.strip().strip() == s.strip()] *)
Lemma strip_idem s : Str.strip (Str.strip s) = Str.strip s.
Proof.
unfold Str.strip.
destruct (Str.lstrip_by Char.is_space s) as [|c t] eqn:Ht; [done|].
assert (Char.is_space c = false) as Hc.
{ pose proof (lstrip_by_idem Char.is_space s) as Hi. rewrite Ht in Hi.
  simpl in Hi. destruct (Char.is_space c); [|done].
  assert (length (Str.lstrip_by Char.is_space t) <= length t) as Hlen.
  { clear. induction t as [|a t IH]; simpl; [lia|].
    destruct (Char.is_space a); simpl; lia. }
  rewrite Hi in Hlen. simpl in Hlen. lia. }
rewrite (rstrip_by_cons_keep _ _ _ Hc).
rewrite (StrFacts.lstrip_by_keep _ _ _ Hc).
rewrite <- (rstrip_by_cons_keep _ _ _ Hc). apply rstrip_by_idem.
Qed.

Lemma strip_trimmed s : trimmed (Str.strip s).
Proof. apply strip_idem. Qed.

Lemma splitlines_from_single_line s :
  forall cur line,
    single_line cur ->
    line ∈ Str.splitlines_from cur s -> single_line line.
Proof.
induction s as [s IH] using (induction_ltof1 _ (@length N)).
unfold ltof in IH. intros cur line Hcur Hin.
destruct s as [|c s]; simpl in Hin.
- destruct cur; [by apply elem_of_nil in Hin|].
  by apply list_elem_of_singleton in Hin as ->.
- destruct (N.eqb c Char.CR).
  + destruct s as [|c' s'].
    * by apply list_elem_of_singleton in Hin as ->.
    * destruct (N.eqb c' Char.LF);
        apply elem_of_cons in Hin as [->|Hin]; try done;
        (eapply IH; [| |exact Hin]; [simpl; lia | constructor]).
  + destruct (Char.is_linebreak c) eqn:Hc.
    * apply elem_of_cons in Hin as [->|Hin]; [done|].
      eapply IH; [| |exact Hin]; [simpl; lia | constructor].
    * eapply IH; [| |exact Hin]; [simpl; lia|].
      apply Forall_app. split; [done | by constructor].
Qed.

(** Every line of [splitlines] is free of line boundaries. *)
Lemma splitlines_single_line s line :
  line ∈ Str.splitlines s -> single_line line.
Proof. apply splitlines_from_single_line. constructor. Qed.

Lemma universal_newlines_cons c s :
  universal_newlines (c :: s) =
    if N.eqb c Char.CR then
      match s with
      | c' :: s'' =>
          if N.eqb c' Char.LF then Char.LF :: universal_newlines s''
          else Char.LF :: universal_newlines s
      | [] => [Char.LF]
      end
    else c :: universal_newlines s.
Proof. by destruct s. Qed.

Lemma splitlines_from_cons cur c s :
  Str.splitlines_from cur (c :: s) =
    if N.eqb c Char.CR then
      match s with
      | c' :: s'' =>
          if N.eqb c' Char.LF then cur :: Str.splitlines_from [] s''
          else cur :: Str.splitlines_from [] s
      | [] => [cur]
      end
    else if Char.is_linebreak c then cur :: Str.splitlines_from [] s
    else Str.splitlines_from (cur ++ [c]) s.
Proof. by destruct s. Qed.

(** Reading a text back with universal newlines keeps its lines. *)
Lemma splitlines_from_universal_newlines s :
  forall cur,
    Str.splitlines_from cur (universal_newlines s) = Str.splitlines_from cur s.
Proof.
induction s as [s IH] using (induction_ltof1 _ (@length N)).
unfold ltof in IH. intros cur.
destruct s as [|c s]; [done|].
rewrite (universal_newlines_cons c s), (splitlines_from_cons cur c s).
destruct (N.eqb c Char.CR) eqn:Hc.
- destruct s as [|c' s'].
  + by destruct cur.
  + destruct (N.eqb c' Char.LF) eqn:Hc';
      rewrite (splitlines_from_cons cur Char.LF);
      change (N.eqb Char.LF Char.CR) with false;
      change (Char.is_linebreak Char.LF) with true;
      cbv iota; by rewrite IH by (simpl; lia).
- rewrite (splitlines_from_cons cur c), Hc.
  destruct (Char.is_linebreak c); by rewrite IH by (simpl; lia).
Qed.

Lemma splitlines_universal_newlines s :
  Str.splitlines (universal_newlines s) = Str.splitlines s.
Proof. apply splitlines_from_universal_newlines. Qed.

(** ** The matcher reads its groups off the input *)

Lemma rep_greedy_suffix {R : Type} p (k : str -> option R) s :
  forall lo hi x,
    Re.rep_greedy p lo hi s k = Some x -> exists s', k s' = Some x /\ s' ⊆ s.
Proof.
induction s as [|c s IH]; intros lo hi x H; simpl in H.
- destruct lo; [eauto | discriminate].
- destruct (p c && Re.may_take hi).
  + apply ReFacts.or_else_Some in H as [H|H].
    * apply IH in H as (s' & H & Hs). exists s'. split; [done|].
      by apply list_subseteq_cons.
    * destruct lo; [eauto | discriminate].
  + destruct lo; [eauto | discriminate].
Qed.

Lemma consumed_subseteq (s s' : str) : Re.consumed s s' ⊆ s.
Proof. unfold Re.consumed. apply subseteq_take. Qed.

(** A match hands on a part of its input, and every group it sets is
    made of characters of the input. *)
Lemma run_chars {R : Type} (r : Re.regex) :
  forall s g (k : str -> Re.groups -> option R) x,
    Re.run r s g k = Some x ->
    exists s' g',
      k s' g' = Some x
      /\ s' ⊆ s
      /\ forall i t, g' !! i = Some t -> g !! i = Some t \/ t ⊆ s.
Proof.
induction r as [|p|p lo hi|r1 IH1 r2 IH2|r1 IH1 r2 IH2|r1 IH1|j r1 IH1|];
  intros s g k x H; simpl in H.
- exists s, g. eauto.
- destruct s as [|c s]; [discriminate|].
  destruct (p c); [|discriminate].
  exists s, g. split; [done|]. split; [by apply list_subseteq_cons | eauto].
- apply rep_greedy_suffix in H as (s' & H & Hs). exists s', g. eauto.
- apply IH1 in H as (s1 & g1 & H & Hs1 & Hg1).
  apply IH2 in H as (s2 & g2 & H & Hs2 & Hg2).
  exists s2, g2. split; [done|]. split; [by etrans|].
  intros i t Hi. destruct (Hg2 i t Hi) as [Hi'|Hi']; [eauto|].
  right. by etrans.
- apply ReFacts.or_else_Some in H as [H|H]; eauto.
- apply ReFacts.or_else_Some in H as [H|H]; [eauto|].
  exists s, g. eauto.
- apply IH1 in H as (s1 & g1 & H & Hs1 & Hg1).
  eexists s1, _. split; [exact H|]. split; [done|].
  intros i t Hi. destruct (decide (j = i)) as [->|Hne].
  + rewrite lookup_insert_eq in Hi. injection Hi as <-.
    right. apply consumed_subseteq.
  + rewrite lookup_insert_ne in Hi by done. eauto.
- exists s, g. split; [|eauto].
  destruct s as [|c [|c' s]]; [done | | discriminate].
  by destruct (N.eqb c Char.LF).
Qed.

Lemma re_match_group_chars (r : Re.regex) (s : str) (m : Re.groups) i t :
  Re.re_match r s = Some m -> Re.group m i = Some t -> t ⊆ s.
Proof.
intros H Ht. apply run_chars in H as (s' & g' & H & _ & Hg).
injection H as <-. destruct (Hg i t Ht) as [Hi|Hi]; [|done].
by rewrite lookup_empty in Hi.
Qed.

(** ** The Heading Extractor, further *)

Lemma trim_title_subseteq g2 : trim_title g2 ⊆ g2.
Proof.
unfold trim_title, Str.rstrip_chars.
etrans; [apply strip_subseteq|].
etrans; [apply rstrip_by_subseteq | apply strip_subseteq].
Qed.

(** The parts of a title offered by a line. *)
Lemma line_title_Some raw t :
  line_title raw = Some t ->
  t <> [] /\ trimmed t
  /\ t ⊆ Str.replace_char Char.EM_DASH Char.EN_DASH (Str.strip raw).
Proof.
unfold line_title, chapter_line. intros H.
destruct (Re.re_match chapter_re _) as [m|] eqn:Hm; [|discriminate H].
destruct (Re.group m 2) as [g2|] eqn:Hg2; [|discriminate H].
destruct (Re.re_match subnum_re (trim_title g2)); [discriminate H|].
destruct (trim_title g2) as [|a t'] eqn:Htrim; [discriminate H|].
injection H as <-. split; [done|]. rewrite <- Htrim. split.
- apply strip_trimmed.
- etrans; [apply trim_title_subseteq|].
  eapply re_match_group_chars; eauto.
Qed.

(** X1: every title the extractor returns is non-empty, has no leading or
    trailing whitespace, lies on one line, and holds no em dash (the whole
    line is normalised before matching, the title's text included). *)
Theorem extracted_titles_clean (outline : str) (titles : list str) (t : str) :
  extract_chapter_titles outline = Ok titles ->
  t ∈ titles ->
  t <> [] /\ trimmed t /\ single_line t /\ Char.EM_DASH ∉ t.
Proof.
intros Hex Hin. rewrite extract_chapter_titles_spec in Hex.
apply Ok_inj in Hex as <-.
apply elem_of_dedup_first, list_elem_of_omap in Hin as (raw & Hraw & Ht).
apply line_title_Some in Ht as (Hne & Htrim & Hsub).
apply splitlines_single_line in Hraw.
assert (forall c, c ∈ t ->
          c <> Char.EM_DASH /\ Char.is_linebreak c = false) as Hchars.
{ intros c Hc. apply Hsub in Hc. unfold Str.replace_char in Hc.
  apply list_elem_of_fmap in Hc as (c0 & -> & Hc0).
  apply strip_subseteq in Hc0.
  unfold single_line in Hraw. rewrite Forall_forall in Hraw.
  specialize (Hraw c0 Hc0).
  destruct (N.eqb c0 Char.EM_DASH) eqn:He.
  - split; [discriminate | reflexivity].
  - split; [|done]. by apply N.eqb_neq. }
split; [done|]. split; [done|]. split.
- apply Forall_forall. intros c Hc. by apply Hchars.
- intros Hc. by apply Hchars in Hc as [Hc _].
Qed.

Lemma extracted_titles_clean_witness :
  u "Alpha" <> [] /\ trimmed (u "Alpha") /\ single_line (u "Alpha")
  /\ Char.EM_DASH ∉ u "Alpha".
Proof.
apply (extracted_titles_clean outline_with_repeats
         [u "Alpha"; u "Beta"; u "Gamma"]).
- vm_compute. reflexivity.
- repeat constructor.
Defined.

Lemma lstrip_by_map (f : N -> N) p s :
  (forall c, p (f c) = p c) ->
  Str.lstrip_by p (map f s) = map f (Str.lstrip_by p s).
Proof.
intros Hf. induction s as [|c s IH]; [done|]. simpl.
rewrite Hf. by destruct (p c).
Qed.

Lemma strip_map (f : N -> N) s :
  (forall c, Char.is_space (f c) = Char.is_space c) ->
  Str.strip (map f s) = map f (Str.strip s).
Proof.
intros Hf. unfold Str.strip, Str.rstrip_by.
rewrite lstrip_by_map by done.
rewrite <- map_rev, lstrip_by_map by done. by rewrite map_rev.
Qed.

Lemma dash_norm_space c : Char.is_space (dash_norm c) = Char.is_space c.
Proof.
unfold dash_norm. destruct (N.eqb c Char.EM_DASH) eqn:He; [|done].
apply N.eqb_eq in He as ->. reflexivity.
Qed.

Lemma dash_norm_idem c : dash_norm (dash_norm c) = dash_norm c.
Proof.
unfold dash_norm. destruct (N.eqb c Char.EM_DASH) eqn:He; [done|].
by rewrite He.
Qed.

Lemma chapter_line_dash raw :
  chapter_line (Str.replace_char Char.EM_DASH Char.EN_DASH raw)
  = chapter_line raw.
Proof.
unfold chapter_line, Str.replace_char. fold dash_norm.
rewrite (strip_map dash_norm) by apply dash_norm_space.
rewrite map_map. f_equal. apply map_ext. intros c. apply dash_norm_idem.
Qed.

Lemma splitlines_from_map (f : N -> N) s :
  (forall c, Char.is_linebreak (f c) = Char.is_linebreak c) ->
  (forall c, N.eqb (f c) Char.CR = N.eqb c Char.CR) ->
  (forall c, N.eqb (f c) Char.LF = N.eqb c Char.LF) ->
  forall cur,
    Str.splitlines_from (map f cur) (map f s)
    = map (map f) (Str.splitlines_from cur s).
Proof.
intros Hlb Hcr Hlf.
induction s as [s IH] using (induction_ltof1 _ (@length N)).
unfold ltof in IH. intros cur.
destruct s as [|c s]; [by destruct cur|].
change (map f (c :: s)) with (f c :: map f s).
rewrite !splitlines_from_cons, Hcr, Hlb.
destruct (N.eqb c Char.CR).
- destruct s as [|c' s']; [done|].
  change (map f (c' :: s')) with (f c' :: map f s'). cbv beta iota.
  rewrite Hlf.
  destruct (N.eqb c' Char.LF).
  + cbn [map]. f_equal. apply (IH s' ltac:(simpl; lia) []).
  + cbn [map]. f_equal. apply (IH (c' :: s') ltac:(simpl; lia) []).
- destruct (Char.is_linebreak c).
  + cbn [map]. f_equal. apply (IH s ltac:(simpl; lia) []).
  + rewrite <- (IH s ltac:(simpl; lia)). by rewrite map_app.
Qed.

Lemma dash_norm_linebreak c :
  Char.is_linebreak (dash_norm c) = Char.is_linebreak c
  /\ N.eqb (dash_norm c) Char.CR = N.eqb c Char.CR
  /\ N.eqb (dash_norm c) Char.LF = N.eqb c Char.LF.
Proof.
unfold dash_norm. destruct (N.eqb c Char.EM_DASH) eqn:He; [|done].
apply N.eqb_eq in He as ->. done.
Qed.

(** X2: an em dash counts as an en dash wherever it stands: a heading
    written with either gives the same title, so rewriting every em dash
    of an outline leaves the extracted list unchanged. *)
Theorem extractor_reads_em_dash_as_en_dash (outline : str) :
  (forall raw,
     line_title (Str.replace_char Char.EM_DASH Char.EN_DASH raw)
     = line_title raw)
  /\ extract_chapter_titles
       (Str.replace_char Char.EM_DASH Char.EN_DASH outline)
     = extract_chapter_titles outline.
Proof.
assert (forall raw,
          line_title (Str.replace_char Char.EM_DASH Char.EN_DASH raw)
          = line_title raw) as Hline.
{ intros raw. unfold line_title. by rewrite chapter_line_dash. }
split; [done|].
rewrite !extract_chapter_titles_spec. do 2 f_equal.
unfold Str.splitlines, Str.replace_char. fold dash_norm.
pose proof (splitlines_from_map dash_norm outline
              (fun c => proj1 (dash_norm_linebreak c))
              (fun c => proj1 (proj2 (dash_norm_linebreak c)))
              (fun c => proj2 (proj2 (dash_norm_linebreak c))) []) as Hmap.
change (map dash_norm []) with (@nil N) in Hmap. rewrite Hmap. clear Hmap.
assert (forall raw, line_title (map dash_norm raw) = line_title raw)
  as Hline' by exact Hline.
apply list_omap_ext.
induction (Str.splitlines_from [] outline) as [|raw lines IH];
  constructor; [apply Hline' | exact IH].
Qed.

(** ** Stage 4, and Stages 7 to 9 *)

Lemma bind_ok {A B : Type} (m : result A) (k : A -> result B) b :
  bind m k = Ok b -> exists a, m = Ok a /\ k a = Ok b.
Proof. destruct m as [a|e]; simpl; [eauto | discriminate]. Qed.

(** X3: the chapter loop writes one chapter per title, in order; chapter
    number [i] of the list is headed "# Chapter i: title" with [i] its
    position, whatever number the outline gave, followed by a blank line
    and its body: the placeholder "Content for title..." without client,
    and with a client the trimmed reply, or "(Empty)" for a reply that is
    the empty string. *)
Theorem write_chapters_shape (config : dict) (client : option llm_client)
    (titles : list str) :
  forall (first : nat) (chapters : list str),
    write_chapters config client first titles = Ok chapters ->
    length chapters = length titles
    /\ forall j title,
         titles !! j = Some title ->
         exists body,
           chapters !! j
           = Some (chapter_heading (first + j) title ++ Str.nl ++ Str.nl
                   ++ body)
           /\ chapter_body config client (first + j) title body.
Proof.
induction titles as [|title rest IH]; intros first chapters H.
- cbn [write_chapters] in H. apply Ok_inj in H as <-. split; [done|].
  intros j t Hj. by rewrite lookup_nil in Hj.
- cbn [write_chapters] in H.
  apply bind_ok in H as (chapter & Hch & H).
  apply bind_ok in H as (chapters' & Hrest & H).
  apply Ok_inj in H as <-.
  destruct (IH _ _ Hrest) as [Hlen Hall].
  split; [simpl; by rewrite Hlen|].
  intros [|j] t Hj.
  + cbn in Hj. apply (inj Some) in Hj as <-.
    rewrite Nat.add_0_r. cbn [lookup list_lookup].
    destruct client as [c|].
    * apply bind_ok in Hch as (prompt & Hp & Hch).
      apply bind_ok in Hch as (text & Ht & Hch).
      destruct text as [|a text]; apply Ok_inj in Hch as <-.
      -- exists (u "(Empty)"). split; [done|]. exists prompt, []. done.
      -- exists (Str.strip (a :: text)). split; [done|].
         exists prompt, (a :: text). done.
    * apply Ok_inj in Hch as <-.
      exists (u "Content for " ++ title ++ u "..."). split; [|done].
      by rewrite <- ?app_assoc.
  + cbn in Hj. destruct (Hall j t Hj) as (body & Hb & Hbody).
    exists body. replace (first + S j) with (S first + j) by lia. done.
Qed.

Lemma write_chapters_shape_witness :
  exists body,
    [fallback_chapter 1; fallback_chapter 2] !! 1
    = Some (chapter_heading (1 + 1) (u "Chapter 2") ++ Str.nl ++ Str.nl ++ body)
    /\ chapter_body stage_1_config None (1 + 1) (u "Chapter 2") body.
Proof.
apply (proj2 (write_chapters_shape stage_1_config None
                [u "Chapter 1"; u "Chapter 2"] 1
                [fallback_chapter 1; fallback_chapter 2]
                ltac:(vm_compute; reflexivity)) 1 (u "Chapter 2")).
reflexivity.
Defined.

Lemma imap_index_only {A B : Type} (f : nat -> B) (l l' : list A) :
  length l = length l' ->
  imap (fun i _ => f i) l = imap (fun i _ => f i) l'.
Proof.
intros Hlen. apply list_eq. intros i. rewrite !list_lookup_imap.
destruct (l !! i) as [x|] eqn:E, (l' !! i) as [y|] eqn:E'; try done.
- apply lookup_lt_Some in E. apply lookup_ge_None in E'. lia.
- apply lookup_lt_Some in E'. apply lookup_ge_None in E. lia.
Qed.

(** X4: Stages 7, 8 and 9 return one record per chapter, in order. Record
    [i] holds the chapter's position counted from 1 and the fixed texts of
    its stage (for Stage 7 a title ending in that position), and no other
    key. The records do not depend on the text of the chapters or on the
    client: two lists of chapters of the same length give the same
    records. *)
Theorem stage_records_per_chapter (chapters : list str)
    (client : option llm_client) :
  length (stage_7_interactive chapters client) = length chapters
  /\ length (stage_8_diagrams chapters client) = length chapters
  /\ length (stage_9_backgrounds chapters client) = length chapters
  /\ (forall i,
       i < length chapters ->
       exists e7 e8 e9,
         stage_7_interactive chapters client !! i = Some e7
         /\ stage_8_diagrams chapters client !! i = Some e8
         /\ stage_9_backgrounds chapters client !! i = Some e9
         /\ e7 !! u "chapter" = Some (VInt (Z.of_nat (i + 1)))
         /\ e7 !! u "title"
            = Some (VStr (u "Progress Tracker - Chapter " ++ Str.of_nat (i + 1)))
         /\ e7 !! u "type" = Some (VStr (u "Printable Tracker"))
         /\ e7 !! u "description" = Some (VStr (u "Track your progress"))
         /\ (forall k,
               k ∉ [u "chapter"; u "title"; u "type"; u "description"] ->
               e7 !! k = None)
         /\ e8 !! u "chapter" = Some (VInt (Z.of_nat (i + 1)))
         /\ e8 !! u "prompt"
            = Some (VStr (u "3D isometric diagram showing key concepts, calming pastel tones, high-resolution"))
         /\ (forall k, k ∉ [u "chapter"; u "prompt"] -> e8 !! k = None)
         /\ e9 !! u "chapter" = Some (VInt (Z.of_nat (i + 1)))
         /\ e9 !! u "prompt"
            = Some (VStr (u "Fitness transformation themed background, dynamic gradients, ultra-realistic"))
         /\ (forall k, k ∉ [u "chapter"; u "prompt"] -> e9 !! k = None))
  /\ (forall (chapters' : list str) (client' : option llm_client),
        length chapters' = length chapters ->
        stage_7_interactive chapters' client'
        = stage_7_interactive chapters client
        /\ stage_8_diagrams chapters' client'
           = stage_8_diagrams chapters client
        /\ stage_9_backgrounds chapters' client'
           = stage_9_backgrounds chapters client).
Proof.
split; [apply length_stage_7|].
split; [unfold stage_8_diagrams; by rewrite length_map, length_seq|].
split; [unfold stage_9_backgrounds; by rewrite length_map, length_seq|].
split.
- intros i Hi.
  destruct (lookup_lt_is_Some_2 chapters i Hi) as [ch Hch].
  unfold stage_7_interactive, stage_8_diagrams, stage_9_backgrounds.
  do 3 eexists.
  split; [rewrite list_lookup_imap, Hch; reflexivity|].
  split; [rewrite list_lookup_fmap, lookup_seq_lt by done; reflexivity|].
  split; [rewrite list_lookup_fmap, lookup_seq_lt by done; reflexivity|].
  split; [|split; [|split; [|split; [|split]]]].
  5: { intros k Hk. apply not_elem_of_list_to_map_1. exact Hk. }
  5: split; [|split; [|split]].
  7: { intros k Hk. apply not_elem_of_list_to_map_1. exact Hk. }
  7: split; [|split].
  9: { intros k Hk. apply not_elem_of_list_to_map_1. exact Hk. }
  all: cbn [list_to_map foldr uncurry fst snd Nat.add];
    repeat (first [ apply lookup_insert_eq
                  | rewrite lookup_insert_ne by key_neq ]).
- intros chapters' client' Hlen.
  unfold stage_7_interactive, stage_8_diagrams, stage_9_backgrounds.
  rewrite Hlen. split; [|done]. by apply imap_index_only.
Qed.

Lemma stage_records_per_chapter_witness :
  exists e7,
    stage_7_interactive [u "a"; u "b"; u "c"] None !! 2 = Some e7
    /\ e7 !! u "chapter" = Some (VInt 3).
Proof.
destruct (proj1 (proj2 (proj2 (proj2 (stage_records_per_chapter
                                 [u "a"; u "b"; u "c"] None)))) 2)
  as (e7 & e8 & e9 & H7 & _ & _ & Hc & _); [simpl; lia|].
exists e7. split; [exact H7 | exact Hc].
Defined.

(** ** Stage 1, further *)

Lemma getitem_None (d : dict) k : d !! k = None -> getitem d k = Raise (KeyError k).
Proof. unfold getitem. by intros ->. Qed.

(** X5: Stage 1 builds its prompt before looking at the client, so a
    configuration that lacks one of the six keys of the prompt makes it
    raise [KeyError] for the first missing key (in the order topic, tone,
    mood, theme, main_keyword, target_audience), with or without client,
    although the fallback only uses [main_keyword]. *)
Theorem stage_1_missing_key (config : dict) (client : option llm_client)
    (before after : list str) (k : str) :
  stage_1_keys = before ++ k :: after ->
  Forall (fun k' => is_Some (config !! k')) before ->
  config !! k = None ->
  stage_1_seo_queries config client = Raise (KeyError k).
Proof.
intros Hsplit Hbefore Hk.
assert (stage_1_prompt config = Raise (KeyError k)) as Hprompt.
{ unfold stage_1_prompt. unfold stage_1_keys in Hsplit.
  repeat (destruct before as [|? before];
          [ cbn [app] in Hsplit; injection Hsplit as <- _;
            by rewrite (getitem_None _ _ Hk)
          | cbn [app] in Hsplit; injection Hsplit as <- Hsplit;
            apply Forall_cons in Hbefore as [Hv Hbefore];
            destruct Hv as [? Hv];
            rewrite (getitem_Some _ _ _ Hv); clear Hv; cbn [bind] ]).
  destruct before; discriminate Hsplit. }
unfold stage_1_seo_queries. by rewrite Hprompt.
Qed.

Lemma stage_1_missing_key_witness :
  stage_1_seo_queries (delete (u "mood") stage_1_config) None
  = Raise (KeyError (u "mood")).
Proof.
apply (stage_1_missing_key _ None [u "topic"; u "tone"]
         [u "theme"; u "main_keyword"; u "target_audience"] (u "mood")).
- reflexivity.
- repeat constructor; vm_compute; eauto.
- vm_compute. reflexivity.
Defined.

Lemma split_from_single c s :
  forall skip cur piece,
    c ∉ cur ->
    piece ∈ Str.split_from [c] skip cur s -> c ∉ piece.
Proof.
induction s as [|a s IH]; intros skip cur piece Hcur Hin; simpl in Hin.
- by apply list_elem_of_singleton in Hin as ->.
- destruct skip as [|n]; [|by eapply IH].
  destruct (N.eqb c a) eqn:Ha; simpl in Hin.
  + apply elem_of_cons in Hin as [->|Hin]; [done|].
    eapply IH; [|exact Hin]. apply not_elem_of_nil.
  + eapply IH; [|exact Hin]. apply N.eqb_neq in Ha.
    rewrite not_elem_of_app, list_elem_of_singleton. split; [done|congruence].
Qed.

(** X6: with a client, Stage 1 returns at most five queries, each of them
    a string that is non-empty, without leading or trailing whitespace and
    without line feed; without a client it returns exactly five. *)
Theorem stage_1_queries_shape (config : dict) (client : option llm_client)
    (queries : list pyval) :
  stage_1_seo_queries config client = Ok queries ->
  length queries <= 5
  /\ (client = None -> length queries = 5)
  /\ (forall c, client = Some c ->
        forall q, q ∈ queries ->
        exists text,
          q = VStr text /\ text <> [] /\ trimmed text /\ Char.LF ∉ text).
Proof.
unfold stage_1_seo_queries. intros H.
apply bind_ok in H as (prompt & _ & H).
destruct client as [c|].
- apply bind_ok in H as (response & _ & H). apply Ok_inj in H as <-.
  split; [rewrite length_map, length_take; lia|]. split; [done|].
  intros c' _ q Hq.
  change (map VStr ?l) with (VStr <$> l) in Hq.
  apply list_elem_of_fmap in Hq as (text & -> & Hq). exists text.
  split; [done|].
  apply elem_of_take in Hq as (i & Hq & _).
  apply list_elem_of_lookup_2, list_elem_of_fmap in Hq as (q0 & -> & Hq0).
  apply list_elem_of_filter in Hq0 as [Hne Hq0].
  split; [done|]. split; [apply strip_trimmed|].
  intros Hlf. apply strip_subseteq in Hlf.
  eapply (split_from_single Char.LF); [|exact Hq0|exact Hlf].
  apply not_elem_of_nil.
- apply bind_ok in H as (kw & _ & H). apply Ok_inj in H as <-.
  split; [simpl; lia|]. split; [done|]. intros c Hc. discriminate Hc.
Qed.

Lemma stage_1_queries_shape_witness :
  exists text,
    VStr (u "keto diet") = VStr text
    /\ text <> [] /\ trimmed text /\ Char.LF ∉ text.
Proof.
apply (proj2 (proj2 (stage_1_queries_shape stage_1_config
                       (Some (constant_client seven_line_reply))
                       (map VStr [u "keto diet"; u "meal prep";
                                  u "home workout"; u "lose belly fat";
                                  u "healthy recipes"])
                       ltac:(vm_compute; reflexivity)))
         (constant_client seven_line_reply) eq_refl (VStr (u "keto diet"))).
left.
Defined.

(** ** The Template Applier, further *)

Lemma set_template_other config a b c d e f g h k :
  k ∉ template_keys ->
  set_template config a b c d e f g h !! k = config !! k.
Proof.
unfold template_keys. rewrite !not_elem_of_cons.
intros (H1 & H2 & H3 & H4 & H5 & H6 & H7 & H8 & _).
unfold set_template. cbv zeta.
by rewrite !lookup_insert_ne by done.
Qed.

Lemma set_template_key config a b c d e f g h k :
  k ∈ template_keys ->
  set_template config a b c d e f g h !! k
  = set_template ∅ a b c d e f g h !! k.
Proof.
unfold template_keys. intros Hk.
destruct (set_template_lookups config a b c d e f g h)
  as (H1 & H2 & H3 & H4 & H5 & H6 & H7 & H8).
destruct (set_template_lookups ∅ a b c d e f g h)
  as (E1 & E2 & E3 & E4 & E5 & E6 & E7 & E8).
cbv zeta in H1, H2, H3, H4, H5, H6, H7, H8, E1, E2, E3, E4, E5, E6, E7, E8.
repeat (apply elem_of_cons in Hk as [->|Hk];
        [first [ by rewrite H1, E1 | by rewrite H2, E2 | by rewrite H3, E3
               | by rewrite H4, E4 | by rewrite H5, E5 | by rewrite H6, E6
               | by rewrite H7, E7 | by rewrite H8, E8 ]|]).
by apply elem_of_nil in Hk.
Qed.

Lemma set_template_absorb config a b c d e f g h a' b' c' d' e' f' g' h' :
  set_template (set_template config a' b' c' d' e' f' g' h') a b c d e f g h
  = set_template config a b c d e f g h.
Proof.
apply map_eq. intros k. destruct (decide (k ∈ template_keys)) as [Hk|Hk].
- etrans; [by apply set_template_key|]. symmetry. by apply set_template_key.
- by rewrite !set_template_other by done.
Qed.

Lemma apply_template_known (config : dict) (template : str) :
  template ∈ template_names ->
  exists a b c d e f g h,
    (forall cfg, apply_template_defaults cfg template
                 = set_template cfg a b c d e f g h)
    /\ (a <= b)%Z /\ (0 < c)%Z /\ (0 < d)%Z /\ (e <= f)%Z /\ (g <= h)%Z.
Proof.
unfold template_names. intros Ht.
repeat (apply elem_of_cons in Ht as [->|Ht];
        [do 8 eexists; split; [intros cfg; reflexivity | lia]|]).
by apply elem_of_nil in Ht.
Qed.

(** X7: a template writes its eight keys and nothing else: every other
    key of the configuration keeps its value (or stays absent), for any
    template name. *)
Theorem template_keeps_other_keys (config : dict) (template k : str) :
  k ∉ template_keys ->
  apply_template_defaults config template !! k = config !! k.
Proof.
intros Hk. unfold apply_template_defaults.
repeat (destruct (Str.eqb template _); [by apply set_template_other|]).
done.
Qed.

Lemma template_keeps_other_keys_witness :
  apply_template_defaults stage_1_config (u "deepdive") !! u "topic"
  = stage_1_config !! u "topic".
Proof.
apply template_keeps_other_keys.
unfold template_keys. rewrite !not_elem_of_cons.
repeat split; try key_neq. apply not_elem_of_nil.
Defined.

(** X8: each of the three templates leaves the configuration with ordered
    word bounds (min <= max for intro, final and review) and positive
    [num_chapters] and [chapter_length]; standard sets 600-900, 5 x 1200,
    600-900, 300-500 and deepdive 800-1200, 8 x 2000, 800-1200, 400-700. *)
Theorem templates_keep_bounds_ordered (config : dict) (template : str) :
  template ∈ template_names ->
  (let config' := apply_template_defaults config template in
   bounds_ordered config' (u "intro_min_words") (u "intro_max_words")
   /\ bounds_ordered config' (u "final_min_words") (u "final_max_words")
   /\ bounds_ordered config' (u "review_min_words") (u "review_max_words")
   /\ positive_at config' (u "num_chapters")
   /\ positive_at config' (u "chapter_length"))
  /\ apply_template_defaults config (u "standard")
     = set_template config 600 900 5 1200 600 900 300 500
  /\ apply_template_defaults config (u "deepdive")
     = set_template config 800 1200 8 2000 800 1200 400 700.
Proof.
intros Ht. split; [|split; reflexivity].
destruct (apply_template_known config template Ht)
  as (a & b & c & d & e & f & g & h & Happly & Hab & Hc & Hd & Hef & Hgh).
cbv zeta. rewrite Happly.
destruct (set_template_lookups config a b c d e f g h)
  as (H1 & H2 & H3 & H4 & H5 & H6 & H7 & H8).
split; [by exists a, b|]. split; [by exists e, f|].
split; [by exists g, h|]. split; [by exists c | by exists d].
Qed.

Lemma templates_keep_bounds_ordered_witness :
  positive_at (apply_template_defaults stage_1_config (u "deepdive"))
    (u "num_chapters").
Proof.
destruct (templates_keep_bounds_ordered stage_1_config (u "deepdive"))
  as [(_ & _ & _ & H & _) _]; [|exact H].
unfold template_names. repeat constructor.
Defined.

(** X9: applying a known template wipes what an earlier template wrote:
    the result is the same as applying it alone; in particular a template
    applied twice changes nothing the second time. *)
Theorem template_last_wins (config : dict) (first last : str) :
  last ∈ template_names ->
  apply_template_defaults (apply_template_defaults config first) last
  = apply_template_defaults config last.
Proof.
intros Ht.
destruct (apply_template_known config last Ht)
  as (a & b & c & d & e & f & g & h & Happly & _).
rewrite !Happly. unfold apply_template_defaults.
repeat (destruct (Str.eqb first _); [apply set_template_absorb|]).
done.
Qed.

Lemma template_last_wins_witness :
  apply_template_defaults
    (apply_template_defaults stage_1_config (u "deepdive")) (u "quickstart")
  = apply_template_defaults stage_1_config (u "quickstart").
Proof.
apply template_last_wins. unfold template_names. repeat constructor.
Defined.

(** ** The heuristic defaults and the mock client *)

Lemma lstrip_by_head p s c t : Str.lstrip_by p s = c :: t -> p c = false.
Proof.
induction s as [|a s IH]; [done|]. simpl.
destruct (p a) eqn:Ha; [done|]. by intros [= <- _].
Qed.

Lemma strip_head s c t : Str.strip s = c :: t -> Char.is_space c = false.
Proof.
unfold Str.strip.
destruct (Str.lstrip_by Char.is_space s) as [|a s'] eqn:Hs; [done|].
pose proof (lstrip_by_head _ _ _ _ Hs) as Ha.
rewrite (rstrip_by_cons_keep _ _ _ Ha). by intros [= <- _].
Qed.

Lemma words_from_nil s :
  forall cur, Str.words_from cur s = [] <-> cur = [] /\ blank s.
Proof.
induction s as [|c s IH]; intros cur; simpl.
- destruct cur; split; try done; [by split; [|constructor] | by intros [? _]].
- destruct (Char.is_space c) eqn:Hc.
  + destruct cur as [|a cur].
    * rewrite IH. split; intros [? Hs]; split; try done.
      -- by constructor.
      -- by inversion Hs.
    * split; [done | by intros [? _]].
  + rewrite IH. split.
    * intros [Hcur _]. by destruct cur.
    * intros [_ Hs]. inversion Hs; congruence.
Qed.

Lemma words_nil s : Str.words s = [] <-> blank s.
Proof. unfold Str.words. rewrite words_from_nil. tauto. Qed.

Lemma words_from_clean s :
  forall cur w,
    Forall (fun c => Char.is_space c = false) cur ->
    w ∈ Str.words_from cur s ->
    w <> [] /\ Forall (fun c => Char.is_space c = false) w.
Proof.
induction s as [|c s IH]; intros cur w Hcur Hw; simpl in Hw.
- destruct cur as [|a cur]; [by apply elem_of_nil in Hw|].
  by apply list_elem_of_singleton in Hw as ->.
- destruct (Char.is_space c) eqn:Hc.
  + destruct cur as [|a cur]; [by eapply IH|].
    apply elem_of_cons in Hw as [->|Hw]; [done|].
    eapply IH; [|exact Hw]. constructor.
  + eapply IH; [|exact Hw]. apply Forall_app. split; [done|by constructor].
Qed.

Lemma default_config_keys topic d :
  generate_default_config topic = Ok d ->
  Forall (fun k => is_Some (d !! k)) default_keys
  /\ d !! u "topic" = Some (VStr topic)
  /\ d !! u "chapter_length" = Some (VInt 2000)
  /\ exists keyword,
       d !! u "main_keyword" = Some (VStr keyword)
       /\ match topic with
          | [] => keyword = u "wellness"
          | _ => head (Str.words topic) = Some keyword
          end.
Proof.
unfold generate_default_config. cbv zeta. intros H.
apply bind_ok in H as (keyword & Hkw & H). apply Ok_inj in H as <-.
cbn [list_to_map foldr uncurry fst snd].
split; [|split; [|split]].
- unfold default_keys.
  repeat (constructor;
          [repeat (first [ rewrite lookup_insert_eq; by eauto
                         | rewrite lookup_insert_ne by key_neq ])|]).
  constructor.
- apply lookup_insert_eq.
- repeat (first [ apply lookup_insert_eq
                | rewrite lookup_insert_ne by key_neq ]).
- exists keyword. split.
  + repeat (first [ apply lookup_insert_eq
                  | rewrite lookup_insert_ne by key_neq ]).
  + destruct topic as [|c topic]; [by apply Ok_inj in Hkw|].
    unfold index in Hkw.
    destruct (Str.words (c :: topic)) as [|w ws]; [discriminate Hkw|].
    simpl in Hkw. by apply Ok_inj in Hkw as ->.
Qed.

(** X10: the heuristic defaults raise [IndexError] exactly for a topic that
    is not empty but made of whitespace only. For any other topic they hold
    the ten keys of a configuration, with the topic itself under [topic],
    2000 under [chapter_length], and under [main_keyword] the first word of
    the topic (non-empty, without whitespace), or "wellness" for the empty
    topic. *)
Theorem default_config_behaviour (topic : str) :
  (topic <> [] /\ blank topic <->
   generate_default_config topic = Raise IndexError)
  /\ (topic = [] \/ ~ blank topic ->
      exists d keyword,
        generate_default_config topic = Ok d
        /\ Forall (fun k => is_Some (d !! k)) default_keys
        /\ d !! u "topic" = Some (VStr topic)
        /\ d !! u "chapter_length" = Some (VInt 2000)
        /\ d !! u "main_keyword" = Some (VStr keyword)
        /\ keyword <> []
        /\ Forall (fun c => Char.is_space c = false) keyword
        /\ (topic = [] -> keyword = u "wellness")
        /\ (topic <> [] -> head (Str.words topic) = Some keyword)).
Proof.
split.
- split.
  + intros [Hne Hblank]. unfold generate_default_config. cbv zeta.
    destruct topic as [|c topic]; [done|].
    apply words_nil in Hblank. by rewrite Hblank.
  + intros H. unfold generate_default_config in H. cbv zeta in H.
    destruct topic as [|c topic]; [discriminate H|].
    split; [done|]. apply words_nil.
    destruct (Str.words (c :: topic)); [done | discriminate H].
- intros Htopic.
  destruct (default_config_total topic) as [d Hd].
  { destruct Htopic as [->|Hnb]; [by left|]. right. by rewrite words_nil. }
  destruct (default_config_keys _ _ Hd) as (Hkeys & Ht & Hlen & kw & Hkw & Hw).
  exists d, kw. repeat (split; [done|]).
  destruct topic as [|c topic].
  + subst kw. split; [done|]. split; [|done]. vm_compute. repeat constructor.
  + assert (kw ∈ Str.words (c :: topic)) as Hin.
    { destruct (Str.words (c :: topic)) as [|w ws]; [done|].
      simpl in Hw. apply (inj Some) in Hw as ->. by left. }
    apply words_from_clean in Hin as [Hne Hclean]; [|constructor].
    done.
Qed.

Lemma default_config_behaviour_witness :
  exists d,
    generate_default_config (u "  keto diet") = Ok d
    /\ d !! u "main_keyword" = Some (VStr (u "keto")).
Proof.
destruct (proj2 (default_config_behaviour (u "  keto diet")))
  as (d & kw & Hd & _ & _ & _ & Hkw & _ & _ & _ & Hhead).
- right. intros Hb. apply Forall_inv_tail, Forall_inv_tail, Forall_inv in Hb.
  vm_compute in Hb. discriminate Hb.
- exists d. split; [exact Hd|]. rewrite Hkw.
  assert (head (Str.words (u "  keto diet")) = Some (u "keto")) as Hk
    by (vm_compute; reflexivity).
  rewrite Hhead in Hk by (vm_compute; discriminate). congruence.
Defined.

(** X11: the mock client answers every prompt: the first word it takes
    from the topic line of a configuration prompt always exists, because
    the topic is trimmed and "wellness" stands in for an empty one. *)
Theorem mock_generate_total (prompt : str) :
  exists reply, mock_generate prompt = Ok reply.
Proof.
unfold mock_generate.
destruct (_ || _ || _); [|destruct (_ || _); [eauto|];
                          destruct (_ || _); [eauto|];
                          destruct (Str.contains _ _); eauto].
assert (forall topic, topic = u "wellness" \/ (exists s, topic = Str.strip s) ->
          exists w, (match topic with
                     | [] => Ok (u "wellness")
                     | _ => index (Str.words topic) 0
                     end) = Ok w) as Hword.
{ intros topic [->|[s ->]]; [vm_compute; eauto|].
  destruct (Str.strip s) as [|c t] eqn:Hs; [eauto|].
  apply strip_head in Hs as Hc.
  destruct (Str.words (c :: t)) as [|w ws] eqn:Hw; [|unfold index; simpl; eauto].
  apply words_nil, Forall_inv in Hw. congruence. }
destruct (Str.contains (u "Given Topic:") prompt).
- destruct (index (Str.split (u "Given Topic:") prompt) 1) as [after|e];
    cbn [bind try_except].
  + destruct (index (Str.split Str.nl after) 0) as [line|e];
      cbn [bind try_except].
    * destruct (Hword (Str.strip line)) as [w ->]; [eauto|].
      cbn [bind]. eauto.
    * destruct (Hword (u "wellness")) as [w ->]; [eauto|].
      cbn [bind]. eauto.
  + destruct (Hword (u "wellness")) as [w ->]; [eauto|].
    cbn [bind]. eauto.
- cbn [bind]. destruct (Hword (u "wellness")) as [w ->]; [eauto|].
  cbn [bind]. eauto.
Qed.

(** ** The pipeline and the files it finds *)

Lemma stable_bind {A B : Type} key (m : io A) (k : A -> io B) :
  io_stable key m -> (forall a, io_stable key (k a)) ->
  io_stable key (io_bind m k).
Proof.
intros Hm Hk fs1 fs2 Hfs. unfold io_bind.
destruct (Hm fs1 fs2 Hfs) as [Hr Hs].
destruct (m fs1) as [[a1|e1] fs1'], (m fs2) as [[a2|e2] fs2'];
  simpl in *; try discriminate Hr.
- apply Ok_inj in Hr as ->. by apply Hk.
- injection Hr as ->. by split.
Qed.

Lemma stable_lift {A : Type} key (r : result A) : io_stable key (lift r).
Proof. by intros fs1 fs2 Hfs. Qed.

Lemma stable_ret {A : Type} key (a : A) : io_stable key (io_ret a).
Proof. by intros fs1 fs2 Hfs. Qed.

Lemma stable_raise {A : Type} key e : io_stable key (@io_raise A e).
Proof. by intros fs1 fs2 Hfs. Qed.

Lemma stable_save key out name content :
  io_stable key (save_stage_output out name content).
Proof.
intros fs1 fs2 Hfs. unfold save_stage_output, write_file.
destruct (existsb is_surrogate content); simpl; (split; [done|]);
  (destruct (decide ((out, name) = key)) as [->|Hne];
   [by rewrite !lookup_insert_eq | by rewrite !lookup_insert_ne]).
Qed.

Lemma stable_save_chapters key out prefix chapters :
  forall i, io_stable key (save_chapters out prefix i chapters).
Proof.
induction chapters as [|ch rest IH]; intros i; cbn [save_chapters].
- apply stable_ret.
- apply stable_bind; [apply stable_save | intros _; apply IH].
Qed.

Lemma stable_read key : io_stable key (read_text_if_exists key).
Proof.
intros fs1 fs2 Hfs. unfold read_text_if_exists. simpl. by rewrite Hfs.
Qed.

Lemma stable_compile key r out client :
  io_stable key (compile_ebook r out client).
Proof.
intros fs1 fs2 Hfs. unfold compile_ebook.
destruct (compile_body r client) as [[x|e] text]; simpl; (split; [done|]);
  (destruct (decide ((out, u "FINAL_EBOOK.md") = key)) as [->|Hne];
   [by rewrite !lookup_insert_eq | by rewrite !lookup_insert_ne]).
Qed.

Lemma stable_bind_ret {A B : Type} key (a : A) (k : A -> io B) :
  io_stable key (k a) -> io_stable key (io_bind (io_ret a) k).
Proof. intros H fs1 fs2 Hfs. exact (H fs1 fs2 Hfs). Qed.

(** Stage 4 reads the outline file of the directory named by the
    configuration, and nothing else. *)
Lemma stable_stage_4 (config : dict) out queries client :
  config !! u "output_dir" = Some (VStr out) ->
  io_stable (out, u "stage_2_outline.md")
    (stage_4_chapters config queries client).
Proof.
intros Hout. unfold stage_4_chapters, get_or at 1. rewrite Hout.
cbn [default path_of]. apply stable_bind_ret.
apply stable_bind; [apply stable_read|]. intros found.
apply stable_bind.
{ destruct (default [] found); [apply stable_ret | apply stable_lift]. }
intros titles. apply stable_bind; [|intros ?; apply stable_lift].
destruct titles; [|apply stable_ret].
apply stable_bind; [|intros ?; apply stable_ret].
unfold py_range. destruct (get_or _ _ _);
  first [apply stable_ret | apply stable_raise].
Qed.

Lemma blind_bind {A B : Type} (m : io A) (k : A -> io B) :
  io_blind m -> (forall a, io_blind (k a)) -> io_blind (io_bind m k).
Proof.
intros Hm Hk fs1 fs2. unfold io_bind. specialize (Hm fs1 fs2).
destruct (m fs1) as [[a1|e1] fs1'], (m fs2) as [[a2|e2] fs2'];
  simpl in *; try discriminate Hm; [|by injection Hm as ->].
apply Ok_inj in Hm as ->. apply Hk.
Qed.

Lemma blind_lift {A : Type} (r : result A) : io_blind (lift r).
Proof. by intros fs1 fs2. Qed.

Lemma blind_save out name content :
  io_blind (save_stage_output out name content).
Proof.
intros fs1 fs2. unfold save_stage_output, write_file.
by destruct (existsb is_surrogate content).
Qed.

(** Once a file is written, what follows may depend on it. *)
Lemma blind_save_then {B : Type} out name content (k : unit -> io B) :
  (forall a, io_stable (out, name) (k a)) ->
  io_blind (io_bind (save_stage_output out name content) k).
Proof.
intros Hk fs1 fs2. unfold io_bind, save_stage_output, write_file.
destruct (existsb is_surrogate content); [done|].
apply Hk. by rewrite !lookup_insert_eq.
Qed.

Lemma blind_pipeline config out client :
  io_blind (execute_pipeline config out client).
Proof.
unfold execute_pipeline.
apply blind_bind; [apply blind_lift|]. intros queries.
apply blind_bind; [apply blind_lift|]. intros lines.
apply blind_bind; [apply blind_save|]. intros _.
apply blind_bind; [apply blind_lift|]. intros outline.
apply blind_save_then. intros _. cbv zeta.
apply stable_bind; [apply stable_lift|]. intros toc.
apply stable_bind; [apply stable_save|]. intros _.
apply stable_bind; [apply stable_stage_4, lookup_insert_eq|]. intros chapters.
repeat first
  [ apply stable_lift | apply stable_ret | apply stable_save
  | apply stable_save_chapters | apply stable_compile
  | apply stable_bind; [|intros ?] ].
Qed.

(** X13: what the pipeline returns (its results, or the exception it
    raises) does not depend on the files present when it starts: Stage 4
    reads the outline file only after Stage 2 has written it, so an outline
    left by an earlier run is never used. *)
Theorem pipeline_ignores_prior_files (config : dict) (out : str)
    (client : option llm_client) (fs1 fs2 : files) :
  fst (execute_pipeline config out client fs1)
  = fst (execute_pipeline config out client fs2).
Proof. apply blind_pipeline. Qed.

(** ** File names *)

Lemma u_inj a b : u a = u b -> a = b.
Proof.
unfold u. intros H.
rewrite <- (string_of_list_ascii_of_string a),
        <- (string_of_list_ascii_of_string b).
f_equal. revert H.
generalize (list_ascii_of_string a) (list_ascii_of_string b).
intros l. induction l as [|x l IH]; intros [|y l']; simpl;
  try discriminate; [done|].
intros [= Hxy Hl]. f_equal; [|by apply IH].
by rewrite <- (ascii_N_embedding x), <- (ascii_N_embedding y), Hxy.
Qed.

Lemma to_int_printable z :
  NilZero.int_of_string (NilZero.string_of_int (Z.to_int z))
  = Some (Z.to_int z).
Proof.
apply NilZero.isi; destruct z; simpl; try discriminate;
  intros [= Hp]; by apply (Unsigned.to_uint_nonnil p).
Qed.

(** [str(i) == str(j)] only for [i == j]. *)
Lemma of_Z_inj a b : Str.of_Z a = Str.of_Z b -> a = b.
Proof.
unfold Str.of_Z. intros H%u_inj. apply to_int_inj.
pose proof (to_int_printable a) as Ha. rewrite H, to_int_printable in Ha.
congruence.
Qed.

Lemma of_nat_inj i j : Str.of_nat i = Str.of_nat j -> i = j.
Proof. unfold Str.of_nat. intros H%of_Z_inj. lia. Qed.

Lemma chapter_file_inj prefix i j :
  chapter_file prefix i = chapter_file prefix j -> i = j.
Proof.
unfold chapter_file. intros H%app_inv_head%app_inv_tail. by apply of_nat_inj.
Qed.

Lemma starts_with_app p s : Str.starts_with p (p ++ s) = true.
Proof.
induction p as [|c p IH]; simpl; [done|]. by rewrite N.eqb_refl.
Qed.

Lemma starts_with_chapter_file prefix i :
  Str.starts_with prefix (chapter_file prefix i) = true.
Proof. apply starts_with_app. Qed.

(** ** What the pipeline leaves in its directory *)

Lemma save_stage_output_ok out name content fs x fs' :
  save_stage_output out name content fs = (Ok x, fs') ->
  fs' = <[(out, name) := content]> fs.
Proof.
unfold save_stage_output, write_file.
destruct (existsb is_surrogate content); [discriminate|]. by intros [= _ <-].
Qed.

Lemma save_chapters_ok out prefix chapters :
  forall i fs x fs',
    save_chapters out prefix i chapters fs = (Ok x, fs') ->
    fs' = store_chapters out prefix i chapters fs.
Proof.
induction chapters as [|chapter rest IH]; intros i fs x fs' H; simpl in *.
- by injection H as _ <-.
- apply io_bind_ok in H as (y & fs1 & H1 & H).
  apply save_stage_output_ok in H1 as ->. by apply IH in H.
Qed.

Lemma store_chapters_other out prefix chapters dir name :
  Str.starts_with prefix name = false ->
  forall i fs,
    store_chapters out prefix i chapters fs !! (dir, name) = fs !! (dir, name).
Proof.
intros Hname. induction chapters as [|chapter rest IH]; intros i fs; simpl.
- done.
- rewrite IH. apply lookup_insert_ne. intros [= _ <-].
  change (prefix ++ Str.of_nat i ++ u ".md") with (chapter_file prefix i)
    in Hname.
  by rewrite starts_with_chapter_file in Hname.
Qed.

Lemma store_chapters_before out prefix chapters :
  forall i fs k,
    k < i ->
    store_chapters out prefix i chapters fs !! (out, chapter_file prefix k)
    = fs !! (out, chapter_file prefix k).
Proof.
induction chapters as [|chapter rest IH]; intros i fs k Hk; simpl.
- done.
- rewrite IH by lia. apply lookup_insert_ne. intros [= H].
  apply (chapter_file_inj prefix i k) in H. lia.
Qed.

(** Chapter [j] of the list is in the file numbered from the start of the
    loop. *)
Lemma store_chapters_lookup out prefix chapters :
  forall i fs j chapter,
    chapters !! j = Some chapter ->
    store_chapters out prefix i chapters fs
      !! (out, chapter_file prefix (i + j))
    = Some chapter.
Proof.
induction chapters as [|c rest IH]; intros i fs j chapter Hj; [done|].
destruct j as [|j]; simpl in *.
- injection Hj as ->. rewrite store_chapters_before by lia.
  rewrite Nat.add_0_r. apply lookup_insert_eq.
- replace (i + S j) with (S i + j) by lia. by apply IH.
Qed.

Lemma universal_newlines_nil s : universal_newlines s = [] -> s = [].
Proof.
destruct s as [|c [|c' s]]; [done| |]; simpl;
  repeat case_match; discriminate.
Qed.

Lemma extract_universal_newlines outline :
  extract_chapter_titles (universal_newlines outline)
  = extract_chapter_titles outline.
Proof.
unfold extract_chapter_titles. by rewrite splitlines_universal_newlines.
Qed.

(** Stage 4 on a directory that holds the outline: the titles are those
    of the outline as it was written. *)
Lemma stage_4_chapters_eq (cfg : dict) queries client fs out outline :
  cfg !! u "output_dir" = Some (VStr out) ->
  fs !! (out, u "stage_2_outline.md") = Some outline ->
  stage_4_chapters cfg queries client fs
  = (exec titles <- lift (extract_chapter_titles outline);
     exec titles <-
       match titles with
       | [] =>
           exec r <- py_range (get_or cfg (u "num_chapters") (VInt 5));
           io_ret (fallback_titles r)
       | _ => io_ret titles
       end;
     lift (write_chapters cfg client 1 titles)) fs.
Proof.
intros Hout Hfile. unfold stage_4_chapters, get_or at 1. rewrite Hout.
change (default (VStr (u "./output")) (Some (VStr out))) with (VStr out).
change (path_of (VStr out)) with (@io_ret str out).
change (io_bind (io_ret out) ?k fs) with (k out fs). cbv beta.
change (io_bind (read_text_if_exists ?p) ?k fs)
  with (k (universal_newlines <$> fs !! p) fs).
cbv beta. rewrite Hfile.
change (default [] (universal_newlines <$> Some outline))
  with (universal_newlines outline).
unfold io_bind at 1 3.
destruct (universal_newlines outline) as [|c s] eqn:E.
- apply universal_newlines_nil in E as ->. reflexivity.
- rewrite <- E, extract_universal_newlines. reflexivity.
Qed.

Lemma stage_4_chapters_store cfg queries client fs :
  snd (stage_4_chapters cfg queries client fs) = fs.
Proof.
unfold stage_4_chapters, io_bind, path_of, py_range, read_text_if_exists,
  io_ret, io_raise, lift.
repeat (case_match; simplify_eq/=; try done).
Qed.

Lemma compile_ebook_store r out client fs path fs' :
  compile_ebook r out client fs = (Ok path, fs') ->
  exists x text,
    compile_body r client = (Ok x, text)
    /\ fs' = <[(out, u "FINAL_EBOOK.md") := text]> fs.
Proof.
unfold compile_ebook.
destruct (compile_body r client) as [[x|e] text]; [|discriminate].
intros [= _ <-]. by exists x, text.
Qed.

Lemma as_strs_ok items texts :
  as_strs items = Ok texts -> items = map VStr texts.
Proof.
revert texts. induction items as [|v items IH]; intros texts H.
- by apply Ok_inj in H as <-.
- destruct v; try discriminate H. cbn [as_strs] in H.
  apply bind_ok in H as (rest & Hrest & H). apply Ok_inj in H as <-.
  by rewrite (IH _ Hrest).
Qed.

(** A join that returns has joined strings. *)
Lemma join_items_ok sep items lines :
  join_items sep items = Ok lines ->
  exists texts, items = map VStr texts /\ lines = Str.join sep texts.
Proof.
unfold join_items. intros H. apply bind_ok in H as (texts & Ht & H).
apply Ok_inj in H as <-. exists texts. split; [|done]. by apply as_strs_ok.
Qed.

(** The steps of a run that returns, and the store it leaves. *)
Lemma execute_pipeline_steps cfg out client fs r fs' :
  execute_pipeline cfg out client fs = (Ok r, fs') ->
  exists queries lines outline toc chapters first cover x text,
    let cfg' := <[u "output_dir" := VStr out]> cfg in
    let fs3 := store_first_stages out lines outline toc fs in
    stage_1_seo_queries cfg client = Ok queries
    /\ join_items Str.nl queries = Ok lines
    /\ stage_2_outline cfg queries client = Ok outline
    /\ stage_3_toc outline client = Ok toc
    /\ stage_4_chapters cfg' queries client fs3 = (Ok chapters, fs3)
    /\ index chapters 0 = Ok first
    /\ stage_6_cover cfg' first client = Ok cover
    /\ r = {| config := cfg';
              stages :=
                {| stage_1 := Some queries;
                   stage_2 := Some outline;
                   stage_3 := Some toc;
                   stage_4 := Some chapters;
                   stage_5 := Some chapters;
                   stage_6 := Some cover;
                   stage_7 := Some (stage_7_interactive chapters client);
                   stage_8 := Some (stage_8_diagrams chapters client);
                   stage_9 := Some (stage_9_backgrounds chapters client) |};
              output_dir := out |}
    /\ compile_body r None = (Ok x, text)
    /\ fs' = <[(out, u "FINAL_EBOOK.md") := text]>
               (<[(out, u "stage_6_cover_prompt.txt") := cover]>
                  (store_chapters out (u "stage_5_optimized_chapter_") 1
                     chapters
                     (store_chapters out (u "stage_4_chapter_") 1 chapters
                        fs3))).
Proof.
unfold execute_pipeline. cbv zeta. intros H.
apply io_bind_ok in H as (queries & fs1 & H1 & H).
apply lift_ok in H1 as [H1 ->].
apply io_bind_ok in H as (lines & fs1' & Hj & H).
apply lift_ok in Hj as [Hj ->].
apply io_bind_ok in H as (? & fs2 & Hs1 & H).
apply save_stage_output_ok in Hs1 as ->.
apply io_bind_ok in H as (outline & fs3 & H2 & H).
apply lift_ok in H2 as [H2 ->].
apply io_bind_ok in H as (? & fs4 & Hs2 & H).
apply save_stage_output_ok in Hs2 as ->.
apply io_bind_ok in H as (toc & fs5 & H3 & H).
apply lift_ok in H3 as [H3 ->].
apply io_bind_ok in H as (? & fs6 & Hs3 & H).
apply save_stage_output_ok in Hs3 as ->.
apply io_bind_ok in H as (chapters & fs7 & H4 & H).
pose proof (stage_4_chapters_store
              (<[u "output_dir" := VStr out]> cfg) queries client
              (store_first_stages out lines outline toc fs)) as Hst.
unfold store_first_stages in Hst. rewrite H4 in Hst. simpl in Hst. subst fs7.
apply io_bind_ok in H as (? & fs8 & Hc4 & H).
apply save_chapters_ok in Hc4 as ->.
apply io_bind_ok in H as (? & fs9 & Hc5 & H).
apply save_chapters_ok in Hc5 as ->.
apply io_bind_ok in H as (first & fs10 & H5 & H).
apply lift_ok in H5 as [H5 ->].
apply io_bind_ok in H as (cover & fs11 & H6 & H).
apply lift_ok in H6 as [H6 ->].
apply io_bind_ok in H as (? & fs12 & Hs6 & H).
apply save_stage_output_ok in Hs6 as ->.
apply io_bind_ok in H as (path & fs13 & Hcompile & H).
apply io_ret_ok in H as [-> ->].
apply compile_ebook_store in Hcompile as (done_ & text & Hbody & ->).
exists queries, lines, outline, toc, chapters, first, cover, done_, text.
unfold stage_5_optimize in *. done.
Qed.

Lemma chapter_file_ne prefix i (dir out name : str) :
  Str.starts_with prefix name = false ->
  (dir, name) <> (out, chapter_file prefix i).
Proof.
intros Hname [= _ ->]. by rewrite starts_with_chapter_file in Hname.
Qed.

Lemma write_chapters_headings cfg client titles :
  forall first chapters,
    write_chapters cfg client first titles = Ok chapters ->
    length chapters = length titles
    /\ forall j title,
         titles !! j = Some title ->
         exists body,
           chapters !! j
           = Some (chapter_heading (first + j) title ++ Str.nl ++ Str.nl
                   ++ body).
Proof.
induction titles as [|t titles IH]; intros first chapters H;
  cbn [write_chapters] in H.
- apply Ok_inj in H as <-. split; [done|]. intros j title Hj.
  by rewrite lookup_nil in Hj.
- apply bind_ok in H as (chapter & Hch & H).
  apply bind_ok in H as (rest & Hrest & H). apply Ok_inj in H as <-.
  apply IH in Hrest as [Hlen Hall]. split; [simpl; by rewrite Hlen|].
  intros [|j] title Hj.
  + cbn in Hj. apply (inj Some) in Hj as <-.
    rewrite Nat.add_0_r. cbn [lookup list_lookup].
    destruct client as [c|].
    * apply bind_ok in Hch as (prompt & _ & Hch).
      apply bind_ok in Hch as (text & _ & Hch).
      destruct text as [|a text]; apply Ok_inj in Hch as <-.
      -- by exists (u "(Empty)").
      -- by exists (Str.strip (a :: text)).
    * apply Ok_inj in Hch as <-.
      exists (u "Content for " ++ t ++ u "..."). by rewrite <- ?app_assoc.
  + cbn in Hj. destruct (Hall j title Hj) as (body & Hb). exists body.
    replace (first + S j) with (S first + j) by lia. done.
Qed.

Lemma stage_3_toc_cases outline client titles :
  extract_chapter_titles outline = Ok titles ->
  stage_3_toc outline client
  = Ok (match titles with [] => toc_placeholder | _ => numbered_toc titles end).
Proof.
intros H. unfold stage_3_toc. rewrite H. simpl. by destruct titles.
Qed.

Lemma py_range_ok (cfg : dict) fs r fs' :
  py_range (get_or cfg (u "num_chapters") (VInt 5)) fs = (Ok r, fs') ->
  exists n, chapter_count cfg = Some n /\ r = seq 0 n.
Proof.
unfold py_range, chapter_count.
destruct (get_or _ _ _); try discriminate; intros [= <- _]; eauto.
Qed.

Lemma fallback_titles_lookup n j :
  j < n ->
  fallback_titles (seq 0 n) !! j = Some (u "Chapter " ++ Str.of_nat (j + 1)).
Proof.
intros Hj. unfold fallback_titles.
change (map ?f ?l) with (f <$> l).
by rewrite list_lookup_fmap, lookup_seq_lt.
Qed.

(** X14: in a run that returns, the table of contents and the chapters
    come from one list of titles, that of the outline Stage 2 returned:
    with titles, entry [j] of the table and the heading of chapter [j]
    carry the same title and the same number; without titles the table is
    the placeholder and the chapters are named "Chapter 1" to "Chapter n",
    [n] being [num_chapters] (5 when absent). There is at least one
    chapter, and Stage 5 hands on the chapters of Stage 4 unchanged. *)
Theorem pipeline_toc_matches_chapters (config : dict) (out : str)
    (client : option llm_client) (fs : files) (r : results) (fs' : files) :
  execute_pipeline config out client fs = (Ok r, fs') ->
  exists outline toc chapters titles,
    stage_2 (stages r) = Some outline
    /\ stage_3 (stages r) = Some toc
    /\ stage_4 (stages r) = Some chapters
    /\ stage_5 (stages r) = Some chapters
    /\ extract_chapter_titles outline = Ok titles
    /\ chapters <> []
    /\ (titles <> [] ->
        toc = numbered_toc titles
        /\ length chapters = length titles
        /\ forall j title,
             titles !! j = Some title ->
             exists body,
               chapters !! j
               = Some (chapter_heading (j + 1) title ++ Str.nl ++ Str.nl
                       ++ body))
    /\ (titles = [] ->
        toc = toc_placeholder
        /\ exists n,
             chapter_count config = Some n
             /\ length chapters = n
             /\ forall j,
                  j < n ->
                  exists body,
                    chapters !! j
                    = Some (chapter_heading (j + 1)
                              (u "Chapter " ++ Str.of_nat (j + 1))
                            ++ Str.nl ++ Str.nl ++ body)).
Proof.
intros H.
apply execute_pipeline_steps in H
  as (queries & lines & outline & toc & chapters & first & cover & x & text
      & H).
cbv zeta in H.
destruct H as (_ & _ & _ & H3 & H4 & H5 & _ & -> & _ & _).
destruct (extract_chapter_titles outline) as [titles|e] eqn:Hex.
2:{ unfold stage_3_toc in H3. rewrite Hex in H3. discriminate H3. }
rewrite (stage_3_toc_cases _ _ _ Hex) in H3. apply Ok_inj in H3.
rewrite (stage_4_chapters_eq _ _ _ _ out outline) in H4.
2:{ apply lookup_insert_eq. }
2:{ unfold store_first_stages.
    rewrite lookup_insert_ne by (intros [= Hn]; vm_compute in Hn; discriminate Hn).
    apply lookup_insert_eq. }
rewrite Hex in H4.
change (io_bind (lift (Ok titles)) ?k ?s) with (k titles s) in H4.
cbv beta in H4.
apply io_bind_ok in H4 as (titles' & fs1 & Ht & H4).
apply lift_ok in H4 as [H4 _].
apply write_chapters_headings in H4 as [Hlen Hall].
exists outline, toc, chapters, titles. cbn [stages stage_2 stage_3 stage_4 stage_5].
split; [done|]. split; [done|]. split; [done|]. split; [done|].
split; [done|].
split.
{ intros ->. discriminate H5. }
split.
- intros Hne. destruct titles as [|t titles]; [done|].
  apply io_ret_ok in Ht as [-> _]. split; [done|]. split; [done|].
  intros j title Hj. destruct (Hall j title Hj) as [body Hb].
  exists body. by rewrite Nat.add_comm.
- intros ->. split; [done|].
  apply io_bind_ok in Ht as (rg & fs2 & Hr & Ht).
  apply io_ret_ok in Ht as [-> _].
  apply py_range_ok in Hr as (n & Hn & ->).
  exists n. split.
  { revert Hn. unfold chapter_count, get_or.
    rewrite lookup_insert_ne; [done|]. intros Hk. vm_compute in Hk.
    discriminate Hk. }
  assert (length (fallback_titles (seq 0 n)) = n) as Hl.
  { unfold fallback_titles. by rewrite length_map, length_seq. }
  split; [by rewrite Hlen|].
  intros j Hj. destruct (Hall j _ (fallback_titles_lookup n j Hj)) as [body Hb].
  exists body. rewrite Hb. by rewrite (Nat.add_comm 1 j).
Qed.

Lemma pipeline_toc_matches_chapters_witness :
  exists r fs' toc chapters,
    execute_pipeline stage_1_config e2e_output None ∅ = (Ok r, fs')
    /\ stage_3 (stages r) = Some toc
    /\ stage_5 (stages r) = Some chapters
    /\ chapters <> [].
Proof.
assert (is_Some (returned (execute_pipeline stage_1_config e2e_output None ∅)))
  as Hok by (vm_compute; eauto).
destruct (execute_pipeline stage_1_config e2e_output None ∅)
  as [[r|e] fs'] eqn:Hrun; [|by destruct Hok].
destruct (pipeline_toc_matches_chapters _ _ _ _ _ _ Hrun)
  as (outline & toc & chapters & titles & _ & Htoc & _ & H5 & _ & Hne & _).
exists r, fs', toc, chapters.
split; [reflexivity|]. split; [exact Htoc|]. split; [exact H5|exact Hne].
Defined.

(** X15: when the pipeline returns, every text artifact listed in its
    results is in the output directory with the same content: the queries
    (all of them strings, one per line), the outline, the table of contents, the cover prompt,
    and each chapter twice, under its Stage 4 and its Stage 5 name, both
    numbered from 1; no chapter file overwrites another. The compiled
    document is there too. *)
Theorem pipeline_artifacts_on_disk (config : dict) (out : str)
    (client : option llm_client) (fs : files) (r : results) (fs' : files) :
  execute_pipeline config out client fs = (Ok r, fs') ->
  exists (queries : list str) outline toc chapters cover,
    stage_1 (stages r) = Some (map VStr queries)
    /\ stage_2 (stages r) = Some outline
    /\ stage_3 (stages r) = Some toc
    /\ stage_5 (stages r) = Some chapters
    /\ stage_6 (stages r) = Some cover
    /\ fs' !! (out, u "stage_1_queries.txt") = Some (Str.join Str.nl queries)
    /\ fs' !! (out, u "stage_2_outline.md") = Some outline
    /\ fs' !! (out, u "stage_3_toc.md") = Some toc
    /\ fs' !! (out, u "stage_6_cover_prompt.txt") = Some cover
    /\ (forall j chapter,
          chapters !! j = Some chapter ->
          fs' !! (out, chapter_file (u "stage_4_chapter_") (j + 1))
          = Some chapter
          /\ fs' !! (out, chapter_file (u "stage_5_optimized_chapter_") (j + 1))
             = Some chapter)
    /\ is_Some (fs' !! (out, u "FINAL_EBOOK.md")).
Proof.
intros H.
apply execute_pipeline_steps in H
  as (items & lines & outline & toc & chapters & first & cover & x & text
      & H).
cbv zeta in H. destruct H as (_ & Hjoin & _ & _ & _ & _ & _ & -> & _ & ->).
apply join_items_ok in Hjoin as (queries & -> & ->).
exists queries, outline, toc, chapters, cover.
cbn [stages stage_1 stage_2 stage_3 stage_5 stage_6].
split; [done|]. split; [done|]. split; [done|]. split; [done|].
split; [done|].
assert (forall name,
          name <> u "FINAL_EBOOK.md" ->
          name <> u "stage_6_cover_prompt.txt" ->
          Str.starts_with (u "stage_5_optimized_chapter_") name = false ->
          Str.starts_with (u "stage_4_chapter_") name = false ->
          <[(out, u "FINAL_EBOOK.md") := text]>
            (<[(out, u "stage_6_cover_prompt.txt") := cover]>
               (store_chapters out (u "stage_5_optimized_chapter_") 1 chapters
                  (store_chapters out (u "stage_4_chapter_") 1 chapters
                     (store_first_stages out (Str.join Str.nl queries)
                        outline toc fs))))
            !! (out, name)
          = store_first_stages out (Str.join Str.nl queries) outline toc fs
              !! (out, name))
  as Hfirst.
{ intros name Hn1 Hn2 Hn3 Hn4.
  rewrite lookup_insert_ne by congruence.
  rewrite lookup_insert_ne by congruence.
  by rewrite !store_chapters_other. }
split.
{ rewrite Hfirst by first [key_neq | reflexivity].
  unfold store_first_stages.
  rewrite !lookup_insert_ne by (intros [= Hn]; vm_compute in Hn; discriminate Hn).
  apply lookup_insert_eq. }
split.
{ rewrite Hfirst by first [key_neq | reflexivity].
  unfold store_first_stages.
  rewrite lookup_insert_ne by (intros [= Hn]; vm_compute in Hn; discriminate Hn).
  apply lookup_insert_eq. }
split.
{ rewrite Hfirst by first [key_neq | reflexivity].
  unfold store_first_stages. apply lookup_insert_eq. }
split.
{ rewrite lookup_insert_ne by (intros [= Hn]; vm_compute in Hn; discriminate Hn).
  apply lookup_insert_eq. }
split; [|by rewrite lookup_insert_eq].
intros j chapter Hj. rewrite (Nat.add_comm j 1). split.
- rewrite !lookup_insert_ne by (by apply chapter_file_ne).
  rewrite store_chapters_other by reflexivity.
  by apply store_chapters_lookup.
- rewrite !lookup_insert_ne by (by apply chapter_file_ne).
  by apply store_chapters_lookup.
Qed.

Lemma pipeline_artifacts_on_disk_witness :
  exists r fs' chapters,
    execute_pipeline stage_1_config e2e_output None ∅ = (Ok r, fs')
    /\ stage_5 (stages r) = Some chapters
    /\ forall j chapter,
         chapters !! j = Some chapter ->
         fs' !! (e2e_output, chapter_file (u "stage_4_chapter_") (j + 1))
         = Some chapter.
Proof.
assert (is_Some (returned (execute_pipeline stage_1_config e2e_output None ∅)))
  as Hok by (vm_compute; eauto).
destruct (execute_pipeline stage_1_config e2e_output None ∅)
  as [[r|e] fs'] eqn:Hrun; [|by destruct Hok].
destruct (pipeline_artifacts_on_disk _ _ _ _ _ _ Hrun)
  as (queries & outline & toc & chapters & cover
      & _ & _ & _ & H5 & _ & _ & _ & _ & _ & Hch & _).
exists r, fs', chapters. split; [reflexivity|]. split; [exact H5|].
intros j chapter Hj. exact (proj1 (Hch j chapter Hj)).
Defined.

(** ** Splitting at a separator *)














(** ** The fenced block of a configuration reply *)





(** ** The compiler's file when compilation fails *)

Lemma existsb_surrogate_app a b :
  existsb is_surrogate (a ++ b)
  = existsb is_surrogate a || existsb is_surrogate b.
Proof. apply existsb_app. Qed.

Lemma not_surrogate_iff c :
  is_surrogate c = false <-> (c < 55296 \/ 57343 < c)%N.
Proof.
unfold is_surrogate. rewrite andb_false_iff, N.leb_gt, N.leb_gt. tauto.
Qed.

(** No case mapping leads into the surrogates. *)
Lemma map_by_surrogate special runs c :
  forallb (fun entry => negb (existsb is_surrogate (snd entry))) special
  = true ->
  forallb (fun '(lo, hi, _, lo') =>
             (lo' + (hi - lo) <? 55296)%N || (57343 <? lo')%N) runs
  = true ->
  is_surrogate c = false ->
  existsb is_surrogate (Char.map_by special runs c) = false.
Proof.
intros Hspecial Hruns Hc. unfold Char.map_by.
destruct (find _ special) as [[k image]|] eqn:Es.
- apply find_some in Es as [Hin _].
  rewrite forallb_forall in Hspecial. apply Hspecial in Hin.
  by apply negb_true_iff in Hin.
- destruct (find _ runs) as [[[[lo hi] step] lo']|] eqn:Er.
  + apply find_some in Er as [Hin Hrun].
    rewrite forallb_forall in Hruns. apply Hruns in Hin.
    unfold Char.in_run in Hrun.
    apply andb_true_iff in Hrun as [Hrun _].
    apply andb_true_iff in Hrun as [Hlo Hhi].
    apply N.leb_le in Hlo. apply N.leb_le in Hhi.
    cbn [existsb]. rewrite orb_false_r. apply not_surrogate_iff.
    apply orb_true_iff in Hin as [Hin|Hin]; apply N.ltb_lt in Hin; lia.
  + cbn [existsb]. by rewrite Hc.
Qed.

Lemma to_title_surrogate c :
  is_surrogate c = false -> existsb is_surrogate (Char.to_title c) = false.
Proof. apply map_by_surrogate; vm_compute; reflexivity. Qed.

Lemma lower_at_surrogate before c after :
  is_surrogate c = false ->
  existsb is_surrogate (Str.lower_at before c after) = false.
Proof.
intros Hc. unfold Str.lower_at.
destruct (N.eqb c Char.CAPITAL_SIGMA).
- by destruct (Str.final_sigma before after).
- revert Hc. apply map_by_surrogate; vm_compute; reflexivity.
Qed.

(** [s.title()] of a text that encodes is a text that encodes. *)
Lemma title_surrogate s :
  existsb is_surrogate s = false ->
  existsb is_surrogate (Str.title s) = false.
Proof.
intros Hs. unfold Str.title. generalize (@nil N). revert Hs.
generalize false at 2.
induction s as [|c s IH]; intros b Hs before; [done|].
cbn [existsb] in Hs. apply orb_false_elim in Hs as [Hc Hs].
cbn [Str.title_from]. rewrite existsb_app, (IH _ Hs), orb_false_r.
destruct b; [by apply lower_at_surrogate | by apply to_title_surrogate].
Qed.

(** X17: the compiler opens the document for writing before it reads the
    configuration, so a call that fails still replaces the file: without
    [topic] it raises [KeyError] and leaves an empty document, without
    [target_audience] it raises [KeyError] after the title line, which is
    all the document then holds. Whatever the file held before is gone. *)
Theorem compile_failure_truncates_document (r : results) (out : str)
    (client : option llm_client) (fs : files) :
  (config r !! u "topic" = None ->
   compile_ebook r out client fs
   = (Raise (KeyError (u "topic")), <[(out, u "FINAL_EBOOK.md") := []]> fs))
  /\ (forall topic,
        config r !! u "topic" = Some (VStr topic) ->
        existsb is_surrogate topic = false ->
        config r !! u "target_audience" = None ->
        compile_ebook r out client fs
        = (Raise (KeyError (u "target_audience")),
           <[(out, u "FINAL_EBOOK.md")
               := u "# " ++ Str.title topic ++ Str.nl ++ Str.nl]> fs)).
Proof.
split.
- intros Htopic. unfold compile_ebook, compile_body.
  rewrite (getitem_None _ _ Htopic). reflexivity.
- intros topic Htopic Hsur Haud. unfold compile_ebook, compile_body.
  rewrite (getitem_Some _ _ _ Htopic).
  cbn [wr_lift wr_bind as_str].
  unfold f_write at 1.
  rewrite !existsb_surrogate_app, (title_surrogate _ Hsur).
  cbn [existsb orb]. change (existsb is_surrogate (u "# ")) with false.
  change (existsb is_surrogate Str.nl) with false.
  cbn [orb]. rewrite (getitem_None _ _ Haud). cbn [wr_lift wr_bind].
  by rewrite app_nil_r.
Qed.

Lemma compile_failure_truncates_document_witness :
  compile_ebook empty_results e2e_output None
    (<[e2e_final := u "An earlier document"]> ∅)
  = (Raise (KeyError (u "topic")),
     <[(e2e_output, u "FINAL_EBOOK.md") := []]>
       (<[e2e_final := u "An earlier document"]> ∅)).
Proof.
apply (proj1 (compile_failure_truncates_document empty_results e2e_output None
                (<[e2e_final := u "An earlier document"]> ∅))).
vm_compute. reflexivity.
Defined.
